(** * demo-data-extension: template engine and delivery pipeline

    A shallow embedding of the two processors of the repository,
    [demo_data_loader_playbook.py] (module [Playbook]) and
    [log_template_processor.py] (module [Processor]), with the properties
    of the date distributor, the recursive renderer, the template
    processors and the webhook delivery loops.

    Python values are modelled as follows: [int] as [Z] or [nat]
    (lengths and loop indices), [str] as [string] (a byte string whose
    white space is the ASCII one), [list] as [list], a [dict] as an
    association list in insertion order with unique keys, an exception
    as a value of [exception] carried by [result].

    The world around the code is passed in: [json.loads] and the Jinja2
    environment as functions, the clock as the function that gives the
    date of each call of [datetime.now()], the HTTP sink as the function
    that answers each request.  A delay is a number of milliseconds.
    The delivery loops return, with their counters, the list of the
    requests and sleeps they made. *)

From Stdlib Require Import String Ascii List ZArith Arith Bool Lia.
From Stdlib Require Import DecimalString Sorted.
Import ListNotations.

Set Implicit Arguments.
Set Warnings "-register-all".
Local Open Scope string_scope.
Local Open Scope list_scope.
Local Open Scope nat_scope.

(** ** Exceptions and fallible computations *)

(** The subclasses of Python's [Exception] the code can meet.  Each one
    carries what [str(e)] prints. *)
Inductive exception : Type :=
| IndexError (msg : string)
| ValueError (msg : string)
| JSONDecodeError (msg : string)
| TemplateError (msg : string)
| URLError (msg : string)
| HTTPError (msg : string)
| OtherError (msg : string).

Definition str_of_exception (e : exception) : string :=
  match e with
  | IndexError m | ValueError m | JSONDecodeError m | TemplateError m
  | URLError m | HTTPError m | OtherError m => m
  end.

Inductive result (A : Type) : Type :=
| Ok (a : A)
| Raise (e : exception).

Arguments Ok {A} a.
Arguments Raise {A} e.

Definition bind {A B} (r : result A) (k : A -> result B) : result B :=
  match r with
  | Ok a => k a
  | Raise e => Raise e
  end.

Notation "x <- c ;; k" := (bind c (fun x => k))
  (at level 61, c at next level, right associativity).

Fixpoint mapM {A B} (f : A -> result B) (l : list A) : result (list B) :=
  match l with
  | [] => Ok []
  | x :: xs => y <- f x ;; ys <- mapM f xs ;; Ok (y :: ys)
  end.

(** [l[i]] for a non-negative index. *)
Definition getitem {A} (l : list A) (i : nat) : result A :=
  match nth_error l i with
  | Some x => Ok x
  | None => Raise (IndexError "list index out of range")
  end.

(** [enumerate(l)]. *)
Definition enumerate {A} (l : list A) : list (nat * A) :=
  combine (seq 0 (List.length l)) l.

(** ** Python strings *)

Definition newline : ascii := "010"%char.

(** [needle in hay] *)
Fixpoint str_in (needle hay : string) : bool :=
  prefix needle hay ||
  match hay with
  | EmptyString => false
  | String _ hay' => str_in needle hay'
  end.

(** [c.isspace()] on the ASCII range: tab to carriage return, the four
    separators 28 to 31 and the space. *)
Definition isspace (c : ascii) : bool :=
  let n := nat_of_ascii c in
  ((9 <=? n) && (n <=? 13)) || ((28 <=? n) && (n <=? 32)).

Fixpoint lstrip (s : string) : string :=
  match s with
  | EmptyString => EmptyString
  | String c s' => if isspace c then lstrip s' else s
  end.

Definition str_rev (s : string) : string :=
  string_of_list_ascii (rev (list_ascii_of_string s)).

Definition rstrip (s : string) : string := str_rev (lstrip (str_rev s)).

(** [s.strip()] *)
Definition strip (s : string) : string := rstrip (lstrip s).

(** [s.split(sep)] for a one-character separator. *)
Fixpoint split (sep : ascii) (s : string) : list string :=
  match s with
  | EmptyString => [EmptyString]
  | String c s' =>
      if Ascii.eqb c sep then EmptyString :: split sep s'
      else match split sep s' with
           | x :: xs => String c x :: xs
           | [] => [String c EmptyString]
           end
  end.

(** [sep.join(l)] *)
Fixpoint join (sep : string) (l : list string) : string :=
  match l with
  | [] => EmptyString
  | [x] => x
  | x :: xs => (x ++ sep ++ join sep xs)%string
  end.

(** Truth value of a string: non-empty. *)
Definition truthy (s : string) : bool :=
  match s with EmptyString => false | _ => true end.

(** [str(n)] for an [int]. *)
Definition str_of_Z (z : Z) : string := NilZero.string_of_int (Z.to_int z).
Definition str_of_nat (n : nat) : string := str_of_Z (Z.of_nat n).

(** [f"{n:0{w}d}"] and [f"{n:{w}d}"] for a non-negative [n]. *)
Fixpoint repeat_char (c : ascii) (n : nat) : string :=
  match n with
  | 0 => EmptyString
  | S n' => String c (repeat_char c n')
  end.

Definition pad_left (c : ascii) (w : nat) (s : string) : string :=
  (repeat_char c (w - String.length s) ++ s)%string.

Definition zfill (w : nat) (z : Z) : string := pad_left "0"%char w (str_of_Z z).
Definition spfill (w : nat) (z : Z) : string := pad_left " "%char w (str_of_Z z).

(** ** Calendar dates ([datetime.date])

    A proleptic Gregorian date; [toordinal] counts days from
    0001-01-01 = 1 as Python does. *)

Record date : Type := mkdate { year : Z; month : Z; day : Z }.

Definition toordinal (d : date) : Z :=
  let y := if (month d <=? 2)%Z then (year d - 1)%Z else year d in
  let era := (y / 400)%Z in
  let yoe := (y - era * 400)%Z in
  let mp := if (month d >? 2)%Z then (month d - 3)%Z else (month d + 9)%Z in
  let doy := ((153 * mp + 2) / 5 + day d - 1)%Z in
  let doe := (yoe * 365 + yoe / 4 - yoe / 100 + doy)%Z in
  (era * 146097 + doe - 305)%Z.

Definition fromordinal (n : Z) : date :=
  let z := (n + 305)%Z in
  let era := (z / 146097)%Z in
  let doe := (z - era * 146097)%Z in
  let yoe := ((doe - doe / 1460 + doe / 36524 - doe / 146096) / 365)%Z in
  let doy := (doe - (365 * yoe + yoe / 4 - yoe / 100))%Z in
  let mp := ((5 * doy + 2) / 153)%Z in
  let d := (doy - (153 * mp + 2) / 5 + 1)%Z in
  let m := if (mp <? 10)%Z then (mp + 3)%Z else (mp - 9)%Z in
  let y := (yoe + era * 400)%Z in
  mkdate (if (m <=? 2)%Z then (y + 1)%Z else y) m d.

(** [d - timedelta(days=i)] *)
Definition minus_days (d : date) (i : Z) : date := fromordinal (toordinal d - i).

(** [(a - b).days] *)
Definition days_between (a b : date) : Z := (toordinal a - toordinal b)%Z.

Definition is_leap (y : Z) : bool :=
  ((y mod 4 =? 0) && (negb (y mod 100 =? 0) || (y mod 400 =? 0)))%Z.

Definition days_in_month (y m : Z) : Z :=
  if (m =? 2)%Z then (if is_leap y then 29 else 28)%Z
  else if ((m =? 4) || (m =? 6) || (m =? 9) || (m =? 11))%Z then 30%Z
  else 31%Z.

Definition valid_date (d : date) : bool :=
  ((1 <=? year d) && (year d <=? 9999) && (1 <=? month d) && (month d <=? 12)
   && (1 <=? day d) && (day d <=? days_in_month (year d) (month d)))%Z.

(** [strftime] with the formats the code uses. *)
Definition strftime_Ymd (d : date) : string :=
  (zfill 4 (year d) ++ "-" ++ zfill 2 (month d) ++ "-" ++ zfill 2 (day d))%string.
Definition strftime_mdY (d : date) : string :=
  (zfill 2 (month d) ++ "/" ++ zfill 2 (day d) ++ "/" ++ zfill 4 (year d))%string.
Definition strftime_dmY (d : date) : string :=
  (zfill 2 (day d) ++ "/" ++ zfill 2 (month d) ++ "/" ++ zfill 4 (year d))%string.
Definition strftime_Ymd_compact (d : date) : string :=
  (zfill 4 (year d) ++ zfill 2 (month d) ++ zfill 2 (day d))%string.

(** [strftime("%b")] in the C locale. *)
Definition strftime_b (d : date) : string :=
  nth (Z.to_nat (month d - 1))
      ["Jan"; "Feb"; "Mar"; "Apr"; "May"; "Jun";
       "Jul"; "Aug"; "Sep"; "Oct"; "Nov"; "Dec"] EmptyString.

(** Decimal digits of a field of [strptime]. *)
Definition digit_of (c : ascii) : option Z :=
  let n := nat_of_ascii c in
  if (48 <=? n) && (n <=? 57) then Some (Z.of_nat (n - 48)) else None.

Fixpoint digits_value (s : string) (acc : Z) : option Z :=
  match s with
  | EmptyString => Some acc
  | String c s' =>
      match digit_of c with
      | Some v => digits_value s' (10 * acc + v)%Z
      | None => None
      end
  end.

Definition field (lo hi : nat) (s : string) : option Z :=
  if (lo <=? String.length s) && (String.length s <=? hi)
  then digits_value s 0%Z else None.

(** [datetime.strptime(s, "%Y-%m-%d")]: a four-digit year, a month and a
    day of one or two digits, and the date has to exist. *)
Definition strptime_Ymd (s : string) : result date :=
  let bad := Raise (ValueError
    ("time data '" ++ s ++ "' does not match format '%Y-%m-%d'")%string) in
  match split "-"%char s with
  | [y; m; d] =>
      match field 4 4 y, field 1 2 m, field 1 2 d with
      | Some y', Some m', Some d' =>
          let r := mkdate y' m' d' in
          if valid_date r then Ok r else bad
      | _, _, _ => bad
      end
  | _ => bad
  end.

(** ** JSON values and dictionaries *)

(** What [json.loads] returns.  A float is kept as its literal; a [dict]
    is the list of its items in insertion order. *)
#[local] Unset Elimination Schemes.
Inductive json : Type :=
| JNull
| JBool (b : bool)
| JInt (n : Z)
| JFloat (lit : string)
| JStr (s : string)
| JList (items : list json)
| JDict (items : list (string * json)).
#[local] Set Elimination Schemes.

(** [d[k] = v]: an existing key keeps its place, a new one goes last. *)
Fixpoint dict_setitem {V} (k : string) (v : V) (d : list (string * V))
  : list (string * V) :=
  match d with
  | [] => [(k, v)]
  | (k', v') :: d' =>
      if String.eqb k k' then (k', v) :: d'
      else (k', v') :: dict_setitem k v d'
  end.

(** The dictionary built from a sequence of key/value pairs, as a dict
    comprehension or a dict display builds it. *)
Definition dict_of_pairs {V} (kvs : list (string * V)) : list (string * V) :=
  fold_left (fun d kv => dict_setitem (fst kv) (snd kv) d) kvs [].

Definition keys {V} (d : list (string * V)) : list string := map fst d.

Fixpoint dict_get {V} (k : string) (d : list (string * V)) : option V :=
  match d with
  | [] => None
  | (k', v) :: d' => if String.eqb k k' then Some v else dict_get k d'
  end.

(** ** Template variables and the template engine *)

(** A value bound to a template variable: a [str] or an [int]. *)
Inductive tval : Type :=
| VStr (s : string)
| VInt (n : Z).

Definition template_vars : Type := list (string * tval).

(** The Jinja2 environment, a library outside the repository: compiling
    a source string and rendering the compiled template can each raise. *)
Record environment : Type := mkenv {
  template : Type;
  from_string : string -> result template;
  render : template -> template_vars -> result string
}.

(** ** The HTTP sink *)

(** What [urlopen] does with a request: a response with a status code, or
    an exception. *)
Inductive reply : Type :=
| Response (status : Z)
| Failure (e : exception).

(** The network, asked with the number of requests made before, the
    address and the JSON body. *)
Definition network : Type := nat -> string -> json -> reply.

(** Observable effects of a delivery run, oldest first. *)
Inductive effect : Type :=
| Post (url : string) (body : json)
| Sleep (delay : Z).

Definition is_post (e : effect) : bool :=
  match e with Post _ _ => true | Sleep _ => false end.

Definition posts (t : list effect) : list effect := filter is_post t.

(** ** Code shared by the two processors *)

(** The index expression [(i * len(dates)) // num_items] of both
    [distribute_dates]. *)
Definition date_idx (i len_dates num_items : nat) : nat :=
  (i * len_dates) / num_items.

(** [f"{month} {day:2d}"] *)
Definition format_syslog_date (date_obj : date) : string :=
  (strftime_b date_obj ++ " " ++ spfill 2 (day date_obj))%string.

(** The seven dates from [today] back, as [datetime.now().date()] gave
    it. *)
Definition get_past_week_dates (today : date) : list string :=
  map (fun i => strftime_Ymd (minus_days today (Z.of_nat i))) (seq 0 7).

(** The dictionary [template_vars] of one item; [now] is the date a
    second call of [datetime.now()] gives. *)
Definition make_template_vars (assigned_date : string) (date_obj now : date)
  : template_vars :=
  let days_ago := days_between now date_obj in
  dict_of_pairs
    [("date", VStr assigned_date);
     ("date_us", VStr (strftime_mdY date_obj));
     ("date_eu", VStr (strftime_dmY date_obj));
     ("date_short", VStr (strftime_Ymd_compact date_obj));
     ("syslog_date", VStr (format_syslog_date date_obj));
     ("day_offset", VInt days_ago)].

(** [200 <= status < 300] *)
Definition status_ok (status : Z) : bool :=
  ((200 <=? status) && (status <? 300))%Z.

(** The recursive renderer, the same text in both files. *)
Section Renderer.

Variable env : environment.
Variable vars : template_vars.

(** The [str] branch: the [try] around [from_string] and [render]. *)
Definition render_str (value : string) : string :=
  if str_in "{{" value && str_in "}}" value then
    match (t <- from_string env value ;; render env t vars) with
    | Ok rendered => rendered
    | Raise _ => value
    end
  else value.

Fixpoint render_template_in_value (value : json) : json :=
  match value with
  | JStr s => JStr (render_str s)
  | JDict items =>
      JDict (dict_of_pairs
               (map (fun kv => (fst kv, render_template_in_value (snd kv)))
                    items))
  | JList items => JList (map render_template_in_value items)
  | _ => value
  end.

End Renderer.

(** ** demo_data_loader_playbook.py *)

Module Playbook.

(** A list comprehension over [range(num_items)]. *)
Definition distribute_dates {A} (num_items : nat) (dates : list A)
  : result (list A) :=
  if num_items =? 0 then Ok []
  else mapM (fun i => getitem dates (date_idx i (List.length dates) num_items))
            (seq 0 num_items).

Section Processing.

(** [json.loads], the Jinja2 environment and the clock:
    [now k] is the date of the [k]-th call of [datetime.now()]. *)
Variable json_loads : string -> result json.
Variable env : environment.
Variable now : nat -> date.

(** The body of the loop over [zip(events, date_assignments)], for the
    [k]-th pair. *)
Definition process_event (k : nat) (event : json) (assigned_date : string)
  : result json :=
  date_obj <- strptime_Ymd assigned_date ;;
  Ok (render_template_in_value env
        (make_template_vars assigned_date date_obj (now (S k))) event).

Definition process_json_template (template_content : string)
  : result (list json) :=
  events <- json_loads (strip template_content) ;;
  match events with
  | JList events =>
      let dates := get_past_week_dates (now 0) in
      date_assignments <- distribute_dates (List.length events) dates ;;
      mapM (fun kp => process_event (fst kp) (fst (snd kp)) (snd (snd kp)))
           (enumerate (combine events date_assignments))
  | _ => Raise (ValueError "JSON template must be an array of events")
  end.

End Processing.

(** The counters and the error list of [send_events_to_webhook], with
    the effects made so far. *)
Record send_state : Type := mkstate {
  successful : nat;
  failed : nat;
  errors : list string;
  trace : list effect
}.

(** [if delay > 0: time.sleep(delay)] *)
Definition pace (delay : Z) : list effect :=
  if (delay >? 0)%Z then [Sleep delay] else [].

Section Delivery.

Variable net : network.
Variable webhook_url : string.
Variable delay : Z.

(** One turn of the loop over [enumerate(events)]. *)
Definition send_event (st : send_state) (ie : nat * json) : send_state :=
  let i := fst ie in
  let event := snd ie in
  let done := trace st ++ [Post webhook_url event] ++ pace delay in
  match net i webhook_url event with
  | Response code =>
      if status_ok code
      then mkstate (successful st + 1) (failed st) (errors st) done
      else mkstate (successful st) (failed st + 1)
             (errors st ++
                [("Event " ++ str_of_nat (i + 1) ++ ": HTTP "
                  ++ str_of_Z code)%string])
             done
  | Failure e =>
      mkstate (successful st) (failed st + 1)
        (errors st ++
           [("Event " ++ str_of_nat (i + 1) ++ ": "
             ++ str_of_exception e)%string])
        done
  end.

Definition send_events_to_webhook (events : list json) : send_state :=
  fold_left send_event (enumerate events) (mkstate 0 0 [] []).

End Delivery.

(** The value of [params.get('delay', 0.05)], which [playbook] hands to
    the loop unchecked: a number, or a value of another type ([None], a
    string, a list, an object), on which [delay > 0] raises a
    [TypeError] with the message given. *)
Inductive delay_value : Type :=
| Number (delay : Z)
| NotNumber (type_error : string).

Section DeliveryUnchecked.

Variable net : network.
Variable webhook_url : string.
Variable delay : delay_value.

(** The [try] statement of the loop body: the request and its count. *)
Definition request_event (st : send_state) (ie : nat * json) : send_state :=
  let i := fst ie in
  let event := snd ie in
  let done := trace st ++ [Post webhook_url event] in
  match net i webhook_url event with
  | Response code =>
      if status_ok code
      then mkstate (successful st + 1) (failed st) (errors st) done
      else mkstate (successful st) (failed st + 1)
             (errors st ++
                [("Event " ++ str_of_nat (i + 1) ++ ": HTTP "
                  ++ str_of_Z code)%string])
             done
  | Failure e =>
      mkstate (successful st) (failed st + 1)
        (errors st ++
           [("Event " ++ str_of_nat (i + 1) ++ ": "
             ++ str_of_exception e)%string])
        done
  end.

(** One turn of the loop: the [try] statement, then
    [if delay > 0: time.sleep(delay)], which no [try] surrounds.  The
    state comes with the exception that left the loop, if one did; once
    it has, the turns that remain are not run. *)
Definition send_event_unchecked (run : send_state * option exception)
    (ie : nat * json) : send_state * option exception :=
  match snd run with
  | Some _ => run
  | None =>
      let st := request_event (fst run) ie in
      match delay with
      | Number d =>
          (mkstate (successful st) (failed st) (errors st)
             (trace st ++ pace d), None)
      | NotNumber type_error => (st, Some (OtherError type_error))
      end
  end.

Definition send_events_to_webhook_unchecked (events : list json)
  : send_state * option exception :=
  fold_left send_event_unchecked (enumerate events) (mkstate 0 0 [] [], None).

End DeliveryUnchecked.

(** The [result] dictionary of [playbook]; an absent key is [None]. *)
Record report : Type := mkreport {
  status : string;
  template_url : string;
  events_total : nat;
  events_sent : nat;
  events_failed : nat;
  report_errors : option (list string);
  errors_truncated : option nat
}.

(** What [playbook] returns: [{"error": ..}], or [{"data": ..}] with an
    optional ["error"] beside it. *)
Inductive playbook_result : Type :=
| PbError (msg : string)
| PbData (data : report) (error : option string).

Definition make_report (url : string) (total : nat) (st : send_state) : report :=
  mkreport
    (if failed st =? 0 then "success" else "partial")
    url total (successful st) (failed st)
    (match errors st with
     | [] => None
     | _ => Some (firstn 10 (errors st))
     end)
    (if 10 <? List.length (errors st)
     then Some (List.length (errors st) - 10) else None).

Section Run.

Variable json_loads : string -> result json.
Variable env : environment.
Variable now : nat -> date.
(** [fetch_template]: the text behind a URL, or the exception of
    [urlopen]. *)
Variable fetch_template : string -> result string.
Variable net : network.

(** The [try] block of [playbook], once [template_url] and
    [webhook_url] are resolved to strings, for a [delay] that is a
    number; the effects made come with the result.  The parameter checks
    before the [try], which answer with an error of their own, are
    outside the model; [playbook_unchecked_delay] below takes the delay
    as the request holds it. *)
Definition playbook (url webhook_url : string) (delay : Z)
  : playbook_result * list effect :=
  match (template_content <- fetch_template url ;;
         process_json_template json_loads env now template_content) with
  | Ok events =>
      let st := send_events_to_webhook net webhook_url delay events in
      let result := make_report url (List.length events) st in
      (PbData result
         (if 0 <? failed st
          then Some ("Partial failure: " ++ str_of_nat (failed st) ++ "/"
                     ++ str_of_nat (List.length events)
                     ++ " events failed")%string
          else None),
       trace st)
  | Raise (JSONDecodeError m) =>
      (PbError ("Invalid JSON in template: " ++ m), [])
  | Raise (HTTPError m) | Raise (URLError m) =>
      (PbError ("Failed to fetch template: " ++ m), [])
  | Raise e =>
      (PbError ("Playbook execution failed: " ++ str_of_exception e), [])
  end.

(** The three [except] clauses of [playbook]. *)
Definition error_answer (e : exception) : playbook_result :=
  match e with
  | JSONDecodeError m => PbError ("Invalid JSON in template: " ++ m)
  | HTTPError m | URLError m => PbError ("Failed to fetch template: " ++ m)
  | _ => PbError ("Playbook execution failed: " ++ str_of_exception e)
  end.

(** [playbook] from [delay = params.get('delay', 0.05)] on, once
    [template_url] and [webhook_url] are resolved to strings: the delay
    is whatever the request holds. *)
Definition playbook_unchecked_delay (url webhook_url : string)
    (delay : delay_value) : playbook_result * list effect :=
  match (template_content <- fetch_template url ;;
         process_json_template json_loads env now template_content) with
  | Ok events =>
      match send_events_to_webhook_unchecked net webhook_url delay events with
      | (st, None) =>
          let result := make_report url (List.length events) st in
          (PbData result
             (if 0 <? failed st
              then Some ("Partial failure: " ++ str_of_nat (failed st) ++ "/"
                         ++ str_of_nat (List.length events)
                         ++ " events failed")%string
              else None),
           trace st)
      | (st, Some e) => (error_answer e, trace st)
      end
  | Raise e => (error_answer e, [])
  end.

End Run.

End Playbook.

(** ** log_template_processor.py *)

(** How a function of the command-line processor ends: it returns, an
    exception escapes it, or it calls [sys.exit]. *)
Inductive outcome (A : Type) : Type :=
| Returns (a : A)
| Raises (e : exception)
| Exits (code : Z).

Arguments Returns {A} a.
Arguments Raises {A} e.
Arguments Exits {A} code.

Definition lift {A} (r : result A) : outcome A :=
  match r with
  | Ok a => Returns a
  | Raise e => Raises e
  end.

Module Processor.

(** [source.startswith('http://') or source.startswith('https://')] *)
Definition is_url (source : string) : bool :=
  prefix "http://" source || prefix "https://" source.

(** A loop appending one date per line. *)
Definition distribute_dates {A} (num_lines : nat) (dates : list A)
  : result (list A) :=
  if num_lines =? 0 then Ok []
  else fold_left
         (fun acc i =>
            date_assignments <- acc ;;
            d <- getitem dates (date_idx i (List.length dates) num_lines) ;;
            Ok (date_assignments ++ [d]))
         (seq 0 num_lines) (Ok []).

(** What [process_template] returns: a list of events for a JSON array
    template, the joined lines otherwise. *)
Inductive output : Type :=
| Events (events : list json)
| Text (text : string).

Section Processing.

Variable json_loads : string -> result json.
Variable env : environment.
Variable now : nat -> date.

(** Only [json.JSONDecodeError] is caught; the answer is then [False]. *)
Definition is_json_array (content : string) : result bool :=
  let stripped := strip content in
  if negb (prefix "[" stripped) then Ok false
  else match json_loads stripped with
       | Ok _ => Ok true
       | Raise (JSONDecodeError _) => Ok false
       | Raise e => Raise e
       end.

Definition process_event (k : nat) (event : json) (assigned_date : string)
  : result json :=
  date_obj <- strptime_Ymd assigned_date ;;
  Ok (render_template_in_value env
        (make_template_vars assigned_date date_obj (now (S k))) event).

(** Malformed JSON and a value that is no list both end in
    [sys.exit(1)]. *)
Definition process_json_template (template_content : string)
  : outcome (list json) :=
  match json_loads (strip template_content) with
  | Raise (JSONDecodeError _) => Exits 1
  | Raise e => Raises e
  | Ok (JList events) =>
      let dates := get_past_week_dates (now 0) in
      lift (date_assignments <- distribute_dates (List.length events) dates ;;
            mapM (fun kp =>
                    process_event (fst kp) (fst (snd kp)) (snd (snd kp)))
                 (enumerate (combine events date_assignments)))
  | Ok _ => Exits 1
  end.

(** The body of the line loop: a line the engine cannot render is kept
    as it is. *)
Definition process_line (k : nat) (line assigned_date : string)
  : result string :=
  date_obj <- strptime_Ymd assigned_date ;;
  let template_vars :=
    make_template_vars assigned_date date_obj (now (S k)) in
  match (t <- from_string env line ;; render env t template_vars) with
  | Ok rendered => Ok rendered
  | Raise _ => Ok line
  end.

(** The filter [if line.strip()] *)
Definition nonblank (line : string) : bool := truthy (strip line).

Definition process_template (template_content : string) : outcome output :=
  match is_json_array template_content with
  | Raise e => Raises e
  | Ok true =>
      match process_json_template template_content with
      | Returns events => Returns (Events events)
      | Raises e => Raises e
      | Exits c => Exits c
      end
  | Ok false =>
      let lines :=
        filter nonblank (split newline (strip template_content)) in
      let dates := get_past_week_dates (now 0) in
      lift (date_assignments <- distribute_dates (List.length lines) dates ;;
            output_lines <-
              mapM (fun kp =>
                      process_line (fst kp) (fst (snd kp)) (snd (snd kp)))
                   (enumerate (combine lines date_assignments)) ;;
            Ok (Text (join (String newline EmptyString) output_lines)))
  end.

End Processing.

(** The two counters of the delivery functions, with the effects made. *)
Record tally : Type := mktally {
  successful : nat;
  failed : nat;
  trace : list effect
}.

(** [range(0, total, step)] for a positive step. *)
Definition range_step (total step : nat) : list nat :=
  map (fun k => k * step) (seq 0 ((total + step - 1) / step)).

Section Delivery.

Variable net : network.
Variable webhook_url : string.

(** The payload [{"events": [{"raw": line}, ..]}] of a batch. *)
Definition batch_payload (batch : list string) : json :=
  JDict [("events", JList (map (fun line => JDict [("raw", JStr line)]) batch))].

(** One turn of the loop of [send_to_webhook], for the batch that
    starts at line [i]. *)
Definition send_batch (log_lines : list string) (batch_size : nat)
    (delay_between_batches : Z) (st : tally) (i : nat) : tally :=
  let total := List.length log_lines in
  let batch := firstn batch_size (skipn i log_lines) in
  let payload := batch_payload batch in
  let done :=
    trace st ++ [Post webhook_url payload] ++
    (if (i + batch_size <? total) && (delay_between_batches >? 0)%Z
     then [Sleep delay_between_batches] else []) in
  match net (i / batch_size) webhook_url payload with
  | Response status =>
      if status_ok status
      then mktally (successful st + List.length batch) (failed st) done
      else mktally (successful st) (failed st + List.length batch) done
  | Failure _ =>
      mktally (successful st) (failed st + List.length batch) done
  end.

Definition send_to_webhook (log_lines : list string) (batch_size : nat)
    (delay_between_batches : Z) : result tally :=
  if batch_size =? 0
  then Raise (ValueError "range() arg 3 must not be zero")
  else Ok (fold_left (send_batch log_lines batch_size delay_between_batches)
             (range_step (List.length log_lines) batch_size)
             (mktally 0 0 [])).

(** One turn of the loop of [send_json_events_to_webhook]. *)
Definition send_json_event (delay_between_batches : Z) (st : tally)
    (ie : nat * json) : tally :=
  let i := fst ie in
  let event := snd ie in
  let done :=
    trace st ++ [Post webhook_url event] ++
    (if (delay_between_batches >? 0)%Z
     then [Sleep delay_between_batches] else []) in
  match net i webhook_url event with
  | Response status =>
      if status_ok status
      then mktally (successful st + 1) (failed st) done
      else mktally (successful st) (failed st + 1) done
  | Failure _ => mktally (successful st) (failed st + 1) done
  end.

Definition send_json_events_to_webhook (events : list json)
    (delay_between_batches : Z) : tally :=
  fold_left (send_json_event delay_between_batches) (enumerate events)
    (mktally 0 0 []).

End Delivery.

Section Main.

Variable json_loads : string -> result json.
Variable env : environment.
Variable now : nat -> date.
Variable net : network.

(** [main] from the processing of the fetched template on, for a
    destination that is a webhook address: delays are in milliseconds,
    the defaults being 50 between events and 100 between batches of 10
    lines.  A destination that is no URL makes no request. *)
Definition main (template_content output_dest : string)
  : outcome unit * list effect :=
  match process_template json_loads env now template_content with
  | Raises e => (Raises e, [])
  | Exits c => (Exits c, [])
  | Returns output_content =>
      if is_url output_dest then
        match output_content with
        | Events events =>
            let st := send_json_events_to_webhook net output_dest events 50 in
            (if 0 <? failed st then Exits 1 else Returns tt, trace st)
        | Text text =>
            let log_lines :=
              filter nonblank (split newline text) in
            match send_to_webhook net output_dest log_lines 10 100 with
            | Ok st =>
                (if 0 <? failed st then Exits 1 else Returns tt, trace st)
            | Raise e => (Raises e, [])
            end
        end
      else (Returns tt, [])
  end.

End Main.

(** [parse_template_lines]: the non-blank lines of the trimmed text, each
    with its index among all the lines. *)
Definition parse_template_lines (template_content : string)
  : list (string * nat) :=
  let lines := split newline (strip template_content) in
  map (fun il => (snd il, fst il))
      (filter (fun il => truthy (strip (snd il))) (enumerate lines)).

(** What [open(source).read()] does: the text of the file,
    [FileNotFoundError], another [IOError], or an exception of another
    class. *)
Inductive file_read : Type :=
| FileText (text : string)
| FileNotFoundError
| IOError (msg : string)
| FileRaises (e : exception).

Section Fetch.

(** The download of a URL as text, and the reading of a local file. *)
Variable urlopen_text : string -> result string.
Variable open_text : string -> file_read.

(** [fetch_template]: every exception of the download ends in
    [sys.exit(1)]; of the exceptions of the file only the two classes
    named do. *)
Definition fetch_template (source : string) : outcome string :=
  if is_url source then
    match urlopen_text source with
    | Ok content => Returns content
    | Raise _ => Exits 1
    end
  else
    match open_text source with
    | FileText text => Returns text
    | FileNotFoundError => Exits 1
    | IOError _ => Exits 1
    | FileRaises e => Raises e
    end.

End Fetch.

End Processor.

(** ** extension.py *)

Module Extension.

(** The dictionary [_do_load_demo_data] returns. *)
Record load_report : Type := mkload_report {
  status : string;
  template_url : string;
  events_total : nat;
  events_sent : nat;
  events_failed : nat
}.

Section Load.

Variable json_loads : string -> result json.
Variable env : environment.
Variable now : nat -> date.
Variable urlopen_text : string -> result string.
Variable open_text : string -> Processor.file_read.
Variable net : network.

(** [DemoDataExtension._do_load_demo_data]; the delay between events is
    the default of [send_json_events_to_webhook], 50 ms. *)
Definition _do_load_demo_data (url webhook_url : string)
  : outcome load_report * list effect :=
  match Processor.fetch_template urlopen_text open_text url with
  | Returns template_content =>
      match Processor.process_template json_loads env now template_content with
      | Returns (Processor.Events events) =>
          let st :=
            Processor.send_json_events_to_webhook net webhook_url events 50 in
          (Returns
             (mkload_report
                (if Processor.failed st =? 0 then "success" else "partial")
                url (List.length events)
                (Processor.successful st) (Processor.failed st)),
           Processor.trace st)
      | Returns (Processor.Text _) =>
          (Raises (ValueError "Template must produce a list of events"), [])
      | Raises e => (Raises e, [])
      | Exits code => (Exits code, [])
      end
  | Raises e => (Raises e, [])
  | Exits code => (Exits code, [])
  end.

End Load.

End Extension.

(** ** Reference models of the libraries

    [json.loads] and the Jinja2 environment are library code outside the
    repository, and every definition above takes them as arguments.  The
    models below serve to run the processors on concrete templates. *)

Module Ref.

Definition is_digit (c : ascii) : bool :=
  let n := nat_of_ascii c in (48 <=? n) && (n <=? 57).

Fixpoint span (p : ascii -> bool) (s : string) : string * string :=
  match s with
  | EmptyString => (EmptyString, EmptyString)
  | String c s' =>
      if p c then let (a, b) := span p s' in (String c a, b)
      else (EmptyString, s)
  end.

(** *** JSON text *)

Definition is_json_ws (c : ascii) : bool :=
  let n := nat_of_ascii c in
  (n =? 32) || (n =? 9) || (n =? 10) || (n =? 13).

Fixpoint skip_ws (s : string) : string :=
  match s with
  | EmptyString => EmptyString
  | String c s' => if is_json_ws c then skip_ws s' else s
  end.

Definition hex_of (c : ascii) : option nat :=
  let n := nat_of_ascii c in
  if (48 <=? n) && (n <=? 57) then Some (n - 48)
  else if (65 <=? n) && (n <=? 70) then Some (n - 55)
  else if (97 <=? n) && (n <=? 102) then Some (n - 87)
  else None.

(** The UTF-8 bytes of a code point below 65536, most recent first. *)
Definition utf8_rev (cp : nat) : list ascii :=
  if cp <? 128 then [ascii_of_nat cp]
  else if cp <? 2048
  then [ascii_of_nat (128 + cp mod 64); ascii_of_nat (192 + cp / 64)]
  else [ascii_of_nat (128 + cp mod 64);
        ascii_of_nat (128 + (cp / 64) mod 64);
        ascii_of_nat (224 + cp / 4096)].

Definition unescape (c : ascii) : option ascii :=
  let n := nat_of_ascii c in
  if n =? 34 then Some c                       (* quote *)
  else if n =? 92 then Some c                  (* backslash *)
  else if n =? 47 then Some c                  (* slash *)
  else if n =? 98 then Some (ascii_of_nat 8)   (* b *)
  else if n =? 102 then Some (ascii_of_nat 12) (* f *)
  else if n =? 110 then Some (ascii_of_nat 10) (* n *)
  else if n =? 114 then Some (ascii_of_nat 13) (* r *)
  else if n =? 116 then Some (ascii_of_nat 9)  (* t *)
  else None.

(** The body of a string literal, after its opening quote: the decoded
    text and what follows the closing quote. *)
Fixpoint scan_string (s : string) (acc : list ascii) : option (string * string) :=
  match s with
  | EmptyString => None
  | String c s1 =>
      let n := nat_of_ascii c in
      if n =? 34 then Some (string_of_list_ascii (rev acc), s1)
      else if n =? 92 then
        match s1 with
        | String e s2 =>
            match unescape e with
            | Some ch => scan_string s2 (ch :: acc)
            | None =>
                match s2 with
                | String h1 (String h2 (String h3 (String h4 s3))) =>
                    match hex_of h1, hex_of h2, hex_of h3, hex_of h4 with
                    | Some a, Some b, Some c', Some d =>
                        if nat_of_ascii e =? 117 then
                          scan_string s3
                            (utf8_rev (((a * 16 + b) * 16 + c') * 16 + d) ++ acc)
                        else None
                    | _, _, _, _ => None
                    end
                | _ => None
                end
            end
        | EmptyString => None
        end
      else if n <? 32 then None
      else scan_string s1 (c :: acc)
  end.

Definition is_number_char (c : ascii) : bool :=
  let n := nat_of_ascii c in
  is_digit c || (n =? 45) || (n =? 43) || (n =? 46) || (n =? 101) || (n =? 69).

Definition nonempty_digits (s : string) : bool :=
  truthy s && match span is_digit s with (_, EmptyString) => true | _ => false end.

(** A number literal: an optional minus sign, an integer part without a
    leading zero (or a lone zero), then optionally a point with digits
    and an exponent with digits.  An integer becomes [JInt], any other
    number keeps its literal. *)
Definition number_of (lit : string) : option json :=
  let body := match lit with
              | String c r => if nat_of_ascii c =? 45 then r else lit
              | EmptyString => lit
              end in
  let (ip, r1) := span is_digit body in
  let ip_ok := match ip with
               | EmptyString => false
               | String c EmptyString => true
               | String c _ => negb (nat_of_ascii c =? 48)
               end in
  let (frac_ok, r2) :=
    match r1 with
    | String c r =>
        if nat_of_ascii c =? 46
        then let (fp, r') := span is_digit r in (truthy fp, r')
        else (true, r1)
    | EmptyString => (true, r1)
    end in
  let exp_ok :=
    match r2 with
    | EmptyString => true
    | String c r =>
        if (nat_of_ascii c =? 101) || (nat_of_ascii c =? 69) then
          match r with
          | String sg r' =>
              if (nat_of_ascii sg =? 45) || (nat_of_ascii sg =? 43)
              then nonempty_digits r' else nonempty_digits r
          | EmptyString => false
          end
        else false
    end in
  if ip_ok && frac_ok && exp_ok then
    match r1 with
    | EmptyString =>
        match digits_value ip 0%Z with
        | Some v =>
            Some (JInt (if String.eqb body lit then v else (- v)%Z))
        | None => None
        end
    | _ => Some (JFloat lit)
    end
  else None.

Definition keyword (kw : string) (v : json) (s : string) : option (json * string) :=
  if prefix kw s
  then Some (v, substring (String.length kw) (String.length s - String.length kw) s)
  else None.

Definition first_of {A} (a b : option A) : option A :=
  match a with Some _ => a | None => b end.

(** A value, the elements of an array after its bracket, and the members
    of an object after its brace; [fuel] bounds the nesting of calls. *)
Fixpoint parse_value (fuel : nat) (s : string) : option (json * string) :=
  match fuel with
  | 0 => None
  | S fuel' =>
      match skip_ws s with
      | EmptyString => None
      | String c rest as t =>
          let n := nat_of_ascii c in
          if n =? 34 then
            match scan_string rest [] with
            | Some (str, r) => Some (JStr str, r)
            | None => None
            end
          else if n =? 91 then
            match skip_ws rest with
            | String c' r' =>
                if nat_of_ascii c' =? 93 then Some (JList [], r')
                else parse_elements fuel' rest []
            | EmptyString => None
            end
          else if n =? 123 then
            match skip_ws rest with
            | String c' r' =>
                if nat_of_ascii c' =? 125 then Some (JDict [], r')
                else parse_members fuel' rest []
            | EmptyString => None
            end
          else
            first_of (keyword "true" (JBool true) t)
           (first_of (keyword "false" (JBool false) t)
           (first_of (keyword "null" JNull t)
           (first_of (keyword "NaN" (JFloat "NaN") t)
           (first_of (keyword "Infinity" (JFloat "Infinity") t)
           (first_of (keyword "-Infinity" (JFloat "-Infinity") t)
              (let (lit, r) := span is_number_char t in
               match number_of lit with
               | Some v => Some (v, r)
               | None => None
               end))))))
      end
  end
with parse_elements (fuel : nat) (s : string) (acc : list json)
  : option (json * string) :=
  match fuel with
  | 0 => None
  | S fuel' =>
      match parse_value fuel' s with
      | None => None
      | Some (v, r) =>
          match skip_ws r with
          | String c r' =>
              if nat_of_ascii c =? 44 then parse_elements fuel' r' (v :: acc)
              else if nat_of_ascii c =? 93 then Some (JList (rev (v :: acc)), r')
              else None
          | EmptyString => None
          end
      end
  end
with parse_members (fuel : nat) (s : string) (acc : list (string * json))
  : option (json * string) :=
  match fuel with
  | 0 => None
  | S fuel' =>
      match skip_ws s with
      | String q r0 =>
          if nat_of_ascii q =? 34 then
            match scan_string r0 [] with
            | None => None
            | Some (k, r1) =>
                match skip_ws r1 with
                | String c r2 =>
                    if nat_of_ascii c =? 58 then
                      match parse_value fuel' r2 with
                      | None => None
                      | Some (v, r3) =>
                          match skip_ws r3 with
                          | String c' r4 =>
                              if nat_of_ascii c' =? 44
                              then parse_members fuel' r4 (dict_setitem k v acc)
                              else if nat_of_ascii c' =? 125
                              then Some (JDict (dict_setitem k v acc), r4)
                              else None
                          | EmptyString => None
                          end
                      end
                    else None
                | EmptyString => None
                end
            end
          else None
      | EmptyString => None
      end
  end.

(** [json.loads] on text, after the JSON grammar with the [NaN] and
    [Infinity] literals Python adds: one value between optional white
    space.  The message of the error does not carry the position. *)
Definition loads (s : string) : result json :=
  match parse_value (2 * String.length s + 2) s with
  | Some (v, r) =>
      match skip_ws r with
      | EmptyString => Ok v
      | _ => Raise (JSONDecodeError "Extra data")
      end
  | None => Raise (JSONDecodeError "Expecting value")
  end.

(** *** Templates

    The fragment of Jinja2 the templates use: text, and print statements
    [{{ name }}] of one variable. *)

(** A compiled template: literal text and print statements. *)
Inductive piece : Type :=
| Data (text : string)
| Print (name : string).

Definition is_ident_start (c : ascii) : bool :=
  let n := nat_of_ascii c in
  ((65 <=? n) && (n <=? 90)) || ((97 <=? n) && (n <=? 122)) || (n =? 95).

Definition is_ident_char (c : ascii) : bool := is_ident_start c || is_digit c.

Definition identifier (s : string) : result string :=
  match s with
  | String c _ =>
      if is_ident_start c &&
         match span is_ident_char s with (_, EmptyString) => true | _ => false end
      then Ok s
      else Raise (TemplateError "expected a variable name")
  | EmptyString => Raise (TemplateError "expected an expression")
  end.

Definition text_of (rev_chars : list ascii) : string :=
  string_of_list_ascii (rev rev_chars).

(** The pieces of a source: [cur] holds the characters read since the
    last marker, most recent first, and [in_expr] tells whether an
    opening marker is pending. *)
Fixpoint lex (s : string) (cur : list ascii) (in_expr : bool)
  : result (list piece) :=
  match s with
  | EmptyString =>
      if in_expr then Raise (TemplateError "unexpected end of template")
      else Ok [Data (text_of cur)]
  | String a s1 =>
      match s1 with
      | String b s2 =>
          if negb in_expr && (nat_of_ascii a =? 123) && (nat_of_ascii b =? 123)
          then pieces <- lex s2 [] true ;; Ok (Data (text_of cur) :: pieces)
          else if in_expr && (nat_of_ascii a =? 125) && (nat_of_ascii b =? 125)
          then name <- identifier (strip (text_of cur)) ;;
               pieces <- lex s2 [] false ;;
               Ok (Print name :: pieces)
          else lex s1 (a :: cur) in_expr
      | EmptyString => lex s1 (a :: cur) in_expr
      end
  end.

Definition str_of_tval (v : tval) : string :=
  match v with
  | VStr s => s
  | VInt n => str_of_Z n
  end.

Definition render_piece (vars : template_vars) (p : piece) : result string :=
  match p with
  | Data text => Ok text
  | Print name =>
      match dict_get name vars with
      | Some v => Ok (str_of_tval v)
      | None => Raise (TemplateError ("'" ++ name ++ "' is undefined"))
      end
  end.

(** Modelled from the spec: the Jinja2 engine behind
    [Environment(loader=BaseLoader())], which is no code of the
    repository.  Section 6 of the specification gives the syntax the
    templates use, a double-brace-delimited expression naming one bound
    variable, and Section 4.3 the errors: a malformed expression and an
    unknown variable fail to evaluate.  Text outside the markers is
    copied. *)
Definition env : environment :=
  mkenv (fun s => lex s [] false)
        (fun t vars =>
           parts <- mapM (render_piece vars) t ;;
           Ok (String.concat EmptyString parts)).

(** A print statement with Jinja2's default for a name the bindings
    lack: the name is an [Undefined], which prints as the empty string
    and does not raise. *)
Definition render_piece_default (vars : template_vars) (p : piece) : string :=
  match p with
  | Data text => text
  | Print name =>
      match dict_get name vars with
      | Some v => str_of_tval v
      | None => EmptyString
      end
  end.

(** The engine as the code builds it: [Environment(loader=BaseLoader())]
    is given no [undefined=], so it keeps the default of Jinja2 for an
    unbound name.  The fragment is the one of [env]: text, and print
    statements of one variable. *)
Definition jinja_default : environment :=
  mkenv (fun s => lex s [] false)
        (fun t vars =>
           Ok (String.concat EmptyString (map (render_piece_default vars) t))).

End Ref.

(** ** Notions of the specification *)

Section JsonInduction.

Variable P : json -> Prop.
Hypothesis Hnull : P JNull.
Hypothesis Hbool : forall b, P (JBool b).
Hypothesis Hint : forall n, P (JInt n).
Hypothesis Hfloat : forall lit, P (JFloat lit).
Hypothesis Hstr : forall s, P (JStr s).
Hypothesis Hlist : forall items, Forall P items -> P (JList items).
Hypothesis Hdict :
  forall items, Forall (fun kv => P (snd kv)) items -> P (JDict items).

Fixpoint json_ind' (v : json) : P v :=
  match v with
  | JNull => Hnull
  | JBool b => Hbool b
  | JInt n => Hint n
  | JFloat lit => Hfloat lit
  | JStr s => Hstr s
  | JList items =>
      Hlist
        ((fix all (l : list json) : Forall P l :=
            match l with
            | [] => Forall_nil P
            | x :: xs => Forall_cons x (json_ind' x) (all xs)
            end) items)
  | JDict items =>
      Hdict
        ((fix all (l : list (string * json))
            : Forall (fun kv => P (snd kv)) l :=
            match l with
            | [] => Forall_nil _
            | kv :: kvs =>
                @Forall_cons _ (fun kv => P (snd kv)) kv kvs
                  (json_ind' (snd kv)) (all kvs)
            end) items)
  end.

End JsonInduction.

(** A value Python can hold: no dictionary, at any depth, has a key
    twice. *)
Inductive wf_json : json -> Prop :=
| wf_null : wf_json JNull
| wf_bool : forall b, wf_json (JBool b)
| wf_int : forall n, wf_json (JInt n)
| wf_float : forall lit, wf_json (JFloat lit)
| wf_str : forall s, wf_json (JStr s)
| wf_list : forall items, Forall wf_json items -> wf_json (JList items)
| wf_dict : forall items,
    NoDup (keys items) ->
    Forall (fun kv => wf_json (snd kv)) items ->
    wf_json (JDict items).

(** What rendering may change: string leaves, and nothing else. *)
Inductive same_structure : json -> json -> Prop :=
| ss_null : same_structure JNull JNull
| ss_bool : forall b, same_structure (JBool b) (JBool b)
| ss_int : forall n, same_structure (JInt n) (JInt n)
| ss_float : forall lit, same_structure (JFloat lit) (JFloat lit)
| ss_str : forall s s', same_structure (JStr s) (JStr s')
| ss_list : forall xs ys,
    Forall2 same_structure xs ys -> same_structure (JList xs) (JList ys)
| ss_dict : forall xs ys,
    Forall2 (fun kv kv' =>
               fst kv = fst kv' /\ same_structure (snd kv) (snd kv')) xs ys ->
    same_structure (JDict xs) (JDict ys).

(** No string leaf holds both markers. *)
Fixpoint marker_free (v : json) : bool :=
  match v with
  | JStr s => negb (str_in "{{" s && str_in "}}" s)
  | JList items => forallb marker_free items
  | JDict items => forallb (fun kv => marker_free (snd kv)) items
  | _ => true
  end.

(** Compiling the string and rendering it with the bindings raises. *)
Definition evaluation_fails (env : environment) (vars : template_vars)
    (s : string) : bool :=
  match (t <- from_string env s ;; render env t vars) with
  | Ok _ => false
  | Raise _ => true
  end.

(** Every string leaf that holds both markers fails to evaluate. *)
Fixpoint fails_everywhere (env : environment) (vars : template_vars)
    (v : json) : bool :=
  match v with
  | JStr s =>
      negb (str_in "{{" s && str_in "}}" s) || evaluation_fails env vars s
  | JList items => forallb (fails_everywhere env vars) items
  | JDict items => forallb (fun kv => fails_everywhere env vars (snd kv)) items
  | _ => true
  end.

(** A reply counts as delivered when it is a response whose status is in
    [200, 300). *)
Definition delivered (r : reply) : bool :=
  match r with
  | Response status => ((200 <=? status) && (status <? 300))%Z
  | Failure _ => false
  end.

Definition undelivered (r : reply) : bool := negb (delivered r).

(** The replies of the network to the requests of a run, one per event. *)
Definition replies (net : network) (url : string) (events : list json)
  : list reply :=
  map (fun ie => net (fst ie) url (snd ie)) (enumerate events).

(** The description [send_events_to_webhook] records for the reply to
    event [i], if it is a failure. *)
Definition failure_description (i : nat) (r : reply) : list string :=
  match r with
  | Response status =>
      if delivered r then []
      else [("Event " ++ str_of_nat (i + 1) ++ ": HTTP " ++ str_of_Z status)%string]
  | Failure e =>
      [("Event " ++ str_of_nat (i + 1) ++ ": " ++ str_of_exception e)%string]
  end.

(** The batches the loop of [send_to_webhook] forms, in order. *)
Definition batches (log_lines : list string) (batch_size : nat)
  : list (list string) :=
  map (fun i => firstn batch_size (skipn i log_lines))
      (Processor.range_step (List.length log_lines) batch_size).

(** What a batch adds to the counter of successes, and of failures,
    given the reply to its call. *)
Definition batch_successes (r : reply) (batch : list string) : nat :=
  if delivered r then List.length batch else 0.

Definition batch_failures (r : reply) (batch : list string) : nat :=
  if delivered r then 0 else List.length batch.

(** ** Concrete inputs *)

(** The window the examples use: the seven days that end on 2025-01-10. *)
Definition week_of_2025_01_10 : list string :=
  get_past_week_dates (mkdate 2025 1 10).

(** A text with every apostrophe turned into a double quote, to write
    JSON templates down. *)
Fixpoint dq (s : string) : string :=
  match s with
  | EmptyString => EmptyString
  | String c s' =>
      String (if nat_of_ascii c =? 39 then ascii_of_nat 34 else c) (dq s')
  end.

Definition clock_2025_01_10 : nat -> date := fun _ => mkdate 2025 1 10.

Definition vars_2025_01_08 : template_vars :=
  make_template_vars "2025-01-08" (mkdate 2025 1 8) (mkdate 2025 1 10).

Definition template_3_items : string :=
  dq "[{'msg':'day {{date}} offset {{day_offset}}'},
       {'msg':'day {{date}} offset {{day_offset}}'},
       {'msg':'day {{date}} offset {{day_offset}}'}]".

(** The six bindings of a date-record, in the order of the code. *)
Definition bindings_of (d us eu short syslog : string) (offset : Z)
  : template_vars :=
  [("date", VStr d); ("date_us", VStr us); ("date_eu", VStr eu);
   ("date_short", VStr short); ("syslog_date", VStr syslog);
   ("day_offset", VInt offset)].

Definition sample_event : json :=
  JDict [("msg", JStr "seen on {{ date }}");
         ("count", JInt 3);
         ("ratio", JFloat "0.5");
         ("tags", JList [JStr "plain {{ text"; JNull; JBool true])].

Definition plain_event : json :=
  JDict [("msg", JStr "closing }} only");
         ("count", JInt 3);
         ("tags", JList [JStr "opening {{ only"; JNull; JBool false])].

Definition always (status : Z) : network := fun _ _ _ => Response status.

(** An event with an empty expression in one of its leaves. *)
Definition broken_event : json :=
  JDict [("msg", JStr "on {{ }}"); ("count", JInt 3);
         ("tags", JList [JStr "opening {{ only"; JStr "{{ }} twice {{ }}"])].

(** ** Notions for the further properties *)

(** *** Dates, checked year by year over an era of 400 years *)

Local Open Scope Z_scope.

Fixpoint all_from (fuel : nat) (n : Z) (p : Z -> bool) : bool :=
  match fuel with
  | O => true
  | S f => if p n then all_from f (n + 1) p else false
  end.

Definition add_years (k : Z) (d : date) : date :=
  mkdate (year d + k) (month d) (day d).

(** The days of a 400-year era before its year [yoe]; the years of an
    era start on March 1st. *)
Definition days_before_year (yoe : Z) : Z := 365 * yoe + yoe / 4 - yoe / 100.

(** The first day after year [yoe] of an era. *)
Definition year_end (yoe : Z) : Z :=
  if yoe =? 399 then 146097 else days_before_year (yoe + 1).

(** The year of the era of its day [doe]. *)
Definition year_of_day (doe : Z) : Z :=
  (doe - doe / 1460 + doe / 36524 - doe / 146096) / 365.

(** The month, counted from March, of day [doy] of a year. *)
Definition month_of_day (doy : Z) : Z := (5 * doy + 2) / 153.

(** The date at day [doe] of the 400-year era [era], counted from
    March 1st of the first year of the era. *)
Definition date_in_era (era doe : Z) : date :=
  let yoe := year_of_day doe in
  let doy := doe - days_before_year yoe in
  let mp := month_of_day doy in
  let d := doy - (153 * mp + 2) / 5 + 1 in
  let m := if mp <? 10 then mp + 3 else mp - 9 in
  let y := yoe + era * 400 in
  mkdate (if m <=? 2 then y + 1 else y) m d.

(** The day of the era of a date whose March-based year of era is [yoe]. *)
Definition day_in_era (yoe m d : Z) : Z :=
  let mp := if m >? 2 then m - 3 else m + 9 in
  let doy := (153 * mp + 2) / 5 + d - 1 in
  yoe * 365 + yoe / 4 - yoe / 100 + doy.

(** Year [Y] of an era: [year_of_day] finds it from its first and from
    its last day, and it has 366 days exactly when the calendar year in
    which it ends is a leap year. *)
Definition year_ok (Y : Z) : bool :=
  let lo := days_before_year Y in
  let ye := year_end Y in
  (year_of_day lo =? Y) && (year_of_day (ye - 1) =? Y) &&
  (ye - lo =? (if is_leap (Y + 1) then 366 else 365)) &&
  (0 <=? lo) && (ye <=? 146097) &&
  ((Y =? 399) || (ye <=? 145731)) && ((Y =? 0) || (365 <=? lo)).

(** Day [doy] of a year that starts in March: its month and its day of
    the month exist, the last day of a year of 366 days is February
    29th, and January starts on day 306. *)
Definition doy_ok (doy : Z) : bool :=
  let mp := month_of_day doy in
  let d := doy - (153 * mp + 2) / 5 + 1 in
  let m := if mp <? 10 then mp + 3 else mp - 9 in
  (0 <=? mp) && (mp <=? 11) && (1 <=? d) &&
  (if doy =? 365 then (m =? 2) && (d =? 29) else d <=? days_in_month 1 m) &&
  Bool.eqb (306 <=? doy) (m <=? 2).

(** Slot [j] of a year, 31 slots a month: if it is a day of a leap
    year, its number in the year that starts in March gives its month
    back, and is below 365 but for February 29th. *)
Definition slot_ok (j : Z) : bool :=
  let m := j / 31 + 1 in
  let d := j mod 31 + 1 in
  let mp := if m >? 2 then m - 3 else m + 9 in
  let doy := (153 * mp + 2) / 5 + d - 1 in
  (days_in_month 4 m <? d) ||
  ((0 <=? doy) && (doy <=? 365) && (month_of_day doy =? mp) &&
   ((days_in_month 1 m <? d) || (doy <=? 364)) &&
   Bool.eqb (306 <=? doy) (m <=? 2)).

(** No character of [s] is [c]. *)
Fixpoint free_of (c : ascii) (s : string) : bool :=
  match s with
  | EmptyString => true
  | String a s' => negb (Ascii.eqb a c) && free_of c s'
  end.

(** A decimal field of [w] digits, as [strftime] writes it, reads back
    as the number and holds no dash. *)
Definition field_ok (lo hi w : nat) (z : Z) : bool :=
  match field lo hi (zfill w z) with
  | Some v => (v =? z) && free_of "-"%char (zfill w z)
  | None => false
  end.

Local Close Scope Z_scope.

(** *** Items, lines and pacing *)

(** The date of item [k] out of [n]: as many days before [today] as the
    index the distributor gives the item. *)
Definition item_date (today : date) (k n : nat) : date :=
  minus_days today (Z.of_nat (date_idx k 7 n)).

(** The bindings the processors build for item [k] out of [n]. *)
Definition item_vars (now : nat -> date) (k n : nat) : template_vars :=
  make_template_vars (strftime_Ymd (item_date (now 0) k n))
    (item_date (now 0) k n) (now (S k)).

(** A date on which the window of seven days is made of calendar dates. *)
Definition window_day (today : date) : Prop :=
  valid_date today = true /\ (7 <= toordinal today)%Z.

(** What the line loop of [process_template] makes of line [k] out of
    [n]: the rendering of the engine, or the line when the engine
    raises. *)
Definition line_out (env : environment) (now : nat -> date) (k n : nat)
    (line : string) : string :=
  match (t <- from_string env line ;; render env t (item_vars now k n)) with
  | Ok rendered => rendered
  | Raise _ => line
  end.

(** What [time.sleep] adds after a request when [pause] holds and the
    delay is positive. *)
Definition sleep_if (pause : bool) (delay : Z) : list effect :=
  if pause && (delay >? 0)%Z then [Sleep delay] else [].

(** Day number [j] of a year of twelve months of 31 days: its syslog
    form has six characters, a space in fourth place, and a space in
    fifth place exactly when the day is before the tenth. *)
Definition syslog_ok (j : Z) : bool :=
  let m := (j / 31 + 1)%Z in
  let d := (j mod 31 + 1)%Z in
  let s := format_syslog_date (mkdate 2000 m d) in
  (String.length s =? 6) &&
  match String.get 3 s, String.get 4 s with
  | Some a, Some b =>
      (nat_of_ascii a =? 32) && Bool.eqb (d <? 10)%Z (nat_of_ascii b =? 32)
  | _, _ => false
  end.

(** *** More concrete inputs *)

Definition three_events : list json :=
  [JDict [("msg", JStr "day {{date}} offset {{day_offset}}")];
   JDict [("msg", JStr "day {{date}} offset {{day_offset}}")];
   JDict [("msg", JStr "day {{date}} offset {{day_offset}}")]].

(** Two lines of a log, the second one with an empty expression. *)
Definition two_lines : string :=
  ("user login on {{date}}" ++ String newline "broken {{ }} line")%string.

Definition object_template : string := dq "{'msg': 'no array'}".

(** * Properties *)

(** ** Fallible maps and loops *)

Lemma mapM_ok_map :
  forall (A B : Type) (f : A -> result B) (g : A -> B) (l : list A),
    (forall x, In x l -> f x = Ok (g x)) ->
    mapM f l = Ok (map g l).
Proof.
  intros A B f g l; induction l as [|x xs IH]; intros H; simpl.
  - reflexivity.
  - rewrite (H x (or_introl eq_refl)); simpl.
    rewrite IH by (intros y Hy; apply H; right; exact Hy).
    reflexivity.
Qed.

Lemma mapM_length :
  forall (A B : Type) (f : A -> result B) (l : list A) (l' : list B),
    mapM f l = Ok l' -> List.length l' = List.length l.
Proof.
  intros A B f l; induction l as [|x xs IH]; intros l' H; simpl in H.
  - inversion H; reflexivity.
  - destruct (f x) as [y|e]; simpl in H; [|discriminate].
    destruct (mapM f xs) as [ys|e]; simpl in H; [|discriminate].
    inversion H; subst; simpl; f_equal; apply IH; reflexivity.
Qed.

Lemma map_snd_enumerate :
  forall (A : Type) (l : list A), map snd (enumerate l) = l.
Proof.
  intros A l; unfold enumerate. generalize 0.
  induction l as [|x xs IH]; intros k; simpl; [reflexivity|].
  f_equal; apply IH.
Qed.

Lemma length_enumerate :
  forall (A : Type) (l : list A), List.length (enumerate l) = List.length l.
Proof.
  intros A l; unfold enumerate.
  rewrite length_combine, length_seq. apply Nat.min_id.
Qed.

Lemma append_loop_raise :
  forall (A B : Type) (f : A -> result B) (xs : list A) (e : exception),
    fold_left
      (fun acc i => l <- acc ;; d <- f i ;; Ok (l ++ [d])) xs (Raise e)
    = Raise e.
Proof.
  intros A B f xs e; induction xs as [|x xs IH]; simpl; [reflexivity|exact IH].
Qed.

(** A loop that appends one result per turn is the fallible map. *)
Lemma append_loop_mapM :
  forall (A B : Type) (f : A -> result B) (xs : list A) (pre : list B),
    fold_left
      (fun acc i => l <- acc ;; d <- f i ;; Ok (l ++ [d])) xs (Ok pre)
    = (ys <- mapM f xs ;; Ok (pre ++ ys)).
Proof.
  intros A B f xs; induction xs as [|x xs IH]; intros pre; simpl.
  - rewrite app_nil_r; reflexivity.
  - destruct (f x) as [y|e]; simpl.
    + rewrite IH. destruct (mapM f xs) as [ys|e]; simpl; [|reflexivity].
      rewrite <- app_assoc; reflexivity.
    + apply append_loop_raise.
Qed.

(** ** The distributor *)

Lemma date_idx_lt :
  forall i W count, i < count -> 0 < W -> date_idx i W count < W.
Proof.
  intros i W count Hi HW; unfold date_idx.
  apply Nat.Div0.div_lt_upper_bound. nia.
Qed.

Lemma date_idx_mono :
  forall i j W count, i <= j -> date_idx i W count <= date_idx j W count.
Proof.
  intros i j W count Hij; unfold date_idx.
  apply Nat.Div0.div_le_mono. nia.
Qed.

(** With at least as many items as dates, the item at the rounded-up
    position [k * count / W] falls on date [k]. *)
Lemma date_idx_onto :
  forall k W count, k < W -> W <= count ->
    exists i, i < count /\ date_idx i W count = k.
Proof.
  intros k W count Hk HW.
  exists ((k * count + W - 1) / W). unfold date_idx.
  assert (HW0 : W <> 0) by lia.
  pose proof (Nat.div_mod (k * count + W - 1) W HW0) as Hdm.
  pose proof (Nat.mod_upper_bound (k * count + W - 1) W HW0) as Hmod.
  set (q := (k * count + W - 1) / W) in *.
  set (r := (k * count + W - 1) mod W) in *.
  split.
  - assert (W * q < W * count) by nia. nia.
  - symmetry. apply Nat.div_unique with (r := q * W - k * count); nia.
Qed.

Lemma both_distribute_dates_agree :
  forall (A : Type) (dates : list A) (count : nat),
    Processor.distribute_dates count dates = Playbook.distribute_dates count dates.
Proof.
  intros A dates count.
  unfold Processor.distribute_dates, Playbook.distribute_dates.
  destruct (count =? 0); [reflexivity|].
  rewrite append_loop_mapM.
  destruct (mapM _ _); reflexivity.
Qed.

Lemma distribute_dates_eq :
  forall (A : Type) (dates : list A) (d0 : A) (count : nat),
    dates <> [] -> count <> 0 ->
    Playbook.distribute_dates count dates
    = Ok (map (fun i => nth (date_idx i (List.length dates) count) dates d0)
              (seq 0 count)).
Proof.
  intros A dates d0 count Hd Hc. unfold Playbook.distribute_dates.
  destruct (Nat.eqb_spec count 0) as [->|_]; [contradiction|].
  apply mapM_ok_map. intros i Hi. apply in_seq in Hi.
  unfold getitem.
  assert (Hlt : date_idx i (List.length dates) count < List.length dates).
  { apply date_idx_lt; [lia|]. destruct dates; [contradiction|simpl; lia]. }
  rewrite (nth_error_nth' dates d0 Hlt). reflexivity.
Qed.

(** An empty window serves no item: the first lookup is out of range. *)
Lemma distribute_dates_empty_window :
  forall (A : Type) (count : nat),
    count <> 0 ->
    Playbook.distribute_dates count (@nil A)
    = Raise (IndexError "list index out of range").
Proof.
  intros A count Hc. unfold Playbook.distribute_dates.
  destruct (Nat.eqb_spec count 0) as [->|_]; [contradiction|].
  destruct count as [|n]; [contradiction|]. reflexivity.
Qed.

Lemma nth_error_seq_from :
  forall len start i,
    nth_error (seq start len) i = if i <? len then Some (start + i) else None.
Proof.
  induction len as [|len IH]; intros start i; simpl.
  - destruct i; reflexivity.
  - destruct i as [|i]; simpl.
    + f_equal; lia.
    + rewrite IH. change (S i <? S len) with (i <? len).
      destruct (i <? len); [f_equal; lia|reflexivity].
Qed.

Lemma nth_error_map_seq :
  forall (B : Type) (f : nat -> B) n i,
    nth_error (map f (seq 0 n)) i = if i <? n then Some (f i) else None.
Proof.
  intros B f n i. rewrite nth_error_map, nth_error_seq_from.
  destruct (i <? n); reflexivity.
Qed.

Lemma Forall2_map_both :
  forall (A B C : Type) (R : B -> C -> Prop) (f : A -> B) (g : A -> C) l,
    (forall x, In x l -> R (f x) (g x)) ->
    Forall2 R (map f l) (map g l).
Proof.
  intros A B C R f g l; induction l as [|x xs IH]; intros H; simpl.
  - constructor.
  - constructor; [apply H; left; reflexivity|].
    apply IH; intros y Hy; apply H; right; exact Hy.
Qed.

(** C2: on a window of [W] dates, both [distribute_dates] return a list
    of length [count], the empty list for [count = 0], whose [i]-th entry
    is the date at index [floor (i * W / count)] of the window.  The window
    holds at least one date, or there is no item to serve. *)
Theorem distribute_dates_floor :
  forall (A : Type) (dates : list A) (count : nat),
    dates <> [] \/ count = 0 ->
    exists l,
      Playbook.distribute_dates count dates = Ok l /\
      Processor.distribute_dates count dates = Ok l /\
      List.length l = count /\
      (count = 0 -> l = []) /\
      (forall i, i < count ->
         nth_error l i = nth_error dates (i * List.length dates / count)).
Proof.
  intros A dates count H.
  destruct (Nat.eq_dec count 0) as [->|Hc].
  - exists []. repeat split; try reflexivity. intros i Hi; lia.
  - destruct H as [Hd|Hz]; [|contradiction].
    destruct dates as [|d0 ds] eqn:E; [contradiction|]. rewrite <- E in *.
    exists (map (fun i => nth (date_idx i (List.length dates) count) dates d0)
                (seq 0 count)).
    assert (Hone := distribute_dates_eq d0 Hd Hc).
    split; [exact Hone|].
    split; [rewrite both_distribute_dates_agree; exact Hone|].
    split; [rewrite length_map, length_seq; reflexivity|].
    split; [intros; contradiction|].
    intros i Hi. rewrite nth_error_map_seq.
    destruct (Nat.ltb_spec i count) as [_|]; [|lia].
    symmetry. apply nth_error_nth'.
    apply date_idx_lt; [exact Hi|]. rewrite E; simpl; lia.
Qed.

Lemma distribute_dates_floor_witness :
  (week_of_2025_01_10 <> [] \/ 3 = 0) /\
  exists l,
    Playbook.distribute_dates 3 week_of_2025_01_10 = Ok l /\
    Processor.distribute_dates 3 week_of_2025_01_10 = Ok l /\
    List.length l = 3 /\
    (3 = 0 -> l = []) /\
    (forall i, i < 3 ->
       nth_error l i
       = nth_error week_of_2025_01_10 (i * List.length week_of_2025_01_10 / 3)).
Proof.
  split.
  - left; discriminate.
  - apply (@distribute_dates_floor string week_of_2025_01_10 3).
    left; discriminate.
Defined.

(** C8: for [count > 0] items and a window of [W > 0] dates, the window
    indices the distributor assigns (what it returns on the window
    [0, 1, .., W-1]) never decrease along the items and lie in [0, W); with
    [count >= W] every index of the window is assigned.  On any window of
    [W] dates the result holds the dates at those indices. *)
Theorem distribute_dates_monotone_in_range_onto :
  forall (W count : nat),
    0 < count -> 0 < W ->
    exists idxs,
      Playbook.distribute_dates count (seq 0 W) = Ok idxs /\
      Processor.distribute_dates count (seq 0 W) = Ok idxs /\
      (forall i j a b,
         i <= j -> nth_error idxs i = Some a -> nth_error idxs j = Some b ->
         a <= b) /\
      Forall (fun k => k < W) idxs /\
      (W <= count -> forall k, k < W -> In k idxs) /\
      (forall (A : Type) (dates : list A),
         List.length dates = W ->
         exists l,
           Playbook.distribute_dates count dates = Ok l /\
           Processor.distribute_dates count dates = Ok l /\
           Forall2 (fun k d => nth_error dates k = Some d) idxs l).
Proof.
  intros W count Hc HW.
  exists (map (fun i => date_idx i W count) (seq 0 count)).
  assert (Hne : forall (A : Type) (dates : list A),
             List.length dates = W -> dates <> []).
  { intros A dates Hl ->. simpl in Hl. lia. }
  assert (Hid : Playbook.distribute_dates count (seq 0 W)
                = Ok (map (fun i => date_idx i W count) (seq 0 count))).
  { rewrite (@distribute_dates_eq nat (seq 0 W) 0 count);
      [|apply Hne; apply length_seq|lia].
    f_equal. apply map_ext_in. intros i Hi. apply in_seq in Hi.
    rewrite length_seq, seq_nth; [reflexivity|].
    apply date_idx_lt; lia. }
  split; [exact Hid|].
  split; [rewrite both_distribute_dates_agree; exact Hid|].
  split.
  { intros i j a b Hij Ha Hb.
    rewrite nth_error_map_seq in Ha, Hb.
    destruct (i <? count); [|discriminate].
    destruct (j <? count); [|discriminate].
    inversion Ha; inversion Hb; subst. apply date_idx_mono; exact Hij. }
  split.
  { apply Forall_forall. intros k Hk. apply in_map_iff in Hk.
    destruct Hk as [i [<- Hi]]. apply in_seq in Hi.
    apply date_idx_lt; lia. }
  split.
  { intros Hge k Hk. destruct (date_idx_onto Hk Hge) as [i [Hi <-]].
    apply in_map_iff. exists i. split; [reflexivity|]. apply in_seq; lia. }
  intros A dates Hl.
  destruct dates as [|d0 ds] eqn:E; [simpl in Hl; lia|]. rewrite <- E in *.
  assert (Hd : dates <> []) by (apply Hne; exact Hl).
  assert (Hone := @distribute_dates_eq A dates d0 count Hd ltac:(lia)).
  exists (map (fun i => nth (date_idx i (List.length dates) count) dates d0)
              (seq 0 count)).
  split; [exact Hone|].
  split; [rewrite both_distribute_dates_agree; exact Hone|].
  apply Forall2_map_both. intros i Hi. apply in_seq in Hi.
  rewrite Hl. apply nth_error_nth'. rewrite Hl. apply date_idx_lt; lia.
Qed.

Lemma distribute_dates_monotone_in_range_onto_witness :
  (0 < 10 /\ 0 < 7) /\
  exists idxs,
    Playbook.distribute_dates 10 (seq 0 7) = Ok idxs /\
    Processor.distribute_dates 10 (seq 0 7) = Ok idxs /\
    (forall i j a b,
       i <= j -> nth_error idxs i = Some a -> nth_error idxs j = Some b ->
       a <= b) /\
    Forall (fun k => k < 7) idxs /\
    (7 <= 10 -> forall k, k < 7 -> In k idxs) /\
    (forall (A : Type) (dates : list A),
       List.length dates = 7 ->
       exists l,
         Playbook.distribute_dates 10 dates = Ok l /\
         Processor.distribute_dates 10 dates = Ok l /\
         Forall2 (fun k d => nth_error dates k = Some d) idxs l).
Proof.
  split.
  - split; lia.
  - apply (@distribute_dates_monotone_in_range_onto 7 10); lia.
Defined.

Example distribute_dates_10_over_7 :
  Playbook.distribute_dates 10 (seq 0 7) = Ok [0; 0; 1; 2; 2; 3; 4; 4; 5; 6].
Proof. reflexivity. Qed.

(** ** JSON values *)

Lemma dict_setitem_fresh :
  forall (V : Type) (k : string) (v : V) (d : list (string * V)),
    ~ In k (keys d) -> dict_setitem k v d = d ++ [(k, v)].
Proof.
  intros V k v d; induction d as [|[k' v'] d IH]; intros Hk; simpl.
  - reflexivity.
  - destruct (String.eqb_spec k k') as [->|Hne].
    + exfalso; apply Hk; left; reflexivity.
    + rewrite IH; [reflexivity|]. intros Hin; apply Hk; right; exact Hin.
Qed.

Lemma dict_fill_nodup :
  forall (V : Type) (kvs acc : list (string * V)),
    NoDup (keys (acc ++ kvs)) ->
    fold_left (fun d kv => dict_setitem (fst kv) (snd kv) d) kvs acc
    = acc ++ kvs.
Proof.
  intros V kvs; induction kvs as [|[k v] kvs IH]; intros acc Hnd; simpl.
  - rewrite app_nil_r; reflexivity.
  - unfold keys in Hnd. rewrite map_app in Hnd. simpl in Hnd.
    rewrite dict_setitem_fresh.
    + rewrite IH; [rewrite <- app_assoc; reflexivity|].
      unfold keys. rewrite <- app_assoc, map_app. exact Hnd.
    + apply NoDup_remove_2 in Hnd. intros Hin; apply Hnd.
      apply in_or_app; left; exact Hin.
Qed.

(** A sequence of pairs with distinct keys is its own dictionary. *)
Lemma dict_of_pairs_nodup :
  forall (V : Type) (kvs : list (string * V)),
    NoDup (keys kvs) -> dict_of_pairs kvs = kvs.
Proof.
  intros V kvs Hnd. unfold dict_of_pairs.
  rewrite dict_fill_nodup; [reflexivity|exact Hnd].
Qed.

Lemma keys_map_values :
  forall (V W : Type) (f : V -> W) (d : list (string * V)),
    keys (map (fun kv => (fst kv, f (snd kv))) d) = keys d.
Proof.
  intros V W f d; unfold keys; rewrite map_map; reflexivity.
Qed.

Lemma Forall2_self_map :
  forall (A B : Type) (R : A -> B -> Prop) (f : A -> B) (l : list A),
    (forall x, In x l -> R x (f x)) -> Forall2 R l (map f l).
Proof.
  intros A B R f l; induction l as [|x xs IH]; intros H; simpl.
  - constructor.
  - constructor; [apply H; left; reflexivity|].
    apply IH; intros y Hy; apply H; right; exact Hy.
Qed.

Lemma map_fixed :
  forall (A : Type) (f : A -> A) (l : list A),
    (forall x, In x l -> f x = x) -> map f l = l.
Proof.
  intros A f l; induction l as [|x xs IH]; intros H; simpl.
  - reflexivity.
  - rewrite (H x (or_introl eq_refl)). f_equal.
    apply IH; intros y Hy; apply H; right; exact Hy.
Qed.

(** ** The renderer *)

Ltac solve_wf :=
  repeat first
    [ apply wf_null | apply wf_bool | apply wf_int | apply wf_float
    | apply wf_str | apply wf_list | apply wf_dict
    | apply Forall_nil | apply Forall_cons | apply NoDup_nil
    | apply NoDup_cons; [simpl; intuition discriminate|] ];
  simpl.

Section RendererProperties.

Variable env : environment.
Variable vars : template_vars.

(** A string leaf comes back as the engine rendered it, or as it was. *)
Lemma render_str_cases :
  forall s,
    render_str env vars s = s \/
    (str_in "{{" s = true /\ str_in "}}" s = true /\
     (t <- from_string env s ;; render env t vars)
     = Ok (render_str env vars s)).
Proof.
  intros s. unfold render_str.
  destruct (str_in "{{" s); [|left; reflexivity].
  destruct (str_in "}}" s); [|left; reflexivity].
  simpl. destruct (t <- from_string env s;; render env t vars) as [r|e].
  - right; repeat split.
  - left; reflexivity.
Qed.

Lemma render_dict_eq :
  forall items,
    NoDup (keys items) ->
    render_template_in_value env vars (JDict items)
    = JDict (map (fun kv =>
                    (fst kv, render_template_in_value env vars (snd kv)))
                 items).
Proof.
  intros items Hnd. simpl. rewrite dict_of_pairs_nodup; [reflexivity|].
  rewrite keys_map_values. exact Hnd.
Qed.

Lemma render_same_structure :
  forall v,
    wf_json v -> same_structure v (render_template_in_value env vars v).
Proof.
  induction v as [ | b | n | lit | s | items IH | items IH ] using json_ind';
    intros Hwf; try (simpl; constructor; fail).
  - inversion Hwf as [ | | | | | items' Hall | ]; subst.
    rewrite Forall_forall in IH, Hall.
    simpl; constructor. apply Forall2_self_map. intros x Hx. apply IH; auto.
  - inversion Hwf as [ | | | | | | items' Hnd Hall ]; subst.
    rewrite render_dict_eq by exact Hnd. constructor.
    rewrite Forall_forall in IH, Hall.
    apply Forall2_self_map. intros kv Hkv. split; [reflexivity|].
    apply IH; auto.
Qed.

(** C7: rendering keeps the structure of a value.  An object comes back
    as an object with the same keys in the same order, each value
    rendered; an array as the array of its rendered elements, so of the
    same length and order; a number, a boolean and null as they were.
    Over the whole depth of the value only string leaves may differ. *)
Theorem render_preserves_structure :
  forall v,
    wf_json v ->
    same_structure v (render_template_in_value env vars v) /\
    match v with
    | JDict items =>
        render_template_in_value env vars v
        = JDict (map (fun kv =>
                        (fst kv, render_template_in_value env vars (snd kv)))
                     items) /\
        (forall items',
           render_template_in_value env vars v = JDict items' ->
           keys items' = keys items)
    | JList items =>
        render_template_in_value env vars v
        = JList (map (render_template_in_value env vars) items) /\
        (forall items',
           render_template_in_value env vars v = JList items' ->
           List.length items' = List.length items)
    | JStr s =>
        exists s', render_template_in_value env vars v = JStr s'
    | JNull | JBool _ | JInt _ | JFloat _ =>
        render_template_in_value env vars v = v
    end.
Proof.
  intros v Hwf. split; [apply render_same_structure; exact Hwf|].
  destruct v as [ | b | n | lit | s | items | items ]; try reflexivity.
  - eexists; reflexivity.
  - split; [reflexivity|].
    intros items' H. simpl in H. inversion H. apply length_map.
  - inversion Hwf as [ | | | | | | items' Hnd Hall ]; subst.
    split; [apply render_dict_eq; exact Hnd|].
    intros items' H. rewrite render_dict_eq in H by exact Hnd.
    inversion H. apply keys_map_values.
Qed.

(** C9: a value in which no string leaf holds both an opening and a
    closing marker is rendered to itself, whatever the bindings and
    the engine. *)
Theorem render_marker_free_identity :
  forall v,
    wf_json v -> marker_free v = true ->
    render_template_in_value env vars v = v.
Proof.
  induction v as [ | b | n | lit | s | items IH | items IH ] using json_ind';
    intros Hwf Hfree; try reflexivity.
  - simpl in *. unfold render_str.
    destruct (str_in "{{" s && str_in "}}" s); [discriminate|reflexivity].
  - inversion Hwf as [ | | | | | items' Hall | ]; subst.
    simpl in Hfree. rewrite forallb_forall in Hfree.
    rewrite Forall_forall in IH, Hall.
    simpl; f_equal.
    apply map_fixed. intros x Hx. apply IH; auto.
  - inversion Hwf as [ | | | | | | items' Hnd Hall ]; subst.
    simpl in Hfree. rewrite forallb_forall in Hfree.
    rewrite Forall_forall in IH, Hall.
    rewrite render_dict_eq by exact Hnd. f_equal.
    apply map_fixed. intros [k x] Hkv. simpl. f_equal.
    apply (IH (k, x)); [exact Hkv|apply (Hall (k, x)); exact Hkv|].
    apply (Hfree (k, x)); exact Hkv.
Qed.

(** C4, as amended: on a string leaf with both markers the renderer
    never raises and returns a string, the original one when compiling
    or rendering the leaf raises and otherwise what the engine rendered,
    never a mixture of both; so a value whose marked leaves all fail to
    evaluate is returned as it was.  Which leaves fail is the engine's
    affair: a malformed expression does, an unknown variable does not
    with the engine the code builds. *)
Theorem render_fail_open :
  (forall s,
     str_in "{{" s = true ->
     str_in "}}" s = true ->
     match (t <- from_string env s ;; render env t vars) with
     | Raise _ => render_template_in_value env vars (JStr s) = JStr s
     | Ok rendered =>
         render_template_in_value env vars (JStr s) = JStr rendered
     end) /\
  (forall v,
     wf_json v -> fails_everywhere env vars v = true ->
     render_template_in_value env vars v = v).
Proof.
  split.
  - intros s Hopen Hclose. simpl. unfold render_str.
    rewrite Hopen, Hclose. simpl.
    destruct (t <- from_string env s;; render env t vars); reflexivity.
  - induction v as [ | b | n | lit | s | items IH | items IH ] using json_ind';
      intros Hwf Hfail; try reflexivity.
    + simpl in *. unfold render_str, evaluation_fails in *.
      destruct (str_in "{{" s && str_in "}}" s); [|reflexivity].
      simpl in Hfail.
      destruct (t <- from_string env s;; render env t vars);
        [discriminate|reflexivity].
    + inversion Hwf as [ | | | | | items' Hall | ]; subst.
      simpl in Hfail. rewrite forallb_forall in Hfail.
      rewrite Forall_forall in IH, Hall.
      simpl; f_equal.
      apply map_fixed. intros x Hx. apply IH; auto.
    + inversion Hwf as [ | | | | | | items' Hnd Hall ]; subst.
      simpl in Hfail. rewrite forallb_forall in Hfail.
      rewrite Forall_forall in IH, Hall.
      rewrite render_dict_eq by exact Hnd. f_equal.
      apply map_fixed. intros [k x] Hkv. simpl. f_equal.
      apply (IH (k, x)); [exact Hkv|apply (Hall (k, x)); exact Hkv|].
      apply (Hfail (k, x)); exact Hkv.
Qed.

End RendererProperties.

(** *** Examples *)

Example vars_2025_01_08_bindings :
  vars_2025_01_08
  = [("date", VStr "2025-01-08"); ("date_us", VStr "01/08/2025");
     ("date_eu", VStr "08/01/2025"); ("date_short", VStr "20250108");
     ("syslog_date", VStr "Jan  8"); ("day_offset", VInt 2)].
Proof. reflexivity. Qed.

Example sample_event_rendered :
  render_template_in_value Ref.env vars_2025_01_08 sample_event
  = JDict [("msg", JStr "seen on 2025-01-08");
           ("count", JInt 3);
           ("ratio", JFloat "0.5");
           ("tags", JList [JStr "plain {{ text"; JNull; JBool true])].
Proof. reflexivity. Qed.

Lemma render_preserves_structure_witness :
  wf_json sample_event /\
  same_structure sample_event
    (render_template_in_value Ref.env vars_2025_01_08 sample_event).
Proof.
  assert (Hwf : wf_json sample_event) by (unfold sample_event; solve_wf).
  split.
  - exact Hwf.
  - exact (proj1 (@render_preserves_structure Ref.env vars_2025_01_08
                    sample_event Hwf)).
Defined.

Lemma render_marker_free_identity_witness :
  (wf_json plain_event /\ marker_free plain_event = true) /\
  render_template_in_value Ref.env vars_2025_01_08 plain_event = plain_event.
Proof.
  assert (Hwf : wf_json plain_event) by (unfold plain_event; solve_wf).
  split.
  - split; [exact Hwf|reflexivity].
  - exact (@render_marker_free_identity Ref.env vars_2025_01_08 plain_event
             Hwf eq_refl).
Defined.

Lemma render_fail_open_witness :
  (wf_json broken_event /\
   fails_everywhere Ref.jinja_default vars_2025_01_08 broken_event = true) /\
  render_template_in_value Ref.jinja_default vars_2025_01_08 broken_event
  = broken_event.
Proof.
  assert (Hwf : wf_json broken_event) by (unfold broken_event; solve_wf).
  split.
  - split; [exact Hwf|reflexivity].
  - exact (proj2 (@render_fail_open Ref.jinja_default vars_2025_01_08)
             broken_event Hwf eq_refl).
Defined.

(** A name the bindings lack, with the engine of the specification. *)
Example render_unknown_variable :
  (t <- from_string Ref.env "host {{ hostname }}" ;;
   render Ref.env t vars_2025_01_08)
  = Raise (TemplateError "'hostname' is undefined") /\
  render_template_in_value Ref.env vars_2025_01_08 (JStr "host {{ hostname }}")
  = JStr "host {{ hostname }}".
Proof. split; reflexivity. Qed.

(** The same leaf with the engine the code builds: the leaf holds both
    markers and names a variable the bindings lack; its evaluation does
    not raise, and the leaf comes back without the placeholder, not as
    it was. *)
Lemma unknown_variable_is_rendered_empty :
  str_in "{{" "host {{ hostname }}" = true /\
  str_in "}}" "host {{ hostname }}" = true /\
  dict_get "hostname" vars_2025_01_08 = None /\
  evaluation_fails Ref.jinja_default vars_2025_01_08 "host {{ hostname }}"
  = false /\
  render_template_in_value Ref.jinja_default vars_2025_01_08
    (JStr "host {{ hostname }}")
  = JStr "host " /\
  JStr "host " <> JStr "host {{ hostname }}".
Proof.
  split; [reflexivity|]. split; [reflexivity|]. split; [reflexivity|].
  split; [reflexivity|]. split; [reflexivity|]. discriminate.
Qed.

(** ** The end-to-end example *)

(** Three items on 2025-01-10, whatever [json.loads] made of the text
    and whatever the engine does with a leaf. *)
Lemma three_items_any_libraries :
  forall (json_loads : string -> result json) (env : environment)
         (content : string) (e0 e1 e2 : json),
    json_loads (strip content) = Ok (JList [e0; e1; e2]) ->
    Playbook.process_json_template json_loads env clock_2025_01_10 content
    = Ok [render_template_in_value env
            (bindings_of "2025-01-10" "01/10/2025" "10/01/2025" "20250110"
               "Jan 10" 0) e0;
          render_template_in_value env
            (bindings_of "2025-01-08" "01/08/2025" "08/01/2025" "20250108"
               "Jan  8" 2) e1;
          render_template_in_value env
            (bindings_of "2025-01-06" "01/06/2025" "06/01/2025" "20250106"
               "Jan  6" 4) e2].
Proof.
  intros json_loads env content e0 e1 e2 H.
  unfold Playbook.process_json_template. rewrite H. reflexivity.
Qed.

(** C3, as amended: with the date fixed to 2025-01-10, three items over
    the seven-day window get the window indices 0, 2 and 4; item 0 is
    rendered with 2025-01-10 and offset 0, item 1 with 2025-01-08 and
    offset 2, item 2 with 2025-01-06 and offset 4, by both processors. *)
Theorem three_items_over_the_week :
  Playbook.distribute_dates 3 (seq 0 7) = Ok [0; 2; 4] /\
  get_past_week_dates (mkdate 2025 1 10)
  = ["2025-01-10"; "2025-01-09"; "2025-01-08"; "2025-01-07";
     "2025-01-06"; "2025-01-05"; "2025-01-04"] /\
  (forall (json_loads : string -> result json) (env : environment)
          (content : string) (e0 e1 e2 : json),
     json_loads (strip content) = Ok (JList [e0; e1; e2]) ->
     Playbook.process_json_template json_loads env clock_2025_01_10 content
     = Ok [render_template_in_value env
             (bindings_of "2025-01-10" "01/10/2025" "10/01/2025" "20250110"
                "Jan 10" 0) e0;
           render_template_in_value env
             (bindings_of "2025-01-08" "01/08/2025" "08/01/2025" "20250108"
                "Jan  8" 2) e1;
           render_template_in_value env
             (bindings_of "2025-01-06" "01/06/2025" "06/01/2025" "20250106"
                "Jan  6" 4) e2]) /\
  Playbook.process_json_template Ref.loads Ref.env clock_2025_01_10
    template_3_items
  = Ok [JDict [("msg", JStr "day 2025-01-10 offset 0")];
        JDict [("msg", JStr "day 2025-01-08 offset 2")];
        JDict [("msg", JStr "day 2025-01-06 offset 4")]] /\
  Processor.process_template Ref.loads Ref.env clock_2025_01_10
    template_3_items
  = Returns (Processor.Events
       [JDict [("msg", JStr "day 2025-01-10 offset 0")];
        JDict [("msg", JStr "day 2025-01-08 offset 2")];
        JDict [("msg", JStr "day 2025-01-06 offset 4")]]).
Proof.
  split; [reflexivity|].
  split; [reflexivity|].
  split; [exact three_items_any_libraries|].
  split; vm_compute; reflexivity.
Qed.

(** The third item is served by index 4 and the date 2025-01-06, not by
    index 5 and 2025-01-05. *)
Lemma third_item_is_not_on_index_5 :
  exists idxs events,
    Playbook.distribute_dates 3 (seq 0 7) = Ok idxs /\
    Playbook.process_json_template Ref.loads Ref.env clock_2025_01_10
      template_3_items = Ok events /\
    nth_error idxs 2 = Some 4 /\
    nth_error idxs 2 <> Some 5 /\
    nth_error events 2 = Some (JDict [("msg", JStr "day 2025-01-06 offset 4")]) /\
    nth_error events 2 <> Some (JDict [("msg", JStr "day 2025-01-05 offset 5")]).
Proof.
  exists [0; 2; 4].
  exists [JDict [("msg", JStr "day 2025-01-10 offset 0")];
          JDict [("msg", JStr "day 2025-01-08 offset 2")];
          JDict [("msg", JStr "day 2025-01-06 offset 4")]].
  repeat split; try (vm_compute; reflexivity); simpl; discriminate.
Qed.

(** ** Malformed JSON *)

Lemma distribute_dates_length :
  forall (A : Type) (dates l : list A) (count : nat),
    Playbook.distribute_dates count dates = Ok l -> List.length l = count.
Proof.
  intros A dates l count. unfold Playbook.distribute_dates.
  destruct (Nat.eqb_spec count 0) as [->|_]; intros H.
  - inversion H; reflexivity.
  - apply mapM_length in H. rewrite length_seq in H. exact H.
Qed.

(** The playbook renders every item of the array, or none: a returned
    list has one rendered item per item of the template. *)
Lemma process_json_template_all_or_none :
  forall (json_loads : string -> result json) (env : environment)
         (now : nat -> date) (content : string) (out : list json),
    Playbook.process_json_template json_loads env now content = Ok out ->
    exists events,
      json_loads (strip content) = Ok (JList events) /\
      List.length out = List.length events.
Proof.
  intros json_loads env now content out.
  unfold Playbook.process_json_template.
  destruct (json_loads (strip content)) as [v|e]; simpl; [|discriminate].
  destruct v as [ | b | n | lit | s | items | items ]; try discriminate.
  destruct (Playbook.distribute_dates (List.length items)
              (get_past_week_dates (now 0))) as [das|e] eqn:E;
    simpl; [|discriminate].
  intros H. apply mapM_length in H. apply distribute_dates_length in E.
  exists items. split; [reflexivity|].
  rewrite H, length_enumerate, length_combine, E. apply Nat.min_id.
Qed.

Section MalformedJson.

Variable json_loads : string -> result json.
Variable env : environment.
Variable now : nat -> date.
Variable fetch_template : string -> result string.
Variable net : network.

(** C1, as amended: when the trimmed text of the template is malformed
    JSON, the playbook ends with an error, renders no item and makes no
    delivery call, and [process_json_template] of the command-line
    processor exits with status 1.  [process_template] does not abort on
    such a text: [is_json_array] answers [False] and the text is
    processed as lines. *)
Theorem malformed_json_is_fatal_in_playbook :
  forall (url webhook_url : string) (delay : Z) (content msg : string),
    fetch_template url = Ok content ->
    json_loads (strip content) = Raise (JSONDecodeError msg) ->
    Playbook.process_json_template json_loads env now content
    = Raise (JSONDecodeError msg) /\
    Playbook.playbook json_loads env now fetch_template net
      url webhook_url delay
    = (Playbook.PbError ("Invalid JSON in template: " ++ msg), []) /\
    Processor.process_json_template json_loads env now content = Exits 1 /\
    Processor.is_json_array json_loads content = Ok false.
Proof.
  intros url webhook_url delay content msg Hfetch Hbad.
  assert (Hp : Playbook.process_json_template json_loads env now content
               = Raise (JSONDecodeError msg)).
  { unfold Playbook.process_json_template. rewrite Hbad. reflexivity. }
  split; [exact Hp|].
  split.
  { unfold Playbook.playbook. rewrite Hfetch. simpl. rewrite Hp. reflexivity. }
  split.
  { unfold Processor.process_json_template. rewrite Hbad. reflexivity. }
  unfold Processor.is_json_array. rewrite Hbad.
  destruct (prefix "[" (strip content)); reflexivity.
Qed.

End MalformedJson.

Lemma malformed_json_is_fatal_in_playbook_witness :
  ((fun _ : string => Ok "{not valid") "https://templates.example/t.json"
   = Ok "{not valid" /\
   Ref.loads (strip "{not valid") = Raise (JSONDecodeError "Expecting value")) /\
  (Playbook.process_json_template Ref.loads Ref.env clock_2025_01_10
     "{not valid"
   = Raise (JSONDecodeError "Expecting value") /\
   Playbook.playbook Ref.loads Ref.env clock_2025_01_10
     (fun _ => Ok "{not valid") (always 200)
     "https://templates.example/t.json" "https://hook.example/in" 50
   = (Playbook.PbError
        ("Invalid JSON in template: " ++ "Expecting value"), []) /\
   Processor.process_json_template Ref.loads Ref.env clock_2025_01_10
     "{not valid" = Exits 1 /\
   Processor.is_json_array Ref.loads "{not valid" = Ok false).
Proof.
  split.
  - split; reflexivity.
  - exact (@malformed_json_is_fatal_in_playbook
             Ref.loads Ref.env clock_2025_01_10
             (fun _ => Ok "{not valid") (always 200)
             "https://templates.example/t.json" "https://hook.example/in" 50
             "{not valid" "Expecting value" eq_refl eq_refl).
Defined.

(** The command-line processor on malformed JSON: the text is no JSON
    array for [is_json_array], so it is rendered as one line and posted
    in one batch; the run ends normally after one delivery call. *)
Lemma malformed_json_is_delivered_as_lines :
  Ref.loads (strip "{not valid") = Raise (JSONDecodeError "Expecting value") /\
  Processor.process_template Ref.loads Ref.env clock_2025_01_10 "{not valid"
  = Returns (Processor.Text "{not valid") /\
  Processor.main Ref.loads Ref.env clock_2025_01_10 (always 200)
    "{not valid" "https://hook.example/in"
  = (Returns tt,
     [Post "https://hook.example/in"
        (JDict [("events", JList [JDict [("raw", JStr "{not valid")]])])]) /\
  Processor.main Ref.loads Ref.env clock_2025_01_10 (always 200)
    "[not valid" "https://hook.example/in"
  = (Returns tt,
     [Post "https://hook.example/in"
        (JDict [("events", JList [JDict [("raw", JStr "[not valid")]])])]).
Proof. repeat split; vm_compute; reflexivity. Qed.

(** ** Delivery of events *)

Lemma status_ok_iff :
  forall status, status_ok status = true <-> (200 <= status < 300)%Z.
Proof. intros status; unfold status_ok; lia. Qed.

Lemma posts_app : forall t1 t2, posts (t1 ++ t2) = posts t1 ++ posts t2.
Proof. intros t1 t2; unfold posts; apply filter_app. Qed.

Lemma posts_pace : forall delay, posts (Playbook.pace delay) = [].
Proof. intros delay; unfold Playbook.pace; destruct (delay >? 0)%Z; reflexivity. Qed.

Lemma filter_partition_length :
  forall (A : Type) (f : A -> bool) (l : list A),
    List.length (filter f l) + List.length (filter (fun x => negb (f x)) l)
    = List.length l.
Proof.
  intros A f l; induction l as [|x xs IH]; simpl; [reflexivity|].
  destruct (f x); simpl; lia.
Qed.

Lemma filter_tagged_length :
  forall (A B T : Type) (p : B -> bool) (tag : A -> T) (g : A -> B) (l : list A),
    List.length (filter (fun tb => p (snd tb)) (map (fun a => (tag a, g a)) l))
    = List.length (filter p (map g l)).
Proof.
  intros A B T p tag g l; induction l as [|a l IH]; simpl; [reflexivity|].
  destruct (p (g a)); simpl; rewrite IH; reflexivity.
Qed.

Section PlaybookDelivery.

Variable net : network.
Variable webhook_url : string.
Variable delay : Z.

(** One turn of the loop of [send_events_to_webhook]. *)
Lemma send_event_step :
  forall (st : Playbook.send_state) (i : nat) (event : json),
    let st' := Playbook.send_event net webhook_url delay st (i, event) in
    let r := net i webhook_url event in
    posts (Playbook.trace st')
    = posts (Playbook.trace st) ++ [Post webhook_url event] /\
    Playbook.successful st'
    = Playbook.successful st + (if delivered r then 1 else 0) /\
    Playbook.failed st'
    = Playbook.failed st + (if delivered r then 0 else 1) /\
    Playbook.errors st' = Playbook.errors st ++ failure_description i r.
Proof.
  intros st i event. unfold Playbook.send_event. simpl.
  assert (Hp : posts (Playbook.trace st ++ Post webhook_url event
                      :: Playbook.pace delay)
               = posts (Playbook.trace st) ++ [Post webhook_url event]).
  { change (Post webhook_url event :: Playbook.pace delay)
      with ([Post webhook_url event] ++ Playbook.pace delay).
    rewrite !posts_app, posts_pace, app_nil_r. reflexivity. }
  destruct (net i webhook_url event) as [status|e]; simpl.
  - unfold status_ok. destruct ((200 <=? status)%Z && (status <? 300)%Z); simpl.
    + rewrite app_nil_r. repeat split; [exact Hp|lia].
    + repeat split; [exact Hp|lia].
  - repeat split; [exact Hp|lia].
Qed.

(** What the loop adds to its state over any run of numbered events. *)
Lemma send_event_loop :
  forall (l : list (nat * json)) (st0 : Playbook.send_state),
    let st := fold_left (Playbook.send_event net webhook_url delay) l st0 in
    let rs := map (fun ie => (fst ie, net (fst ie) webhook_url (snd ie))) l in
    posts (Playbook.trace st)
    = posts (Playbook.trace st0) ++ map (fun ie => Post webhook_url (snd ie)) l /\
    Playbook.successful st
    = Playbook.successful st0
      + List.length (filter (fun ir => delivered (snd ir)) rs) /\
    Playbook.failed st
    = Playbook.failed st0
      + List.length (filter (fun ir => undelivered (snd ir)) rs) /\
    Playbook.errors st
    = Playbook.errors st0
      ++ flat_map (fun ir => failure_description (fst ir) (snd ir)) rs.
Proof.
  induction l as [|[i event] l IH]; intros st0; simpl.
  - rewrite !app_nil_r, !Nat.add_0_r. repeat split.
  - specialize (IH (Playbook.send_event net webhook_url delay st0 (i, event))).
    simpl in IH. destruct IH as [Ht [Hs [Hf He]]].
    destruct (send_event_step st0 i event) as [Ht1 [Hs1 [Hf1 He1]]].
    rewrite Ht, Hs, Hf, He, Ht1, Hs1, Hf1, He1. clear.
    unfold undelivered.
    destruct (delivered (net i webhook_url event)); simpl;
      rewrite <- !app_assoc; simpl; repeat split; lia.
Qed.

Lemma length_failure_descriptions :
  forall (rs : list (nat * reply)),
    List.length (flat_map (fun ir => failure_description (fst ir) (snd ir)) rs)
    = List.length (filter (fun ir => undelivered (snd ir)) rs).
Proof.
  induction rs as [|[i r] rs IH]; simpl; [reflexivity|].
  rewrite length_app, IH. unfold undelivered, failure_description.
  destruct r as [status|e]; simpl; [|reflexivity].
  destruct ((200 <=? status)%Z && (status <? 300)%Z); reflexivity.
Qed.

(** The whole run of [send_events_to_webhook], from the empty state. *)
Lemma send_events_run :
  forall (events : list json),
    let st := Playbook.send_events_to_webhook net webhook_url delay events in
    let rs := replies net webhook_url events in
    posts (Playbook.trace st) = map (Post webhook_url) events /\
    Playbook.successful st = List.length (filter delivered rs) /\
    Playbook.failed st = List.length (filter undelivered rs) /\
    Playbook.errors st
    = flat_map
        (fun ie => failure_description (fst ie) (net (fst ie) webhook_url (snd ie)))
        (enumerate events) /\
    List.length (Playbook.errors st) = Playbook.failed st.
Proof.
  intros events st rs.
  destruct (send_event_loop (enumerate events) (Playbook.mkstate 0 0 [] []))
    as [Ht [Hs [Hf He]]].
  fold (Playbook.send_events_to_webhook net webhook_url delay events) in Ht, Hs, Hf, He.
  fold st in Ht, Hs, Hf, He. simpl in Ht, Hs, Hf, He.
  split.
  { rewrite Ht, <- (map_map snd (Post webhook_url)), map_snd_enumerate.
    reflexivity. }
  split; [rewrite Hs; unfold rs, replies; apply filter_tagged_length|].
  split; [rewrite Hf; unfold rs, replies; apply filter_tagged_length|].
  split.
  { rewrite He, flat_map_concat_map, map_map, <- flat_map_concat_map.
    reflexivity. }
  rewrite He, Hf. apply length_failure_descriptions.
Qed.

(** The report [playbook] returns is the one of [make_report], and the
    effects of the run are those of the delivery loop. *)
Lemma playbook_reports_delivery :
  forall json_loads env now fetch_template url content events,
    fetch_template url = Ok content ->
    Playbook.process_json_template json_loads env now content = Ok events ->
    exists error,
      Playbook.playbook json_loads env now fetch_template net
        url webhook_url delay
      = (Playbook.PbData
           (Playbook.make_report url (List.length events)
              (Playbook.send_events_to_webhook net webhook_url delay events))
           error,
         Playbook.trace
           (Playbook.send_events_to_webhook net webhook_url delay events)).
Proof.
  intros json_loads env now fetch_template url content events Hf Hp.
  unfold Playbook.playbook. rewrite Hf. simpl. rewrite Hp.
  eexists; reflexivity.
Qed.

(** C5: [send_events_to_webhook] posts every event once, in order, and
    returns whatever the network answers, failures being counted and
    described.  Its counters add up to the number of events; the report
    of the playbook says ["success"] when nothing failed and ["partial"]
    otherwise, carries the first ten descriptions, and gives under
    [errors_truncated] the number of descriptions beyond ten (the key is
    absent when there is none).  That report and the posts of the loop
    are what [playbook] returns once the template is processed. *)
Theorem delivery_accounting :
  forall (template_url : string) (events : list json),
    let st := Playbook.send_events_to_webhook net webhook_url delay events in
    let report := Playbook.make_report template_url (List.length events) st in
    let rs := replies net webhook_url events in
    posts (Playbook.trace st) = map (Post webhook_url) events /\
    Playbook.successful st = List.length (filter delivered rs) /\
    Playbook.failed st = List.length (filter undelivered rs) /\
    Playbook.successful st + Playbook.failed st = List.length events /\
    Playbook.errors st
    = flat_map
        (fun ie => failure_description (fst ie) (net (fst ie) webhook_url (snd ie)))
        (enumerate events) /\
    List.length (Playbook.errors st) = Playbook.failed st /\
    (Playbook.status report = "success" <-> Playbook.failed st = 0) /\
    (Playbook.status report = "partial" <-> Playbook.failed st <> 0) /\
    Playbook.events_total report = List.length events /\
    Playbook.events_sent report = Playbook.successful st /\
    Playbook.events_failed report = Playbook.failed st /\
    Playbook.report_errors report
    = (if Playbook.failed st =? 0 then None
       else Some (firstn 10 (Playbook.errors st))) /\
    Playbook.errors_truncated report
    = (if 10 <? Playbook.failed st then Some (Playbook.failed st - 10)
       else None) /\
    (forall json_loads env now fetch_template content,
       fetch_template template_url = Ok content ->
       Playbook.process_json_template json_loads env now content = Ok events ->
       exists error,
         Playbook.playbook json_loads env now fetch_template net
           template_url webhook_url delay
         = (Playbook.PbData report error, Playbook.trace st)).
Proof.
  intros template_url events st report rs.
  destruct (send_events_run events) as [Hposts [Hsucc [Hfail [Herr Hlen]]]].
  fold st in Hposts, Hsucc, Hfail, Herr, Hlen. fold rs in Hsucc, Hfail.
  assert (Hsum : Playbook.successful st + Playbook.failed st
                 = List.length events).
  { rewrite Hsucc, Hfail. unfold undelivered.
    rewrite filter_partition_length. unfold rs, replies.
    rewrite length_map. apply length_enumerate. }
  repeat split; try assumption; try reflexivity.
  - unfold report, Playbook.make_report; simpl.
    destruct (Playbook.failed st =? 0) eqn:E; [intros _|discriminate].
    apply Nat.eqb_eq; exact E.
  - intros H0. unfold report, Playbook.make_report; simpl.
    rewrite H0. reflexivity.
  - unfold report, Playbook.make_report; simpl.
    destruct (Playbook.failed st =? 0) eqn:E; [discriminate|intros _].
    apply Nat.eqb_neq; exact E.
  - intros Hne. unfold report, Playbook.make_report; simpl.
    apply Nat.eqb_neq in Hne. rewrite Hne. reflexivity.
  - unfold report, Playbook.make_report; simpl. rewrite <- Hlen.
    destruct (Playbook.errors st); reflexivity.
  - unfold report, Playbook.make_report; simpl. rewrite Hlen. reflexivity.
  - intros json_loads env now fetch_template content Hfetch Hproc.
    exact (playbook_reports_delivery json_loads env now fetch_template
             template_url Hfetch Hproc).
Qed.

End PlaybookDelivery.

Section ProcessorDelivery.

Variable net : network.
Variable webhook_url : string.
Variable delay : Z.

Lemma send_json_event_step :
  forall (st : Processor.tally) (i : nat) (event : json),
    let st' := Processor.send_json_event net webhook_url delay st (i, event) in
    let r := net i webhook_url event in
    posts (Processor.trace st')
    = posts (Processor.trace st) ++ [Post webhook_url event] /\
    Processor.successful st'
    = Processor.successful st + (if delivered r then 1 else 0) /\
    Processor.failed st'
    = Processor.failed st + (if delivered r then 0 else 1).
Proof.
  intros st i event. unfold Processor.send_json_event. simpl.
  assert (Hp : posts (Processor.trace st ++ Post webhook_url event
                      :: (if (delay >? 0)%Z then [Sleep delay] else []))
               = posts (Processor.trace st) ++ [Post webhook_url event]).
  { rewrite posts_app. f_equal. destruct (delay >? 0)%Z; reflexivity. }
  destruct (net i webhook_url event) as [status|e]; simpl.
  - unfold status_ok. destruct ((200 <=? status)%Z && (status <? 300)%Z); simpl;
      repeat split; first [exact Hp|lia].
  - repeat split; [exact Hp|lia].
Qed.

Lemma send_json_event_loop :
  forall (l : list (nat * json)) (st0 : Processor.tally),
    let st := fold_left (Processor.send_json_event net webhook_url delay) l st0 in
    let rs := map (fun ie => net (fst ie) webhook_url (snd ie)) l in
    posts (Processor.trace st)
    = posts (Processor.trace st0) ++ map (fun ie => Post webhook_url (snd ie)) l /\
    Processor.successful st
    = Processor.successful st0 + List.length (filter delivered rs) /\
    Processor.failed st
    = Processor.failed st0 + List.length (filter undelivered rs).
Proof.
  induction l as [|[i event] l IH]; intros st0; simpl.
  - rewrite !app_nil_r, !Nat.add_0_r. repeat split.
  - specialize (IH (Processor.send_json_event net webhook_url delay st0 (i, event))).
    simpl in IH. destruct IH as [Ht [Hs Hf]].
    destruct (send_json_event_step st0 i event) as [Ht1 [Hs1 Hf1]].
    rewrite Ht, Hs, Hf, Ht1, Hs1, Hf1. clear.
    unfold undelivered.
    destruct (delivered (net i webhook_url event)); simpl;
      rewrite <- !app_assoc; simpl; repeat split; lia.
Qed.

(** C6: in both event loops a call counts as a success exactly when it
    gets a response whose status is in [200, 300); any other status and
    any exception of the transport count as a failure.  So 199 fails,
    200 and 299 succeed, 300 fails. *)
Theorem status_classification :
  (forall status, status_ok status = true <-> (200 <= status < 300)%Z) /\
  (forall events,
     let st := Playbook.send_events_to_webhook net webhook_url delay events in
     let rs := replies net webhook_url events in
     Playbook.successful st = List.length (filter delivered rs) /\
     Playbook.failed st = List.length (filter undelivered rs)) /\
  (forall events,
     let st := Processor.send_json_events_to_webhook net webhook_url events delay in
     let rs := replies net webhook_url events in
     posts (Processor.trace st) = map (Post webhook_url) events /\
     Processor.successful st = List.length (filter delivered rs) /\
     Processor.failed st = List.length (filter undelivered rs)) /\
  (forall event,
     let st := Playbook.send_events_to_webhook net webhook_url delay [event] in
     let st' := Processor.send_json_events_to_webhook net webhook_url [event] delay in
     match net 0 webhook_url event with
     | Response status =>
         if ((200 <=? status) && (status <? 300))%Z
         then Playbook.successful st = 1 /\ Playbook.failed st = 0 /\
              Processor.successful st' = 1 /\ Processor.failed st' = 0
         else Playbook.successful st = 0 /\ Playbook.failed st = 1 /\
              Processor.successful st' = 0 /\ Processor.failed st' = 1
     | Failure _ =>
         Playbook.successful st = 0 /\ Playbook.failed st = 1 /\
         Processor.successful st' = 0 /\ Processor.failed st' = 1
     end) /\
  (forall event,
     Playbook.failed
       (Playbook.send_events_to_webhook (always 199) webhook_url delay [event]) = 1 /\
     Playbook.successful
       (Playbook.send_events_to_webhook (always 200) webhook_url delay [event]) = 1 /\
     Playbook.successful
       (Playbook.send_events_to_webhook (always 299) webhook_url delay [event]) = 1 /\
     Playbook.failed
       (Playbook.send_events_to_webhook (always 300) webhook_url delay [event]) = 1 /\
     Processor.failed
       (Processor.send_json_events_to_webhook (always 199) webhook_url [event] delay) = 1 /\
     Processor.successful
       (Processor.send_json_events_to_webhook (always 200) webhook_url [event] delay) = 1 /\
     Processor.successful
       (Processor.send_json_events_to_webhook (always 299) webhook_url [event] delay) = 1 /\
     Processor.failed
       (Processor.send_json_events_to_webhook (always 300) webhook_url [event] delay) = 1).
Proof.
  split; [exact status_ok_iff|].
  split.
  { intros events st rs.
    destruct (send_events_run net webhook_url delay events)
      as [_ [Hs [Hf _]]].
    split; [exact Hs|exact Hf]. }
  split.
  { intros events st rs.
    destruct (send_json_event_loop (enumerate events) (Processor.mktally 0 0 []))
      as [Ht [Hs Hf]].
    simpl in Ht, Hs, Hf. repeat split.
    - unfold st, Processor.send_json_events_to_webhook. rewrite Ht.
      rewrite <- (map_map snd (Post webhook_url)), map_snd_enumerate.
      reflexivity.
    - exact Hs.
    - exact Hf. }
  split.
  { intros event st st'.
    unfold st, st', Playbook.send_events_to_webhook,
      Processor.send_json_events_to_webhook, Playbook.send_event,
      Processor.send_json_event, status_ok; simpl.
    destruct (net 0 webhook_url event) as [status|e]; simpl.
    - destruct ((200 <=? status)%Z && (status <? 300)%Z); simpl;
        repeat split.
    - repeat split. }
  intros event. repeat split.
Qed.

End ProcessorDelivery.

(** ** Delivery of lines in batches *)

Lemma ceil_div_bounds :
  forall n bs, 0 < bs ->
    n <= (n + bs - 1) / bs * bs /\
    (forall k, k < (n + bs - 1) / bs -> k * bs < n).
Proof.
  intros n bs Hbs.
  assert (Hbs0 : bs <> 0) by lia.
  pose proof (Nat.div_mod (n + bs - 1) bs Hbs0) as Hdm.
  pose proof (Nat.mod_upper_bound (n + bs - 1) bs Hbs0) as Hmod.
  set (m := (n + bs - 1) / bs) in *.
  set (r := (n + bs - 1) mod bs) in *.
  split; [nia|]. intros k Hk. nia.
Qed.

Lemma firstn_then_firstn_skipn :
  forall (A : Type) (a b : nat) (l : list A),
    firstn a l ++ firstn b (skipn a l) = firstn (a + b) l.
Proof.
  intros A a b; induction a as [|a IH]; intros l; simpl; [reflexivity|].
  destruct l as [|x l]; simpl.
  - rewrite firstn_nil; reflexivity.
  - f_equal; apply IH.
Qed.

Lemma concat_chunks :
  forall (A : Type) (bs : nat) (l : list A) (m : nat),
    concat (map (fun k => firstn bs (skipn (k * bs) l)) (seq 0 m))
    = firstn (m * bs) l.
Proof.
  intros A bs l m; induction m as [|m IH]; [reflexivity|].
  rewrite seq_S, map_app, concat_app, IH. simpl.
  rewrite app_nil_r, firstn_then_firstn_skipn. f_equal; lia.
Qed.

Lemma enumerate_map_seq :
  forall (B : Type) (g : nat -> B) (m : nat),
    enumerate (map g (seq 0 m)) = map (fun k => (k, g k)) (seq 0 m).
Proof.
  intros B g m. unfold enumerate. rewrite length_map, length_seq.
  generalize 0. induction m as [|m IH]; intros s; simpl; [reflexivity|].
  f_equal; apply IH.
Qed.

Lemma list_sum_map_add :
  forall (A : Type) (f g : A -> nat) (l : list A),
    list_sum (map f l) + list_sum (map g l)
    = list_sum (map (fun x => f x + g x) l).
Proof.
  intros A f g l; induction l as [|x l IH]; simpl; [reflexivity|].
  rewrite <- IH; lia.
Qed.

Lemma batches_by_number :
  forall (log_lines : list string) (batch_size : nat),
    batches log_lines batch_size
    = map (fun k => firstn batch_size (skipn (k * batch_size) log_lines))
          (seq 0 ((List.length log_lines + batch_size - 1) / batch_size)).
Proof.
  intros log_lines batch_size. unfold batches, Processor.range_step.
  rewrite map_map. reflexivity.
Qed.

Section BatchDelivery.

Variable net : network.
Variable webhook_url : string.
Variable log_lines : list string.
Variable batch_size : nat.
Variable delay : Z.
Hypothesis batch_size_pos : 0 < batch_size.

Lemma send_batch_step :
  forall (st : Processor.tally) (k : nat),
    let batch := firstn batch_size (skipn (k * batch_size) log_lines) in
    let r := net k webhook_url (Processor.batch_payload batch) in
    let st' := Processor.send_batch net webhook_url log_lines batch_size delay
                 st (k * batch_size) in
    posts (Processor.trace st')
    = posts (Processor.trace st)
      ++ [Post webhook_url (Processor.batch_payload batch)] /\
    Processor.successful st' = Processor.successful st + batch_successes r batch /\
    Processor.failed st' = Processor.failed st + batch_failures r batch.
Proof.
  intros st k. unfold Processor.send_batch, batch_successes, batch_failures.
  simpl. rewrite Nat.div_mul by lia.
  set (batch := firstn batch_size (skipn (k * batch_size) log_lines)).
  set (zzz := if (k * batch_size + batch_size <? List.length log_lines)
                 && (delay >? 0)%Z then [Sleep delay] else []).
  assert (Hp : posts (Processor.trace st
                      ++ Post webhook_url (Processor.batch_payload batch) :: zzz)
               = posts (Processor.trace st)
                 ++ [Post webhook_url (Processor.batch_payload batch)]).
  { rewrite posts_app. f_equal. unfold zzz.
    destruct ((k * batch_size + batch_size <? List.length log_lines)
              && (delay >? 0)%Z); reflexivity. }
  destruct (net k webhook_url (Processor.batch_payload batch)) as [status|e];
    simpl.
  - unfold status_ok. destruct ((200 <=? status)%Z && (status <? 300)%Z); simpl;
      repeat split; first [exact Hp|lia].
  - repeat split; [exact Hp|lia].
Qed.

Lemma send_batch_loop :
  forall (ks : list nat) (st0 : Processor.tally),
    let batch := fun k => firstn batch_size (skipn (k * batch_size) log_lines) in
    let reply_to := fun k => net k webhook_url (Processor.batch_payload (batch k)) in
    let st := fold_left
                (Processor.send_batch net webhook_url log_lines batch_size delay)
                (map (fun k => k * batch_size) ks) st0 in
    posts (Processor.trace st)
    = posts (Processor.trace st0)
      ++ map (fun k => Post webhook_url (Processor.batch_payload (batch k))) ks /\
    Processor.successful st
    = Processor.successful st0
      + list_sum (map (fun k => batch_successes (reply_to k) (batch k)) ks) /\
    Processor.failed st
    = Processor.failed st0
      + list_sum (map (fun k => batch_failures (reply_to k) (batch k)) ks).
Proof.
  induction ks as [|k ks IH]; intros st0; simpl.
  - rewrite app_nil_r, !Nat.add_0_r. repeat split.
  - specialize (IH (Processor.send_batch net webhook_url log_lines batch_size
                      delay st0 (k * batch_size))).
    simpl in IH. destruct IH as [Ht [Hs Hf]].
    destruct (send_batch_step st0 k) as [Ht1 [Hs1 Hf1]].
    rewrite Ht, Hs, Hf, Ht1, Hs1, Hf1.
    rewrite <- !app_assoc. simpl. repeat split; lia.
Qed.

(** The run of [send_to_webhook] for a positive batch size. *)
Lemma send_to_webhook_run :
  exists st,
    Processor.send_to_webhook net webhook_url log_lines batch_size delay = Ok st /\
    let bs := batches log_lines batch_size in
    let reply_to := fun kb : nat * list string =>
      net (fst kb) webhook_url (Processor.batch_payload (snd kb)) in
    concat bs = log_lines /\
    Forall (fun b => 1 <= List.length b <= batch_size) bs /\
    (forall k b, S k < List.length bs -> nth_error bs k = Some b ->
       List.length b = batch_size) /\
    posts (Processor.trace st)
    = map (fun b => Post webhook_url (Processor.batch_payload b)) bs /\
    Processor.successful st
    = list_sum (map (fun kb => batch_successes (reply_to kb) (snd kb))
                    (enumerate bs)) /\
    Processor.failed st
    = list_sum (map (fun kb => batch_failures (reply_to kb) (snd kb))
                    (enumerate bs)) /\
    Processor.successful st + Processor.failed st = List.length log_lines.
Proof.
  set (n := List.length log_lines).
  set (m := (n + batch_size - 1) / batch_size).
  set (batch := fun k => firstn batch_size (skipn (k * batch_size) log_lines)).
  destruct (ceil_div_bounds n batch_size_pos) as [Hcover Hstart].
  fold m in Hcover, Hstart.
  assert (Hlen : forall k, List.length (batch k)
                           = Nat.min batch_size (n - k * batch_size)).
  { intros k. unfold batch. rewrite length_firstn, length_skipn. reflexivity. }
  assert (Hbs : batches log_lines batch_size = map batch (seq 0 m)).
  { apply batches_by_number. }
  assert (Hconcat : concat (map batch (seq 0 m)) = log_lines).
  { unfold batch. rewrite concat_chunks. apply firstn_all2. exact Hcover. }
  eexists. split.
  { unfold Processor.send_to_webhook.
    destruct (Nat.eqb_spec batch_size 0) as [E|_]; [lia|reflexivity]. }
  unfold Processor.range_step. fold n. fold m.
  destruct (send_batch_loop (seq 0 m) (Processor.mktally 0 0 []))
    as [Ht [Hs Hf]].
  fold batch in Ht, Hs, Hf. simpl in Ht, Hs, Hf.
  cbv zeta. rewrite Hbs.
  split; [exact Hconcat|].
  split.
  { apply Forall_forall. intros b Hb. apply in_map_iff in Hb.
    destruct Hb as [k [<- Hk]]. apply in_seq in Hk.
    rewrite Hlen. specialize (Hstart k ltac:(lia)). lia. }
  split.
  { intros k b Hk Hb. rewrite length_map, length_seq in Hk.
    rewrite nth_error_map_seq in Hb.
    destruct (Nat.ltb_spec k m) as [_|]; [|lia].
    inversion Hb; subst b. rewrite Hlen.
    specialize (Hstart (S k) Hk). simpl in Hstart. lia. }
  split.
  { rewrite Ht, map_map. reflexivity. }
  split.
  { rewrite Hs, enumerate_map_seq, map_map. reflexivity. }
  split.
  { rewrite Hf, enumerate_map_seq, map_map. reflexivity. }
  rewrite Hs, Hf, list_sum_map_add.
  transitivity (List.length (concat (map batch (seq 0 m))));
    [|rewrite Hconcat; reflexivity].
  rewrite length_concat, map_map.
  f_equal. apply map_ext. intros k. fold (batch k).
  unfold batch_successes, batch_failures.
  destruct (delivered _); lia.
Qed.

End BatchDelivery.


(** Twelve lines of which the second call fails: ten succeed, two fail. *)
Example twelve_lines_second_call_fails :
  let lines := map str_of_nat (seq 1 12) in
  let net : network := fun k _ _ => Response (if k =? 0 then 200 else 503) in
  exists st,
    Processor.send_to_webhook net "https://hook.example/in" lines 10 100 = Ok st /\
    Processor.successful st = 10 /\
    Processor.failed st = 2 /\
    List.length (posts (Processor.trace st)) = 2.
Proof. eexists; repeat split. Qed.

(** * Further properties *)

(** ** Calendar dates *)

Local Open Scope Z_scope.

Lemma all_from_spec :
  forall (p : Z -> bool) (fuel : nat) (n : Z),
    all_from fuel n p = true ->
    forall k, n <= k < n + Z.of_nat fuel -> p k = true.
Proof.
  intros p fuel; induction fuel as [|f IH]; intros n H k Hk.
  - simpl in Hk. lia.
  - simpl in H. destruct (p n) eqn:E; [|discriminate].
    destruct (Z.eq_dec k n) as [->|Hne]; [exact E|].
    apply (IH (n + 1) H). lia.
Qed.

Lemma fromordinal_era :
  forall n,
    fromordinal n
    = date_in_era ((n + 305) / 146097) ((n + 305) - (n + 305) / 146097 * 146097).
Proof. reflexivity. Qed.

Lemma date_in_era_shift :
  forall era doe k,
    date_in_era (era + k) doe = add_years (400 * k) (date_in_era era doe).
Proof.
  intros era doe k. unfold date_in_era, add_years. cbv zeta. cbn [year month day].
  destruct (_ <=? 2); f_equal; ring.
Qed.

Lemma fromordinal_shift :
  forall n k, fromordinal (n + 146097 * k) = add_years (400 * k) (fromordinal n).
Proof.
  intros n k. rewrite !fromordinal_era.
  replace (n + 146097 * k + 305) with (n + 305 + k * 146097) by ring.
  rewrite Z.div_add by lia.
  replace (n + 305 + k * 146097 - ((n + 305) / 146097 + k) * 146097)
    with (n + 305 - (n + 305) / 146097 * 146097) by ring.
  apply date_in_era_shift.
Qed.

Lemma toordinal_era :
  forall d,
    toordinal d
    = let y := if month d <=? 2 then year d - 1 else year d in
      (y / 400) * 146097 + day_in_era (y - y / 400 * 400) (month d) (day d) - 305.
Proof. reflexivity. Qed.

Lemma toordinal_shift :
  forall d k, toordinal (add_years (400 * k) d) = toordinal d + 146097 * k.
Proof.
  intros d k. rewrite !toordinal_era. unfold add_years. cbn [year month day].
  cbv zeta.
  set (y := if month d <=? 2 then year d - 1 else year d).
  replace (if month d <=? 2 then year d + 400 * k - 1 else year d + 400 * k)
    with (y + k * 400) by (unfold y; destruct (month d <=? 2); ring).
  rewrite Z.div_add by lia.
  replace (y + k * 400 - (y / 400 + k) * 400) with (y - y / 400 * 400) by ring.
  ring.
Qed.

Lemma all_years : all_from 400 0 year_ok = true.
Proof. vm_compute. reflexivity. Qed.

Lemma all_days_of_year : all_from 366 0 doy_ok = true.
Proof. vm_compute. reflexivity. Qed.

Lemma all_slots : all_from 372 0 slot_ok = true.
Proof. vm_compute. reflexivity. Qed.

Lemma year_ok_spec :
  forall Y, 0 <= Y <= 399 ->
    year_of_day (days_before_year Y) = Y /\
    year_of_day (year_end Y - 1) = Y /\
    year_end Y - days_before_year Y = (if is_leap (Y + 1) then 366 else 365) /\
    0 <= days_before_year Y /\ year_end Y <= 146097 /\
    (Y <= 398 -> year_end Y <= 145731) /\
    (1 <= Y -> 365 <= days_before_year Y).
Proof.
  intros Y HY.
  assert (Hok : year_ok Y = true)
    by (apply (@all_from_spec _ _ _ all_years); lia).
  unfold year_ok in Hok. cbv zeta in Hok.
  rewrite !andb_true_iff, !orb_true_iff, !Z.eqb_eq, !Z.leb_le in Hok.
  destruct Hok as [[[[[[H1 H2] H3] H4] H5] H6] H7].
  split; [exact H1|]. split; [exact H2|]. split; [exact H3|].
  split; [exact H4|]. split; [exact H5|]. split; intros H; [destruct H6|destruct H7]; lia.
Qed.

Lemma year_of_day_mono :
  forall a b, 0 <= a <= b -> b <= 146096 -> year_of_day a <= year_of_day b.
Proof.
  intros a b Hab Hb. unfold year_of_day. apply Z.div_le_mono; [lia|].
  pose proof (Z.div_mod a 1460 ltac:(lia)).
  pose proof (Z.mod_pos_bound a 1460 ltac:(lia)).
  pose proof (Z.div_mod b 1460 ltac:(lia)).
  pose proof (Z.mod_pos_bound b 1460 ltac:(lia)).
  pose proof (Z.div_mod a 36524 ltac:(lia)).
  pose proof (Z.mod_pos_bound a 36524 ltac:(lia)).
  pose proof (Z.div_mod b 36524 ltac:(lia)).
  pose proof (Z.mod_pos_bound b 36524 ltac:(lia)).
  pose proof (Z.div_mod a 146096 ltac:(lia)).
  pose proof (Z.mod_pos_bound a 146096 ltac:(lia)).
  pose proof (Z.div_mod b 146096 ltac:(lia)).
  pose proof (Z.mod_pos_bound b 146096 ltac:(lia)).
  lia.
Qed.

Lemma year_of_day_in_year :
  forall Y doe,
    0 <= Y <= 399 -> days_before_year Y <= doe < year_end Y ->
    year_of_day doe = Y.
Proof.
  intros Y doe HY Hin.
  destruct (year_ok_spec HY) as [H1 [H2 [_ [H4 [H5 _]]]]].
  pose proof (@year_of_day_mono (days_before_year Y) doe ltac:(lia) ltac:(lia)).
  pose proof (@year_of_day_mono doe (year_end Y - 1) ltac:(lia) ltac:(lia)).
  lia.
Qed.

Lemma find_year_upto :
  forall (k : nat) (doe : Z),
    (k <= 399)%nat -> 0 <= doe < year_end (Z.of_nat k) ->
    exists Y, 0 <= Y <= Z.of_nat k /\ days_before_year Y <= doe < year_end Y.
Proof.
  induction k as [|k IH]; intros doe Hk Hdoe.
  - exists 0. split; [lia|]. split; [|exact (proj2 Hdoe)].
    change (days_before_year 0) with 0. lia.
  - destruct (Z_lt_le_dec doe (year_end (Z.of_nat k))) as [Hlt|Hge].
    + destruct (IH doe ltac:(lia) ltac:(lia)) as [Y [HY Hin]].
      exists Y. split; [lia|exact Hin].
    + exists (Z.of_nat (S k)). split; [lia|]. split; [|exact (proj2 Hdoe)].
      unfold year_end in Hge.
      destruct (Z.eqb_spec (Z.of_nat k) 399) as [E|_]; [lia|].
      rewrite Nat2Z.inj_succ. unfold Z.succ. exact Hge.
Qed.

Lemma find_year :
  forall doe, 0 <= doe < 146097 ->
    exists Y, 0 <= Y <= 399 /\ days_before_year Y <= doe < year_end Y.
Proof.
  intros doe Hdoe.
  destruct (@find_year_upto 399 doe ltac:(lia) Hdoe) as [Y [HY Hin]].
  exists Y. split; [lia|exact Hin].
Qed.

Lemma doy_ok_spec :
  forall doy, 0 <= doy <= 365 ->
    let mp := month_of_day doy in
    let d := doy - (153 * mp + 2) / 5 + 1 in
    let m := if mp <? 10 then mp + 3 else mp - 9 in
    0 <= mp <= 11 /\ 1 <= d /\
    (doy = 365 -> m = 2 /\ d = 29) /\
    (doy <> 365 -> d <= days_in_month 1 m) /\
    (306 <= doy <-> m <= 2).
Proof.
  intros doy Hdoy mp d m.
  assert (Hok : doy_ok doy = true)
    by (apply (@all_from_spec _ _ _ all_days_of_year); lia).
  unfold doy_ok in Hok. cbv zeta in Hok. fold mp in Hok. fold d in Hok.
  fold m in Hok.
  rewrite !andb_true_iff, !Z.leb_le in Hok.
  destruct Hok as [[[[H1 H2] H3] H4] H5].
  apply Bool.eqb_prop in H5.
  split; [lia|]. split; [exact H3|].
  split.
  { intros E. rewrite E in H4. simpl in H4.
    apply andb_prop in H4. rewrite !Z.eqb_eq in H4. exact H4. }
  split.
  { intros E. destruct (Z.eqb_spec doy 365) as [E'|_]; [contradiction|].
    apply Z.leb_le in H4. exact H4. }
  split; intros H.
  - apply Z.leb_le. rewrite <- H5. apply Z.leb_le. exact H.
  - apply Z.leb_le. rewrite H5. apply Z.leb_le. exact H.
Qed.

Lemma slot_ok_spec :
  forall m d, 1 <= m <= 12 -> 1 <= d <= days_in_month 4 m ->
    let mp := if m >? 2 then m - 3 else m + 9 in
    let doy := (153 * mp + 2) / 5 + d - 1 in
    0 <= doy <= 365 /\ month_of_day doy = mp /\
    (d <= days_in_month 1 m -> doy <= 364) /\
    (306 <= doy <-> m <= 2).
Proof.
  intros m d Hm Hd mp doy.
  assert (Hd31 : d <= 31).
  { unfold days_in_month in Hd.
    destruct (m =? 2); [destruct (is_leap 4); lia|].
    destruct ((m =? 4) || (m =? 6) || (m =? 9) || (m =? 11)); lia. }
  set (j := (m - 1) * 31 + (d - 1)).
  assert (Hok : slot_ok j = true)
    by (apply (@all_from_spec _ _ _ all_slots); unfold j; lia).
  unfold slot_ok in Hok. cbv zeta in Hok.
  assert (Hjm : j / 31 + 1 = m).
  { assert (j / 31 = m - 1).
    { symmetry. apply Z.div_unique with (r := d - 1); [lia|]. unfold j. ring. }
    lia. }
  assert (Hjd : j mod 31 + 1 = d).
  { assert (j mod 31 = d - 1).
    { symmetry. apply Z.mod_unique with (q := m - 1); [lia|]. unfold j. ring. }
    lia. }
  rewrite Hjm, Hjd in Hok. fold mp in Hok. fold doy in Hok.
  rewrite orb_true_iff, !andb_true_iff, orb_true_iff in Hok.
  destruct Hok as [Hbad|[[[[H1 H2] H3] H4] H5]].
  { apply Z.ltb_lt in Hbad. lia. }
  apply Z.leb_le in H1, H2. apply Z.eqb_eq in H3. apply Bool.eqb_prop in H5.
  split; [lia|]. split; [exact H3|]. split.
  { intros Hle. destruct H4 as [H4|H4];
      [apply Z.ltb_lt in H4; lia|apply Z.leb_le in H4; exact H4]. }
  split; intros H.
  - apply Z.leb_le. rewrite <- H5. apply Z.leb_le. exact H.
  - apply Z.leb_le. rewrite H5. apply Z.leb_le. exact H.
Qed.

Lemma days_in_month_bounds :
  forall y m,
    days_in_month 1 m <= days_in_month y m <= days_in_month 4 m /\
    (days_in_month 1 m < days_in_month y m -> m = 2 /\ is_leap y = true) /\
    (is_leap y = true -> days_in_month y 2 = 29).
Proof.
  intros y m. unfold days_in_month.
  change (is_leap 1) with false. change (is_leap 4) with true.
  destruct (Z.eqb_spec m 2) as [E|E].
  - destruct (is_leap y); (split; [lia|]); (split; [intros; split; [lia|]; try reflexivity; lia|]);
      intros; try reflexivity; discriminate.
  - destruct ((m =? 4) || (m =? 6) || (m =? 9) || (m =? 11));
      (split; [lia|]); (split; [lia|]); simpl; intros ->; reflexivity.
Qed.

Lemma is_leap_shift : forall y k, is_leap (y + 400 * k) = is_leap y.
Proof.
  intros y k. unfold is_leap.
  replace (y + 400 * k) with (y + (100 * k) * 4) at 1 by ring.
  replace (y + 400 * k) with (y + (4 * k) * 100) at 1 by ring.
  replace (y + 400 * k) with (y + k * 400) by ring.
  rewrite !Z.mod_add by lia. reflexivity.
Qed.

Lemma days_in_month_shift :
  forall y m k, days_in_month (y + 400 * k) m = days_in_month y m.
Proof. intros y m k. unfold days_in_month. rewrite is_leap_shift. reflexivity. Qed.

(** A day of the era that starts on March 1st of year 0: its date is a
    calendar date that converts back. *)
Lemma ordinal_in_era :
  forall n, -305 <= n < 145792 ->
    toordinal (fromordinal n) = n /\
    1 <= month (fromordinal n) <= 12 /\
    1 <= day (fromordinal n)
      <= days_in_month (year (fromordinal n)) (month (fromordinal n)) /\
    0 <= year (fromordinal n) <= 400 /\
    (1 <= n -> 1 <= year (fromordinal n)) /\
    (n <= 145731 -> year (fromordinal n) <= 399).
Proof.
  intros n Hn.
  assert (Hdoe : 0 <= n + 305 < 146097) by lia.
  destruct (find_year Hdoe) as [Y [HY Hin]].
  pose proof (year_of_day_in_year HY Hin) as Hyod.
  destruct (year_ok_spec HY) as [_ [_ [Hlen [Hlo [Hhi [Hhi' Hlo']]]]]].
  rewrite fromordinal_era.
  rewrite (Z.div_small (n + 305) 146097 Hdoe).
  replace (n + 305 - 0 * 146097) with (n + 305) by ring.
  rewrite toordinal_era.
  unfold date_in_era. cbv zeta. cbn [year month day]. rewrite Hyod.
  set (doy := n + 305 - days_before_year Y).
  assert (Hdoy : 0 <= doy <= 365 /\ (doy = 365 -> is_leap (Y + 1) = true)).
  { unfold doy. destruct (is_leap (Y + 1)); split; try lia; reflexivity. }
  destruct Hdoy as [Hdoy Hleap].
  destruct (doy_ok_spec Hdoy) as [Hmp [Hd1 [H365 [Hn365 HJan]]]].
  cbv zeta in Hmp, Hd1, H365, Hn365, HJan.
  set (mp := month_of_day doy) in *.
  set (first := (153 * mp + 2) / 5) in *.
  replace (Y + 0 * 400) with Y by ring.
  assert (HY400 : forall y, 0 <= y <= 399 -> y / 400 = 0)
    by (intros y Hy; apply Z.div_small; lia).
  pose proof (days_in_month_bounds (Y + 1) 2) as [_ [_ Hfeb]].
  destruct (Z.ltb_spec mp 10) as [Hlt|Hge].
  - (* March to December *)
    destruct (Z.leb_spec (mp + 3) 2) as [Hc|_]; [lia|].
    rewrite (HY400 Y HY). replace (Y - 0 * 400) with Y by ring.
    unfold day_in_era. cbv zeta.
    destruct (Z.gtb_spec (mp + 3) 2) as [_|Hc]; [|lia].
    replace (mp + 3 - 3) with mp by ring. fold first.
    split.
    { unfold doy, days_before_year. lia. }
    split; [lia|]. split.
    { split; [exact Hd1|].
      assert (doy <> 365) by (intros E; apply H365 in E; lia).
      pose proof (days_in_month_bounds Y (mp + 3)) as [Hb _].
      specialize (Hn365 H). lia. }
    split; [lia|]. split; [intros Hn1|intros Hn2].
    + destruct (Z.eq_dec Y 0) as [E|E]; [|lia].
      exfalso.
      assert (E0 : days_before_year Y = 0) by (rewrite E; reflexivity).
      assert (306 <= doy) by (unfold doy; lia). apply HJan in H. lia.
    + lia.
  - (* January and February *)
    destruct (Z.leb_spec (mp - 9) 2) as [_|Hc]; [|lia].
    replace (Y + 1 - 1) with Y by ring.
    rewrite (HY400 Y HY). replace (Y - 0 * 400) with Y by ring.
    unfold day_in_era. cbv zeta.
    destruct (Z.gtb_spec (mp - 9) 2) as [Hc|_]; [lia|].
    replace (mp - 9 + 9) with mp by ring. fold first.
    split.
    { unfold doy, days_before_year. lia. }
    split; [lia|]. split.
    { split; [exact Hd1|].
      destruct (Z.eq_dec doy 365) as [E|E].
      - destruct (H365 E) as [Em Ed]. rewrite Em, Ed.
        rewrite (Hfeb (Hleap E)). lia.
      - pose proof (days_in_month_bounds (Y + 1) (mp - 9)) as [Hb _].
        specialize (Hn365 E). lia. }
    split; [lia|]. split; [intros Hn1; lia|intros Hn2].
    destruct (Z.eq_dec Y 399) as [E|E]; [|lia].
    exfalso.
    assert (E0 : days_before_year Y = 145731) by (rewrite E; reflexivity).
    assert (306 <= doy) by (apply HJan; lia). unfold doy in H. lia.
Qed.

(** A calendar date of the era that starts on March 1st of year 0. *)
Lemma date_in_first_era :
  forall y m d,
    0 <= (if m <=? 2 then y - 1 else y) <= 399 ->
    1 <= m <= 12 -> 1 <= d <= days_in_month y m ->
    fromordinal (toordinal (mkdate y m d)) = mkdate y m d /\
    -305 <= toordinal (mkdate y m d) <= 145791 /\
    (1 <= y -> 1 <= toordinal (mkdate y m d)) /\
    ((if m <=? 2 then y - 1 else y) <= 398 \/ 3 <= m ->
     toordinal (mkdate y m d) <= 145731).
Proof.
  intros y m d HY Hm Hd.
  set (Y := if m <=? 2 then y - 1 else y) in *.
  destruct (year_ok_spec HY) as [_ [_ [Hlen [Hlo [Hhi [Hhi' Hlo']]]]]].
  pose proof (days_in_month_bounds y m) as [Hb [Hfeb _]].
  destruct (@slot_ok_spec m d Hm ltac:(lia)) as [Hdoy [Hmp [H364 HJan]]].
  cbv zeta in Hdoy, Hmp, H364, HJan.
  set (mp := if m >? 2 then m - 3 else m + 9) in *.
  set (doy := (153 * mp + 2) / 5 + d - 1) in *.
  assert (Hin : days_before_year Y <= days_before_year Y + doy < year_end Y).
  { split; [lia|].
    destruct (Z_le_gt_dec d (days_in_month 1 m)) as [Hle|Hgt].
    - specialize (H364 Hle). destruct (is_leap (Y + 1)); lia.
    - destruct (Hfeb ltac:(lia)) as [Em Hl].
      assert (EY : Y + 1 = y).
      { unfold Y. rewrite Em. change (2 <=? 2) with true. cbv iota. lia. }
      rewrite EY, Hl in Hlen. lia. }
  assert (Hto : toordinal (mkdate y m d) = days_before_year Y + doy - 305).
  { rewrite toordinal_era. cbn [year month day]. cbv zeta. fold Y.
    rewrite (Z.div_small Y 400) by lia.
    unfold day_in_era. cbv zeta. fold mp. fold doy.
    replace (Y - 0 * 400) with Y by ring.
    unfold days_before_year. ring. }
  rewrite Hto. split.
  { rewrite fromordinal_era.
    replace (days_before_year Y + doy - 305 + 305)
      with (days_before_year Y + doy) by ring.
    rewrite (Z.div_small (days_before_year Y + doy) 146097) by lia.
    replace (days_before_year Y + doy - 0 * 146097)
      with (days_before_year Y + doy) by ring.
    unfold date_in_era. cbv zeta.
    rewrite (year_of_day_in_year HY Hin).
    replace (days_before_year Y + doy - days_before_year Y) with doy by ring.
    rewrite Hmp.
    replace (doy - (153 * mp + 2) / 5 + 1) with d by (unfold doy; ring).
    replace (Y + 0 * 400) with Y by ring.
    unfold mp, Y.
    destruct (Z.gtb_spec m 2) as [H2|H2].
    - destruct (Z.ltb_spec (m - 3) 10) as [_|Hc]; [|lia].
      replace (m - 3 + 3) with m by ring.
      destruct (Z.leb_spec m 2) as [Hc|_]; [lia|]. reflexivity.
    - destruct (Z.ltb_spec (m + 9) 10) as [Hc|_]; [lia|].
      replace (m + 9 - 9) with m by ring.
      destruct (Z.leb_spec m 2) as [_|Hc]; [|lia].
      f_equal. ring. }
  split; [lia|]. split.
  - intros Hy. destruct (Z.eq_dec Y 0) as [E|E]; [|lia].
    assert (m <= 2).
    { unfold Y in E. destruct (Z.leb_spec m 2); lia. }
    apply HJan in H. lia.
  - intros [H|H]; [lia|].
    assert (~ 306 <= doy) by (intros Hc; apply HJan in Hc; lia).
    destruct (Z.eq_dec Y 399) as [E|E]; [|lia].
    rewrite E. change (days_before_year 399) with 145731. lia.
Qed.

Lemma era_of_ordinal :
  forall n, exists e n0,
    n = n0 + 146097 * e /\ -305 <= n0 < 145792 /\ e = (n + 305) / 146097.
Proof.
  intros n. exists ((n + 305) / 146097), (n - 146097 * ((n + 305) / 146097)).
  pose proof (Z.div_mod (n + 305) 146097 ltac:(lia)) as Hdm.
  pose proof (Z.mod_pos_bound (n + 305) 146097 ltac:(lia)) as Hmod.
  split; [lia|]. split; [lia|reflexivity].
Qed.

Theorem toordinal_fromordinal : forall n, toordinal (fromordinal n) = n.
Proof.
  intros n. destruct (era_of_ordinal n) as [e [n0 [Hn [Hn0 _]]]].
  destruct (ordinal_in_era Hn0) as [Hrt _].
  rewrite Hn, fromordinal_shift, toordinal_shift, Hrt. reflexivity.
Qed.

Theorem fromordinal_valid :
  forall n, 1 <= n <= 3652059 -> valid_date (fromordinal n) = true.
Proof.
  intros n Hn. destruct (era_of_ordinal n) as [e [n0 [Hn' [Hn0 He]]]].
  destruct (ordinal_in_era Hn0) as [_ [Hm [Hd [Hy [Hlo Hhi]]]]].
  assert (He0 : 0 <= e <= 24).
  { subst e. split.
    - apply Z.div_pos; lia.
    - assert ((n + 305) / 146097 < 25) by (apply Z.div_lt_upper_bound; lia).
      lia. }
  rewrite Hn', fromordinal_shift. unfold valid_date, add_years.
  cbn [year month day]. rewrite days_in_month_shift.
  rewrite !andb_true_iff, !Z.leb_le.
  split; [split; [split; [split; [split|]|]|]|]; try lia.
Qed.

Lemma valid_date_spec :
  forall d, valid_date d = true ->
    1 <= year d <= 9999 /\ 1 <= month d <= 12 /\
    1 <= day d <= days_in_month (year d) (month d).
Proof.
  intros d H. unfold valid_date in H. rewrite !andb_true_iff in H.
  repeat match goal with H : _ /\ _ |- _ => destruct H end.
  repeat match goal with H : (_ <=? _) = true |- _ => apply Z.leb_le in H end.
  lia.
Qed.

(** A calendar date, moved into the era that starts in March of year 0. *)
Lemma valid_date_in_era :
  forall d, valid_date d = true ->
    exists k d0,
      d = add_years (400 * k) d0 /\ 0 <= k <= 24 /\
      fromordinal (toordinal d0) = d0 /\
      -305 <= toordinal d0 <= 145791 /\
      (k = 0 -> 1 <= toordinal d0) /\
      (k = 24 -> toordinal d0 <= 145731).
Proof.
  intros d H. apply valid_date_spec in H. destruct H as [Hy [Hm Hd]].
  set (Y := if month d <=? 2 then year d - 1 else year d).
  assert (HY : 0 <= Y <= 9999) by (unfold Y; destruct (month d <=? 2); lia).
  pose proof (Z.div_mod Y 400 ltac:(lia)) as Hdm.
  pose proof (Z.mod_pos_bound Y 400 ltac:(lia)) as Hmod.
  assert (Hk : 0 <= Y / 400 <= 24).
  { split; [apply Z.div_pos; lia|].
    assert (Y / 400 < 25) by (apply Z.div_lt_upper_bound; lia). lia. }
  set (k := Y / 400) in *.
  set (y0 := year d - 400 * k).
  assert (EY : (if month d <=? 2 then y0 - 1 else y0) = Y mod 400).
  { unfold y0, Y in *. destruct (month d <=? 2); lia. }
  assert (Hdim : days_in_month y0 (month d) = days_in_month (year d) (month d)).
  { rewrite <- (days_in_month_shift y0 (month d) k). f_equal. unfold y0. ring. }
  destruct (@date_in_first_era y0 (month d) (day d))
    as [Hrt [Hb [H1 H2]]]; try lia.
  exists k, (mkdate y0 (month d) (day d)).
  split.
  { destruct d as [y m dd]. unfold add_years, y0. cbn [year month day].
    f_equal. ring. }
  split; [exact Hk|]. split; [exact Hrt|]. split; [exact Hb|]. split.
  - intros E. apply H1. unfold y0. rewrite E. lia.
  - intros E. apply H2. rewrite EY.
    destruct (Z.leb_spec (month d) 2) as [Hle|Hgt]; [left|right; lia].
    unfold Y in *. destruct (Z.leb_spec (month d) 2); lia.
Qed.

Theorem fromordinal_toordinal :
  forall d, valid_date d = true -> fromordinal (toordinal d) = d.
Proof.
  intros d H. destruct (@valid_date_in_era d H) as [k [d0 [Hd [_ [Hrt _]]]]].
  rewrite Hd, toordinal_shift, fromordinal_shift, Hrt. reflexivity.
Qed.

Theorem toordinal_bounds :
  forall d, valid_date d = true -> 1 <= toordinal d <= 3652059.
Proof.
  intros d H.
  destruct (@valid_date_in_era d H) as [k [d0 [Hd [Hk [_ [Hb [Hlo Hhi]]]]]]].
  rewrite Hd, toordinal_shift.
  destruct (Z.eq_dec k 0) as [E0|E0]; [specialize (Hlo E0); lia|].
  destruct (Z.eq_dec k 24) as [E1|E1]; [specialize (Hhi E1); lia|].
  lia.
Qed.

Lemma years_read_back : all_from (Z.to_nat 9999) 1 (field_ok 4 4 4) = true.
Proof. vm_compute. reflexivity. Qed.

Lemma months_and_days_read_back : all_from 31 1 (field_ok 1 2 2) = true.
Proof. vm_compute. reflexivity. Qed.

Lemma field_ok_spec :
  forall lo hi w z, field_ok lo hi w z = true ->
    field lo hi (zfill w z) = Some z /\ free_of "-"%char (zfill w z) = true.
Proof.
  intros lo hi w z. unfold field_ok.
  destruct (field lo hi (zfill w z)) as [v|]; [|discriminate].
  rewrite andb_true_iff, Z.eqb_eq. intros [-> H]. split; [reflexivity|exact H].
Qed.

Lemma split_free :
  forall (sep : ascii) (a : string),
    free_of sep a = true -> split sep a = [a].
Proof.
  intros sep a; induction a as [|c a IH]; simpl; intros H; [reflexivity|].
  apply andb_prop in H. destruct H as [Hc Ha].
  apply negb_true_iff in Hc. rewrite Hc, (IH Ha). reflexivity.
Qed.

Lemma split_at_sep :
  forall (sep : ascii) (a b : string),
    free_of sep a = true ->
    split sep (a ++ String sep b) = a :: split sep b.
Proof.
  intros sep a b; induction a as [|c a IH]; simpl; intros H.
  - rewrite Ascii.eqb_refl. reflexivity.
  - apply andb_prop in H. destruct H as [Hc Ha].
    apply negb_true_iff in Hc. rewrite Hc, (IH Ha). reflexivity.
Qed.

(** What [strftime("%Y-%m-%d")] writes, [strptime] reads back. *)
Theorem strptime_strftime :
  forall d, valid_date d = true -> strptime_Ymd (strftime_Ymd d) = Ok d.
Proof.
  intros d Hv. pose proof (@valid_date_spec d Hv) as [Hy [Hm Hd]].
  assert (Hd31 : day d <= 31).
  { unfold days_in_month in Hd.
    destruct (month d =? 2); [destruct (is_leap (year d)); lia|].
    destruct ((month d =? 4) || (month d =? 6) || (month d =? 9)
              || (month d =? 11)); lia. }
  destruct (@field_ok_spec 4 4 4 (year d)) as [Fy Dy].
  { apply (@all_from_spec _ _ _ years_read_back). rewrite Z2Nat.id; lia. }
  destruct (@field_ok_spec 1 2 2 (month d)) as [Fm Dm].
  { apply (@all_from_spec _ _ _ months_and_days_read_back). lia. }
  destruct (@field_ok_spec 1 2 2 (day d)) as [Fd Dd].
  { apply (@all_from_spec _ _ _ months_and_days_read_back). lia. }
  unfold strptime_Ymd.
  assert (Hs : split "-"%char (strftime_Ymd d)
               = [zfill 4 (year d); zfill 2 (month d); zfill 2 (day d)]).
  { unfold strftime_Ymd.
    change ("-" ++ zfill 2 (month d) ++ "-" ++ zfill 2 (day d))%string
      with (String "-"%char (zfill 2 (month d) ++ String "-"%char (zfill 2 (day d)))).
    rewrite (@split_at_sep _ _ _ Dy), (@split_at_sep _ _ _ Dm), (@split_free _ _ Dd).
    reflexivity. }
  rewrite Hs, Fy, Fm, Fd.
  destruct d as [y m dd]. cbn [year month day] in *. rewrite Hv. reflexivity.
Qed.

Local Close Scope Z_scope.

(** ** The window of seven days *)

Lemma minus_days_valid :
  forall today i,
    window_day today -> (0 <= i <= 6)%Z ->
    valid_date (minus_days today i) = true /\
    toordinal (minus_days today i) = (toordinal today - i)%Z.
Proof.
  intros today i [Hv H7] Hi. unfold minus_days.
  pose proof (@toordinal_bounds _ Hv) as Hb.
  split; [apply fromordinal_valid; lia|apply toordinal_fromordinal].
Qed.

Lemma window_nth :
  forall today i,
    i < 7 ->
    nth i (get_past_week_dates today) EmptyString
    = strftime_Ymd (minus_days today (Z.of_nat i)).
Proof.
  intros today i Hi. unfold get_past_week_dates.
  do 7 (destruct i as [|i]; [reflexivity|]). lia.
Qed.

Lemma window_length :
  forall today, List.length (get_past_week_dates today) = 7.
Proof. reflexivity. Qed.

Lemma enumerate_combine_map_seq :
  forall (A B : Type) (f : nat -> B) (l : list A),
    enumerate (combine l (map f (seq 0 (List.length l))))
    = map (fun ke => (fst ke, (snd ke, f (fst ke)))) (enumerate l).
Proof.
  intros A B f l. unfold enumerate.
  rewrite length_combine, length_map, length_seq, Nat.min_id.
  generalize 0. induction l as [|x l IH]; intros s; simpl; [reflexivity|].
  f_equal. apply IH.
Qed.

Lemma in_enumerate :
  forall (A : Type) (l : list A) (k : nat) (x : A),
    In (k, x) (enumerate l) -> k < List.length l /\ nth_error l k = Some x.
Proof.
  intros A l k x. unfold enumerate.
  assert (G : forall s, In (k, x) (combine (seq s (List.length l)) l) ->
                        s <= k < s + List.length l /\ nth_error l (k - s) = Some x).
  { induction l as [|y l IH]; intros s; simpl; [contradiction|].
    intros [H|H].
    - inversion H; subst. rewrite Nat.sub_diag. split; [lia|reflexivity].
    - apply IH in H. destruct H as [Hk Hn]. split; [lia|].
      replace (k - s) with (S (k - S s)) by lia. exact Hn. }
  intros H. apply G in H. rewrite Nat.sub_0_r in H. split; [lia|tauto].
Qed.

Lemma nth_error_enumerate :
  forall (A : Type) (l : list A) (k : nat) (x : A),
    nth_error l k = Some x -> nth_error (enumerate l) k = Some (k, x).
Proof.
  intros A l k x. unfold enumerate.
  assert (G : forall s, nth_error l k = Some x ->
                        nth_error (combine (seq s (List.length l)) l) k
                        = Some (s + k, x)).
  { revert k. induction l as [|y l IH]; intros k s H.
    - destruct k; discriminate.
    - destruct k as [|k]; simpl in *.
      + inversion H. f_equal. f_equal. lia.
      + rewrite (IH k (S s) H). f_equal. f_equal. lia. }
  intros H. rewrite (G 0 H). reflexivity.
Qed.

(** The dates the distributor hands out over the window of [today]. *)
Lemma distribute_over_window :
  forall today n,
    Playbook.distribute_dates n (get_past_week_dates today)
    = Ok (map (fun k => strftime_Ymd (item_date today k n)) (seq 0 n)).
Proof.
  intros today n. destruct (Nat.eq_dec n 0) as [->|Hn]; [reflexivity|].
  rewrite (@distribute_dates_eq string (get_past_week_dates today)
             EmptyString n); [|discriminate|exact Hn].
  f_equal. apply map_ext_in. intros k Hk. apply in_seq in Hk.
  rewrite window_length. apply window_nth. apply date_idx_lt; lia.
Qed.

Lemma item_date_valid :
  forall today k n,
    window_day today -> k < n ->
    valid_date (item_date today k n) = true /\
    toordinal (item_date today k n)
    = (toordinal today - Z.of_nat (date_idx k 7 n))%Z.
Proof.
  intros today k n Hw Hk. unfold item_date.
  assert (date_idx k 7 n < 7) by (apply date_idx_lt; lia).
  apply minus_days_valid; [exact Hw|lia].
Qed.

Lemma make_template_vars_eq :
  forall (assigned_date : string) (date_obj now : date),
    make_template_vars assigned_date date_obj now
    = bindings_of assigned_date (strftime_mdY date_obj) (strftime_dmY date_obj)
        (strftime_Ymd_compact date_obj) (format_syslog_date date_obj)
        (days_between now date_obj).
Proof. reflexivity. Qed.

Lemma NoDup_map_inj_in :
  forall (A B : Type) (f : A -> B) (l : list A),
    (forall x y, In x l -> In y l -> f x = f y -> x = y) ->
    NoDup l -> NoDup (map f l).
Proof.
  intros A B f l; induction l as [|x l IH]; intros Hinj Hnd; simpl.
  - constructor.
  - inversion Hnd as [|x' l' Hx Hl]; subst. constructor.
    + intros Hin. apply in_map_iff in Hin. destruct Hin as [y [Hy Hin]].
      apply Hx. rewrite (Hinj x y); [exact Hin|left; reflexivity|right; exact Hin|].
      symmetry. exact Hy.
    + apply IH; [|exact Hl]. intros a b Ha Hb. apply Hinj; right; assumption.
Qed.

Lemma strftime_injective :
  forall a b,
    valid_date a = true -> valid_date b = true ->
    strftime_Ymd a = strftime_Ymd b -> a = b.
Proof.
  intros a b Ha Hb Heq.
  pose proof (@strptime_strftime a Ha) as Ra.
  pose proof (@strptime_strftime b Hb) as Rb.
  rewrite Heq, Rb in Ra. inversion Ra. reflexivity.
Qed.

(** The seven entries of the window are seven different strings. *)
Lemma window_NoDup :
  forall today, window_day today -> NoDup (get_past_week_dates today).
Proof.
  intros today Hw. unfold get_past_week_dates.
  apply NoDup_map_inj_in; [|apply seq_NoDup].
  intros i j Hi Hj Heq. apply in_seq in Hi, Hj.
  destruct (@minus_days_valid today (Z.of_nat i) Hw ltac:(lia)) as [Vi Oi].
  destruct (@minus_days_valid today (Z.of_nat j) Hw ltac:(lia)) as [Vj Oj].
  apply (@strftime_injective _ _ Vi Vj) in Heq.
  rewrite Heq in Oi. lia.
Qed.

Lemma window_day_2025_01_10 : window_day (mkdate 2025 1 10).
Proof. split; [reflexivity|]. vm_compute. discriminate. Qed.

(** X1: the window of [get_past_week_dates] has seven entries, all
    different, the first one being today; entry [i] is the ISO form of
    the calendar date [i] days before today, and [strptime] reads it
    back as that date. *)
Theorem window_entries :
  forall (today : date),
    window_day today ->
    List.length (get_past_week_dates today) = 7 /\
    NoDup (get_past_week_dates today) /\
    nth_error (get_past_week_dates today) 0 = Some (strftime_Ymd today) /\
    forall i, i < 7 ->
      exists d,
        nth_error (get_past_week_dates today) i = Some (strftime_Ymd d) /\
        valid_date d = true /\
        strptime_Ymd (strftime_Ymd d) = Ok d /\
        days_between today d = Z.of_nat i.
Proof.
  intros today Hw. split; [reflexivity|].
  split; [exact (@window_NoDup today Hw)|]. split.
  { unfold get_past_week_dates. simpl. unfold minus_days.
    rewrite Z.sub_0_r, (@fromordinal_toordinal _ (proj1 Hw)). reflexivity. }
  intros i Hi. exists (minus_days today (Z.of_nat i)).
  destruct (@minus_days_valid today (Z.of_nat i) Hw ltac:(lia)) as [Hv Ho].
  split.
  { rewrite <- (@window_nth today i Hi). apply nth_error_nth'.
    rewrite window_length. exact Hi. }
  split; [exact Hv|]. split; [apply strptime_strftime; exact Hv|].
  unfold days_between. rewrite Ho. lia.
Qed.

Lemma window_entries_witness :
  window_day (mkdate 2025 1 10) /\
  List.length (get_past_week_dates (mkdate 2025 1 10)) = 7.
Proof.
  split; [exact window_day_2025_01_10|].
  exact (proj1 (@window_entries (mkdate 2025 1 10) window_day_2025_01_10)).
Defined.

(** ** Processing of a JSON array *)

Section ProcessingRuns.

Variable json_loads : string -> result json.
Variable env : environment.
Variable now : nat -> date.
Hypothesis clock_ok : window_day (now 0).

Lemma playbook_events_run :
  forall (events : list json),
    (date_assignments <-
       Playbook.distribute_dates (List.length events)
         (get_past_week_dates (now 0)) ;;
     mapM (fun kp =>
             Playbook.process_event env now (fst kp) (fst (snd kp)) (snd (snd kp)))
          (enumerate (combine events date_assignments)))
    = Ok (map (fun ke =>
                 render_template_in_value env
                   (item_vars now (fst ke) (List.length events)) (snd ke))
              (enumerate events)).
Proof.
  intros events. rewrite distribute_over_window. simpl.
  rewrite enumerate_combine_map_seq.
  rewrite (@mapM_ok_map _ _ _
             (fun kp => render_template_in_value env
                          (item_vars now (fst kp) (List.length events))
                          (fst (snd kp)))).
  - rewrite map_map. reflexivity.
  - intros [k [e iso]] Hin. apply in_map_iff in Hin.
    destruct Hin as [[k' e'] [Heq Hin]]. simpl in Heq.
    inversion Heq; subst. apply in_enumerate in Hin. destruct Hin as [Hk _].
    simpl. unfold Playbook.process_event.
    destruct (@item_date_valid (now 0) k (List.length events) clock_ok Hk)
      as [Hv _].
    rewrite (@strptime_strftime _ Hv). reflexivity.
Qed.

End ProcessingRuns.

Section ProcessingTotal.

Variable json_loads : string -> result json.
Variable env : environment.
Variable now : nat -> date.

Lemma json_template_run :
  forall (content : string) (events : list json),
    window_day (now 0) ->
    json_loads (strip content) = Ok (JList events) ->
    Playbook.process_json_template json_loads env now content
    = Ok (map (fun ke =>
                 render_template_in_value env
                   (item_vars now (fst ke) (List.length events)) (snd ke))
              (enumerate events)) /\
    Processor.process_json_template json_loads env now content
    = Returns (map (fun ke =>
                      render_template_in_value env
                        (item_vars now (fst ke) (List.length events)) (snd ke))
                   (enumerate events)).
Proof.
  intros content events Hw Hj.
  pose proof (@playbook_events_run env now Hw events) as Hrun.
  split.
  { unfold Playbook.process_json_template. rewrite Hj. exact Hrun. }
  unfold Processor.process_json_template. rewrite Hj.
  rewrite both_distribute_dates_agree.
  change (Processor.process_event env now)
    with (Playbook.process_event env now).
  rewrite Hrun. reflexivity.
Qed.

Lemma process_template_json_mode :
  forall (content : string) (events : list json),
    window_day (now 0) ->
    prefix "[" (strip content) = true ->
    json_loads (strip content) = Ok (JList events) ->
    Processor.process_template json_loads env now content
    = Returns (Processor.Events
                 (map (fun ke =>
                         render_template_in_value env
                           (item_vars now (fst ke) (List.length events))
                           (snd ke))
                      (enumerate events))).
Proof.
  intros content events Hw Hp Hj.
  destruct (@json_template_run content events Hw Hj) as [_ Hproc].
  unfold Processor.process_template, Processor.is_json_array.
  rewrite Hp, Hj. simpl. rewrite Hproc. reflexivity.
Qed.

(** X2: on a template that parses to a JSON array, nothing in the loop
    over the events can fail: [process_json_template] of the playbook
    and of the processor return one rendered item per event, in order,
    and so does [process_template] when the trimmed text starts with a
    bracket. *)
Theorem process_json_template_total :
  forall (content : string) (events : list json),
    window_day (now 0) ->
    json_loads (strip content) = Ok (JList events) ->
    let outs := map (fun ke =>
                       render_template_in_value env
                         (item_vars now (fst ke) (List.length events)) (snd ke))
                    (enumerate events) in
    Playbook.process_json_template json_loads env now content = Ok outs /\
    Processor.process_json_template json_loads env now content = Returns outs /\
    (prefix "[" (strip content) = true ->
     Processor.process_template json_loads env now content
     = Returns (Processor.Events outs)) /\
    List.length outs = List.length events.
Proof.
  intros content events Hw Hj outs.
  destruct (@json_template_run content events Hw Hj) as [Hplay Hproc].
  split; [exact Hplay|]. split; [exact Hproc|].
  split; [intros Hp; exact (@process_template_json_mode content events Hw Hp Hj)|].
  unfold outs. rewrite length_map. apply length_enumerate.
Qed.

(** X3: the bindings of item [k] of a JSON array.  The five forms of the
    date are those of the calendar date [k * 7 / n] days before the date
    of the window, and [day_offset] is that number plus the days the
    clock moved between the making of the window and the item. *)
Theorem item_bindings :
  forall (content : string) (events : list json) (k : nat) (e : json),
    window_day (now 0) ->
    json_loads (strip content) = Ok (JList events) ->
    nth_error events k = Some e ->
    exists outs d,
      Playbook.process_json_template json_loads env now content = Ok outs /\
      d = minus_days (now 0) (Z.of_nat (k * 7 / List.length events)) /\
      valid_date d = true /\
      days_between (now 0) d = Z.of_nat (k * 7 / List.length events) /\
      (k * 7 / List.length events < 7) /\
      nth_error outs k
      = Some (render_template_in_value env
                (bindings_of (strftime_Ymd d) (strftime_mdY d) (strftime_dmY d)
                   (strftime_Ymd_compact d) (format_syslog_date d)
                   (Z.of_nat (k * 7 / List.length events)
                    + days_between (now (S k)) (now 0)))
                e).
Proof.
  intros content events k e Hw Hj He.
  destruct (@json_template_run content events Hw Hj) as [Hp _].
  assert (Hk : k < List.length events).
  { apply nth_error_Some. rewrite He. discriminate. }
  destruct (@item_date_valid (now 0) k (List.length events) Hw Hk) as [Hv Ho].
  eexists. exists (item_date (now 0) k (List.length events)).
  split; [exact Hp|]. split; [reflexivity|]. split; [exact Hv|].
  split; [unfold days_between; rewrite Ho; unfold date_idx; lia|].
  split; [apply (@date_idx_lt k 7 (List.length events)); lia|].
  rewrite nth_error_map, (@nth_error_enumerate _ _ _ _ He). simpl.
  unfold item_vars. rewrite make_template_vars_eq.
  do 3 f_equal. unfold days_between. rewrite Ho. unfold date_idx. lia.
Qed.

End ProcessingTotal.

Lemma loads_template_3_items :
  Ref.loads (strip template_3_items) = Ok (JList three_events).
Proof. vm_compute. reflexivity. Qed.

Lemma process_json_template_total_witness :
  (window_day (clock_2025_01_10 0) /\
   Ref.loads (strip template_3_items) = Ok (JList three_events)) /\
  exists outs,
    Playbook.process_json_template Ref.loads Ref.env clock_2025_01_10
      template_3_items = Ok outs /\
    List.length outs = 3.
Proof.
  split; [split; [exact window_day_2025_01_10|exact loads_template_3_items]|].
  pose proof (@process_json_template_total Ref.loads Ref.env clock_2025_01_10
                template_3_items three_events window_day_2025_01_10
                loads_template_3_items) as H.
  cbv zeta in H. destruct H as [Hp [_ [_ Hl]]].
  eexists. split; [exact Hp|exact Hl].
Defined.

Lemma item_bindings_witness :
  (window_day (clock_2025_01_10 0) /\
   Ref.loads (strip template_3_items) = Ok (JList three_events) /\
   nth_error three_events 2
   = Some (JDict [("msg", JStr "day {{date}} offset {{day_offset}}")])) /\
  valid_date (minus_days (mkdate 2025 1 10) 4) = true.
Proof.
  split.
  { split; [exact window_day_2025_01_10|].
    split; [exact loads_template_3_items|reflexivity]. }
  destruct (@item_bindings Ref.loads Ref.env clock_2025_01_10
              template_3_items three_events 2 _ window_day_2025_01_10
              loads_template_3_items eq_refl)
    as [outs [d [_ [Hd [Hv _]]]]].
  rewrite Hd in Hv. exact Hv.
Defined.

(** ** Processing of lines *)

Section LineMode.

Variable json_loads : string -> result json.
Variable env : environment.
Variable now : nat -> date.

Lemma processor_lines_run :
  forall (lines : list string),
    window_day (now 0) ->
    (date_assignments <-
       Processor.distribute_dates (List.length lines)
         (get_past_week_dates (now 0)) ;;
     mapM (fun kp =>
             Processor.process_line env now (fst kp) (fst (snd kp)) (snd (snd kp)))
          (enumerate (combine lines date_assignments)))
    = Ok (map (fun kl => line_out env now (fst kl) (List.length lines) (snd kl))
              (enumerate lines)).
Proof.
  intros lines Hw. rewrite both_distribute_dates_agree, distribute_over_window.
  simpl. rewrite enumerate_combine_map_seq.
  rewrite (@mapM_ok_map _ _ _
             (fun kp => line_out env now (fst kp) (List.length lines)
                          (fst (snd kp)))).
  - rewrite map_map. reflexivity.
  - intros [k [line iso]] Hin. apply in_map_iff in Hin.
    destruct Hin as [[k' line'] [Heq Hin]]. simpl in Heq.
    inversion Heq; subst. apply in_enumerate in Hin. destruct Hin as [Hk _].
    simpl. unfold Processor.process_line, line_out.
    destruct (@item_date_valid (now 0) k (List.length lines) Hw Hk) as [Hv _].
    rewrite (@strptime_strftime _ Hv). simpl. fold (item_vars now k (List.length lines)).
    destruct (t <- from_string env line;; render env t (item_vars now k (List.length lines)));
      reflexivity.
Qed.

Lemma line_mode_run :
  forall (content : string),
    window_day (now 0) ->
    Processor.is_json_array json_loads content = Ok false ->
    Processor.process_template json_loads env now content
    = Returns
        (Processor.Text
           (join (String newline EmptyString)
              (map (fun kl =>
                      line_out env now (fst kl)
                        (List.length
                           (filter Processor.nonblank
                              (split newline (strip content))))
                        (snd kl))
                   (enumerate
                      (filter Processor.nonblank
                         (split newline (strip content))))))).
Proof.
  intros content Hw Hmode.
  pose (lines := filter Processor.nonblank (split newline (strip content))).
  fold lines. unfold Processor.process_template. rewrite Hmode. fold lines.
  pose proof (@processor_lines_run lines Hw) as Hrun.
  destruct (Processor.distribute_dates (List.length lines)
              (get_past_week_dates (now 0))) as [das|e]; simpl in *.
  - rewrite Hrun. reflexivity.
  - discriminate.
Qed.

(** X4: line mode.  [process_template] returns the joined outputs of the
    non-blank lines, one per line and in order; the output of a line is
    what the engine renders, and the line itself when the engine
    raises. *)
Theorem process_template_line_mode :
  forall (content : string),
    window_day (now 0) ->
    Processor.is_json_array json_loads content = Ok false ->
    let lines := filter Processor.nonblank (split newline (strip content)) in
    exists outs,
      Processor.process_template json_loads env now content
      = Returns (Processor.Text (join (String newline EmptyString) outs)) /\
      List.length outs = List.length lines /\
      forall k line,
        nth_error lines k = Some line ->
        nth_error outs k
        = Some (match (t <- from_string env line ;;
                       render env t (item_vars now k (List.length lines))) with
                | Ok rendered => rendered
                | Raise _ => line
                end).
Proof.
  intros content Hw Hmode lines.
  exists (map (fun kl => line_out env now (fst kl) (List.length lines) (snd kl))
              (enumerate lines)).
  split; [exact (@line_mode_run content Hw Hmode)|].
  split; [rewrite length_map; apply length_enumerate|].
  intros k line Hl.
  rewrite nth_error_map, (@nth_error_enumerate _ _ _ _ Hl). reflexivity.
Qed.

End LineMode.

Lemma two_lines_mode : Processor.is_json_array Ref.loads two_lines = Ok false.
Proof. vm_compute. reflexivity. Qed.

Lemma process_template_line_mode_witness :
  (window_day (clock_2025_01_10 0) /\
   Processor.is_json_array Ref.loads two_lines = Ok false) /\
  exists outs,
    Processor.process_template Ref.loads Ref.env clock_2025_01_10 two_lines
    = Returns (Processor.Text (join (String newline EmptyString) outs)) /\
    List.length outs = 2.
Proof.
  split; [split; [exact window_day_2025_01_10|exact two_lines_mode]|].
  pose proof (@process_template_line_mode Ref.loads Ref.env clock_2025_01_10
                two_lines window_day_2025_01_10 two_lines_mode) as H.
  cbv zeta in H. destruct H as [outs [Hrun [Hl _]]].
  exists outs. split; [exact Hrun|exact Hl].
Defined.

(** ** Requests and sleeps *)

Lemma no_failure_iff_all_delivered :
  forall (rs : list reply),
    (0 <? List.length (filter undelivered rs)) = negb (forallb delivered rs).
Proof.
  induction rs as [|r rs IH]; simpl; [reflexivity|].
  unfold undelivered at 1. destruct (delivered r); simpl; [exact IH|reflexivity].
Qed.

Lemma sum_positive_iff_some_positive :
  forall (A : Type) (f : A -> nat) (p : A -> bool) (l : list A),
    (forall x, In x l -> (f x = 0 <-> p x = true)) ->
    (0 <? list_sum (map f l)) = negb (forallb p l).
Proof.
  intros A f p l; induction l as [|x l IH]; intros H; simpl; [reflexivity|].
  pose proof (H x (or_introl eq_refl)) as Hx.
  assert (Hl : forall y, In y l -> (f y = 0 <-> p y = true))
    by (intros y Hy; apply H; right; exact Hy).
  specialize (IH Hl).
  destruct (p x) eqn:Ep; simpl.
  - assert (f x = 0) by (apply Hx; reflexivity). rewrite H0. exact IH.
  - assert (f x <> 0) by (intros E; apply Hx in E; discriminate).
    apply Nat.ltb_lt. lia.
Qed.

Lemma nth_error_paired :
  forall (A B : Type) (f : A -> B) (g : B) (l : list A) (k n : nat) (e : A),
    nth_error l k = Some e -> n = 2 * k ->
    nth_error (flat_map (fun x => [f x; g]) l) n = Some (f e) /\
    nth_error (flat_map (fun x => [f x; g]) l) (S n) = Some g.
Proof.
  intros A B f g l; induction l as [|x l IH]; intros k n e Hk Hn.
  - destruct k; discriminate.
  - destruct k as [|k]; simpl in Hk.
    + inversion Hk; subst. split; reflexivity.
    + destruct n as [|[|n]]; try lia. simpl.
      apply (IH k n e Hk). lia.
Qed.

Lemma length_paired :
  forall (A B : Type) (f : A -> B) (g : B) (l : list A),
    List.length (flat_map (fun x => [f x; g]) l) = 2 * List.length l.
Proof.
  intros A B f g l; induction l as [|x l IH]; simpl; [reflexivity|].
  simpl in IH. rewrite IH. lia.
Qed.

Lemma flat_map_enumerate :
  forall (A B : Type) (f : A -> list B) (l : list A),
    flat_map (fun ie => f (snd ie)) (enumerate l) = flat_map f l.
Proof.
  intros A B f l.
  rewrite <- (map_snd_enumerate l) at 2.
  rewrite !flat_map_concat_map, map_map. reflexivity.
Qed.

Section Pacing.

Variable net : network.
Variable webhook_url : string.
Variable delay : Z.

Lemma send_event_trace :
  forall (l : list (nat * json)) (st0 : Playbook.send_state),
    Playbook.trace (fold_left (Playbook.send_event net webhook_url delay) l st0)
    = Playbook.trace st0
      ++ flat_map (fun ie => Post webhook_url (snd ie) :: sleep_if true delay) l.
Proof.
  induction l as [|[i event] l IH]; intros st0; simpl.
  - rewrite app_nil_r. reflexivity.
  - rewrite IH. unfold Playbook.send_event at 1. simpl.
    unfold sleep_if, Playbook.pace. simpl.
    destruct (net i webhook_url event) as [status|e]; simpl;
      [destruct (status_ok status); simpl|];
      rewrite <- app_assoc; reflexivity.
Qed.

Lemma send_json_event_trace :
  forall (l : list (nat * json)) (st0 : Processor.tally),
    Processor.trace
      (fold_left (Processor.send_json_event net webhook_url delay) l st0)
    = Processor.trace st0
      ++ flat_map (fun ie => Post webhook_url (snd ie) :: sleep_if true delay) l.
Proof.
  induction l as [|[i event] l IH]; intros st0; simpl.
  - rewrite app_nil_r. reflexivity.
  - rewrite IH. unfold Processor.send_json_event at 1. simpl.
    unfold sleep_if. simpl.
    destruct (net i webhook_url event) as [status|e]; simpl;
      [destruct (status_ok status); simpl|];
      rewrite <- app_assoc; reflexivity.
Qed.

Lemma json_events_trace :
  forall (events : list json),
    Processor.trace
      (Processor.send_json_events_to_webhook net webhook_url events delay)
    = flat_map (fun e => Post webhook_url e :: sleep_if true delay) events.
Proof.
  intros events. unfold Processor.send_json_events_to_webhook.
  rewrite send_json_event_trace. simpl.
  exact (flat_map_enumerate
           (fun e => Post webhook_url e :: sleep_if true delay) events).
Qed.

Lemma json_events_count :
  forall (events : list json),
    Processor.successful
      (Processor.send_json_events_to_webhook net webhook_url events delay)
    + Processor.failed
        (Processor.send_json_events_to_webhook net webhook_url events delay)
    = List.length events.
Proof.
  intros events.
  destruct (send_json_event_loop net webhook_url delay (enumerate events)
              (Processor.mktally 0 0 [])) as [_ [Hs Hf]].
  unfold Processor.send_json_events_to_webhook. rewrite Hs, Hf. simpl.
  unfold undelivered. rewrite filter_partition_length, length_map.
  apply length_enumerate.
Qed.


End Pacing.

Section BatchPacing.

Variable net : network.
Variable webhook_url : string.
Variable log_lines : list string.
Variable batch_size : nat.
Variable delay : Z.
Hypothesis batch_size_pos : 0 < batch_size.

Lemma send_batch_trace :
  forall (ks : list nat) (st0 : Processor.tally),
    Processor.trace
      (fold_left
         (Processor.send_batch net webhook_url log_lines batch_size delay)
         (map (fun k => k * batch_size) ks) st0)
    = Processor.trace st0
      ++ flat_map
           (fun k =>
              Post webhook_url
                (Processor.batch_payload
                   (firstn batch_size (skipn (k * batch_size) log_lines)))
              :: sleep_if (k * batch_size + batch_size <? List.length log_lines)
                   delay)
           ks.
Proof.
  induction ks as [|k ks IH]; intros st0; simpl.
  - rewrite app_nil_r. reflexivity.
  - rewrite IH. unfold Processor.send_batch at 1. simpl. unfold sleep_if.
    destruct (net (k * batch_size / batch_size) webhook_url _) as [status|e];
      simpl; [destruct (status_ok status); simpl|];
      rewrite <- app_assoc; reflexivity.
Qed.

Lemma last_batch_test :
  forall k,
    k < (List.length log_lines + batch_size - 1) / batch_size ->
    (k * batch_size + batch_size <? List.length log_lines)
    = (S k <? (List.length log_lines + batch_size - 1) / batch_size).
Proof.
  intros k Hk.
  destruct (@ceil_div_bounds (List.length log_lines) batch_size batch_size_pos)
    as [Hcover Hstart].
  set (m := (List.length log_lines + batch_size - 1) / batch_size) in *.
  destruct (Nat.ltb_spec (S k) m) as [H|H].
  - apply Nat.ltb_lt. specialize (Hstart (S k) H). simpl in Hstart. lia.
  - apply Nat.ltb_ge. assert (m = S k) by lia. nia.
Qed.

Lemma send_to_webhook_trace :
  exists st,
    Processor.send_to_webhook net webhook_url log_lines batch_size delay = Ok st /\
    Processor.trace st
    = flat_map
        (fun kb =>
           Post webhook_url (Processor.batch_payload (snd kb))
           :: sleep_if (S (fst kb) <? List.length (batches log_lines batch_size))
                delay)
        (enumerate (batches log_lines batch_size)).
Proof.
  eexists. split.
  { unfold Processor.send_to_webhook.
    destruct (Nat.eqb_spec batch_size 0) as [E|_]; [lia|reflexivity]. }
  unfold Processor.range_step. rewrite send_batch_trace. simpl.
  rewrite batches_by_number, enumerate_map_seq, length_map, length_seq.
  rewrite !flat_map_concat_map, map_map. f_equal.
  apply map_ext_in. intros k Hk. apply in_seq in Hk. simpl.
  rewrite last_batch_test by lia. reflexivity.
Qed.

End BatchPacing.

(** [send_to_webhook] refuses a batch size of zero before any request.
    With a positive batch size it posts the batches in order and sleeps
    after each of them but the last, when the delay is positive. *)
Theorem batch_loop_pacing :
  forall (net : network) (webhook_url : string) (log_lines : list string)
         (delay : Z),
    Processor.send_to_webhook net webhook_url log_lines 0 delay
    = Raise (ValueError "range() arg 3 must not be zero") /\
    forall batch_size,
      0 < batch_size ->
      exists st,
        Processor.send_to_webhook net webhook_url log_lines batch_size delay
        = Ok st /\
        Processor.trace st
        = flat_map
            (fun kb =>
               Post webhook_url (Processor.batch_payload (snd kb))
               :: sleep_if
                    (S (fst kb) <? List.length (batches log_lines batch_size))
                    delay)
            (enumerate (batches log_lines batch_size)) /\
        (log_lines = [] -> Processor.trace st = []) /\
        (log_lines <> [] ->
         exists b, last (Processor.trace st) (Sleep 0)
                   = Post webhook_url (Processor.batch_payload b)).
Proof.
  intros net webhook_url log_lines delay. split; [reflexivity|].
  intros batch_size Hpos.
  destruct (@send_to_webhook_trace net webhook_url log_lines batch_size delay
              Hpos) as [st [Hrun Htrace]].
  exists st. split; [exact Hrun|]. split; [exact Htrace|].
  destruct (@ceil_div_bounds (List.length log_lines) batch_size Hpos)
    as [Hcover _].
  rewrite Htrace, batches_by_number, enumerate_map_seq, length_map, length_seq.
  set (m := (List.length log_lines + batch_size - 1) / batch_size) in *.
  split.
  - intros ->. simpl in m.
    assert (Hm : m = 0).
    { unfold m. apply Nat.div_small. lia. }
    rewrite Hm. reflexivity.
  - intros Hne.
    assert (Hm : 1 <= m).
    { destruct log_lines as [|x l]; [contradiction|]. simpl in Hcover.
      destruct m; simpl in Hcover; lia. }
    destruct m as [|m']; [lia|].
    rewrite seq_S, map_app, flat_map_app. simpl.
    rewrite Nat.ltb_irrefl. unfold sleep_if at 2. simpl.
    eexists. apply last_last.
Qed.

(** ** The command line *)

Lemma in_enumerate_snd :
  forall (A : Type) (l : list A) (kx : nat * A),
    In kx (enumerate l) -> In (snd kx) l.
Proof.
  intros A l [k x] H. apply in_enumerate in H. destruct H as [_ H].
  simpl. apply nth_error_In with (n := k). exact H.
Qed.

Section MainRuns.

Variable json_loads : string -> result json.
Variable env : environment.
Variable now : nat -> date.
Variable net : network.

(** X7: [main] with a webhook as destination exits with status 1 exactly
    when a call was not delivered, after having made every call; events
    go one per request with a sleep after each, lines in batches of ten
    with a sleep between batches.  When the processing of the template
    ends badly, no request is made. *)
Theorem main_exit_status :
  forall (content output_dest : string),
    Processor.is_url output_dest = true ->
    match Processor.process_template json_loads env now content with
    | Returns (Processor.Events events) =>
        Processor.main json_loads env now net content output_dest
        = (if forallb delivered (replies net output_dest events)
           then Returns tt else Exits 1,
           flat_map (fun e => Post output_dest e :: sleep_if true 50) events)
    | Returns (Processor.Text text) =>
        let bs := batches (filter Processor.nonblank (split newline text)) 10 in
        Processor.main json_loads env now net content output_dest
        = (if forallb
                (fun kb => delivered
                             (net (fst kb) output_dest
                                (Processor.batch_payload (snd kb))))
                (enumerate bs)
           then Returns tt else Exits 1,
           flat_map
             (fun kb =>
                Post output_dest (Processor.batch_payload (snd kb))
                :: sleep_if (S (fst kb) <? List.length bs) 100)
             (enumerate bs))
    | Raises e =>
        Processor.main json_loads env now net content output_dest
        = (Raises e, [])
    | Exits code =>
        Processor.main json_loads env now net content output_dest
        = (Exits code, [])
    end.
Proof.
  intros content output_dest Hurl. unfold Processor.main. rewrite Hurl.
  destruct (Processor.process_template json_loads env now content)
    as [[events|text]|e|code]; try reflexivity.
  - pose proof (@json_events_trace net output_dest 50 events) as Ht.
    destruct (send_json_event_loop net output_dest 50 (enumerate events)
                (Processor.mktally 0 0 [])) as [_ [_ Hf]].
    fold (Processor.send_json_events_to_webhook net output_dest events 50) in Hf.
    simpl in Hf. rewrite Ht, Hf.
    fold (replies net output_dest events).
    rewrite no_failure_iff_all_delivered.
    destruct (forallb delivered (replies net output_dest events)); reflexivity.
  - set (log_lines := filter Processor.nonblank (split newline text)).
    cbv zeta.
    destruct (@send_to_webhook_run net output_dest log_lines 10 100
                ltac:(lia)) as [st [Hrun [_ [Hall [_ [_ [_ [Hf _]]]]]]]].
    destruct (@send_to_webhook_trace net output_dest log_lines 10 100
                ltac:(lia)) as [st' [Hrun' Htrace]].
    rewrite Hrun in Hrun'. inversion Hrun'; subst st'. clear Hrun'.
    rewrite Hrun, Htrace, Hf. f_equal.
    rewrite (@sum_positive_iff_some_positive _ _
               (fun kb => delivered
                            (net (fst kb) output_dest
                               (Processor.batch_payload (snd kb))))).
    + destruct (forallb _ _); reflexivity.
    + intros kb Hin. apply in_enumerate_snd in Hin.
      rewrite Forall_forall in Hall. specialize (Hall _ Hin).
      unfold batch_failures.
      destruct (delivered _); split; intros H;
        try reflexivity; try discriminate; lia.
Qed.

End MainRuns.

Lemma main_exit_status_witness :
  Processor.is_url "https://hook.example/in" = true /\
  fst (Processor.main Ref.loads Ref.env clock_2025_01_10 (always 200)
         two_lines "https://hook.example/in") = Returns tt.
Proof.
  split; [reflexivity|].
  pose proof (@main_exit_status Ref.loads Ref.env clock_2025_01_10 (always 200)
                two_lines "https://hook.example/in" eq_refl) as H.
  rewrite (@line_mode_run Ref.loads Ref.env clock_2025_01_10 two_lines
             window_day_2025_01_10 two_lines_mode) in H.
  cbv zeta in H. rewrite H. vm_compute. reflexivity.
Defined.

(** ** How the runs end *)

Section Outcomes.

Variable json_loads : string -> result json.
Variable env : environment.
Variable now : nat -> date.
Variable fetch_template : string -> result string.
Variable net : network.

(** X8: a template that parses to something else than a list.  The
    playbook answers with the message of the [ValueError] and makes no
    request, and [process_json_template] of the processor exits with
    status 1. *)
Theorem non_array_template_is_fatal :
  forall (url webhook_url : string) (delay : Z) (content : string) (v : json),
    fetch_template url = Ok content ->
    json_loads (strip content) = Ok v ->
    (forall items, v <> JList items) ->
    Playbook.process_json_template json_loads env now content
    = Raise (ValueError "JSON template must be an array of events") /\
    Playbook.playbook json_loads env now fetch_template net
      url webhook_url delay
    = (Playbook.PbError
         "Playbook execution failed: JSON template must be an array of events",
       []) /\
    Processor.process_json_template json_loads env now content = Exits 1.
Proof.
  intros url webhook_url delay content v Hfetch Hj Hv.
  assert (Hp : Playbook.process_json_template json_loads env now content
               = Raise (ValueError "JSON template must be an array of events")).
  { unfold Playbook.process_json_template. rewrite Hj. simpl.
    destruct v; try reflexivity. exfalso. apply (Hv items). reflexivity. }
  split; [exact Hp|]. split.
  - unfold Playbook.playbook. rewrite Hfetch. simpl. rewrite Hp. reflexivity.
  - unfold Processor.process_json_template. rewrite Hj.
    destruct v; try reflexivity. exfalso. apply (Hv items). reflexivity.
Qed.

Lemma send_event_unchecked_number :
  forall (webhook_url : string) (d : Z) (l : list (nat * json))
         (st : Playbook.send_state),
    fold_left (Playbook.send_event_unchecked net webhook_url (Playbook.Number d))
      l (st, None)
    = (fold_left (Playbook.send_event net webhook_url d) l st, None).
Proof.
  intros webhook_url d l; induction l as [|[i event] l IH]; intros st;
    [reflexivity|].
  simpl. rewrite <- IH. f_equal.
  unfold Playbook.send_event_unchecked, Playbook.request_event,
    Playbook.send_event. simpl.
  destruct (net i webhook_url event) as [code|e]; simpl;
    [destruct (status_ok code); simpl|];
    rewrite <- app_assoc; reflexivity.
Qed.

Lemma send_event_unchecked_left :
  forall (webhook_url : string) (delay : Playbook.delay_value)
         (l : list (nat * json)) (st : Playbook.send_state) (e : exception),
    fold_left (Playbook.send_event_unchecked net webhook_url delay) l
      (st, Some e)
    = (st, Some e).
Proof.
  intros webhook_url delay l; induction l as [|ie l IH]; intros st e;
    [reflexivity|].
  simpl. apply IH.
Qed.

Lemma playbook_with_a_number :
  forall (url webhook_url : string) (d : Z),
    Playbook.playbook_unchecked_delay json_loads env now fetch_template net
      url webhook_url (Playbook.Number d)
    = Playbook.playbook json_loads env now fetch_template net
        url webhook_url d.
Proof.
  intros url webhook_url d.
  unfold Playbook.playbook_unchecked_delay, Playbook.playbook.
  destruct (content <- fetch_template url ;;
            Playbook.process_json_template json_loads env now content)
    as [events|e].
  - unfold Playbook.send_events_to_webhook_unchecked.
    rewrite send_event_unchecked_number. reflexivity.
  - destruct e; reflexivity.
Qed.


Lemma is_json_array_true_iff :
  forall (content : string),
    Processor.is_json_array json_loads content = Ok true <->
    prefix "[" (strip content) = true /\
    exists v, json_loads (strip content) = Ok v.
Proof.
  intros content. unfold Processor.is_json_array.
  destruct (prefix "[" (strip content)); simpl.
  - destruct (json_loads (strip content)) as [v|e]; split.
    + intros _. split; [reflexivity|]. exists v. reflexivity.
    + reflexivity.
    + destruct e; intros H; discriminate.
    + intros [_ [v Hv]]. discriminate.
  - split; [discriminate|]. intros [H _]. discriminate.
Qed.

Lemma lift_never_exits :
  forall (A : Type) (r : result A) (code : Z), lift r <> Exits code.
Proof. intros A [a|e] code; discriminate. Qed.

(** X10: mode detection.  [is_json_array] answers [True] exactly for a
    text that starts with a bracket, once trimmed, and parses; a text
    that starts otherwise is never parsed.  [process_template] so never
    exits on malformed JSON: it exits, with status 1, only on a text
    that parses to something else than a list. *)
Theorem mode_detection :
  forall (content : string),
    (Processor.is_json_array json_loads content = Ok true <->
     prefix "[" (strip content) = true /\
     exists v, json_loads (strip content) = Ok v) /\
    (prefix "[" (strip content) = false ->
     forall other_loads : string -> result json,
       Processor.is_json_array other_loads content = Ok false) /\
    (forall code,
       Processor.process_template json_loads env now content = Exits code ->
       code = 1%Z /\
       prefix "[" (strip content) = true /\
       exists v, json_loads (strip content) = Ok v /\
                 forall items, v <> JList items).
Proof.
  intros content. split; [apply is_json_array_true_iff|]. split.
  - intros Hp other_loads. unfold Processor.is_json_array. rewrite Hp.
    reflexivity.
  - intros code. unfold Processor.process_template.
    destruct (Processor.is_json_array json_loads content)
      as [[|]|e] eqn:Emode.
    + apply is_json_array_true_iff in Emode. destruct Emode as [Hp [v Hv]].
      unfold Processor.process_json_template. rewrite Hv.
      destruct v as [ | b | n | lit | s | items | items ];
        try (intros H; inversion H; subst; split; [reflexivity|];
             split; [exact Hp|]; eexists; split; [reflexivity|];
             intros items'; discriminate).
      intros H. exfalso.
      destruct (lift (date_assignments <-
                        Processor.distribute_dates (List.length items)
                          (get_past_week_dates (now 0));;
                      mapM (fun kp =>
                              Processor.process_event env now (fst kp)
                                (fst (snd kp)) (snd (snd kp)))
                           (enumerate (combine items date_assignments))))
        eqn:El; try discriminate.
      exact (lift_never_exits _ El).
    + intros H. exfalso. exact (lift_never_exits _ H).
    + discriminate.
Qed.

End Outcomes.

Lemma loads_object_template :
  Ref.loads (strip object_template) = Ok (JDict [("msg", JStr "no array")]).
Proof. vm_compute. reflexivity. Qed.

Lemma non_array_template_is_fatal_witness :
  ((fun _ : string => Ok object_template) "https://templates.example/t.json"
   = Ok object_template /\
   Ref.loads (strip object_template) = Ok (JDict [("msg", JStr "no array")]) /\
   (forall items, JDict [("msg", JStr "no array")] <> JList items)) /\
  Playbook.playbook Ref.loads Ref.env clock_2025_01_10
    (fun _ => Ok object_template) (always 200)
    "https://templates.example/t.json" "https://hook.example/in" 50
  = (Playbook.PbError
       "Playbook execution failed: JSON template must be an array of events",
     []).
Proof.
  assert (Hv : forall items, JDict [("msg", JStr "no array")] <> JList items)
    by (intros items; discriminate).
  split.
  { split; [reflexivity|]. split; [exact loads_object_template|exact Hv]. }
  exact (proj1 (proj2 (@non_array_template_is_fatal Ref.loads Ref.env
                         clock_2025_01_10 (fun _ => Ok object_template)
                         (always 200) "https://templates.example/t.json"
                         "https://hook.example/in" 50 object_template _
                         eq_refl loads_object_template Hv))).
Defined.

(** ** The numbered lines *)

Lemma filter_numbered :
  forall (A : Type) (p : A -> bool) (l : list A) (s : nat),
    let kept := filter (fun il => p (snd il)) (combine (seq s (List.length l)) l) in
    map snd kept = filter p l /\
    StronglySorted lt (map fst kept) /\
    Forall (fun i => s <= i) (map fst kept) /\
    Forall (fun il => nth_error l (fst il - s) = Some (snd il) /\ s <= fst il) kept.
Proof.
  intros A p l; induction l as [|x l IH]; intros s; simpl.
  - repeat split; constructor.
  - destruct (IH (S s)) as [Hm [Hs [Hge Hn]]].
    assert (Hn' : Forall
                    (fun il => nth_error (x :: l) (fst il - s) = Some (snd il)
                               /\ s <= fst il)
                    (filter (fun il => p (snd il))
                       (combine (seq (S s) (List.length l)) l))).
    { eapply Forall_impl; [|exact Hn]. intros [i y] [H1 H2]. simpl in *.
      split; [|lia]. replace (i - s) with (S (i - S s)) by lia. exact H1. }
    assert (Hge' : Forall (fun i => s <= i)
                     (map fst (filter (fun il => p (snd il))
                                 (combine (seq (S s) (List.length l)) l)))).
    { eapply Forall_impl; [|exact Hge]. intros i Hi. cbv beta in Hi. lia. }
    destruct (p x); simpl.
    + split; [f_equal; exact Hm|]. split.
      { constructor; [exact Hs|].
        eapply Forall_impl; [|exact Hge]. intros i Hi. cbv beta in Hi. lia. }
      split; [constructor; [lia|exact Hge']|].
      constructor; [|exact Hn']. simpl. rewrite Nat.sub_diag. split; [reflexivity|lia].
    + split; [exact Hm|]. split; [exact Hs|]. split; [exact Hge'|exact Hn'].
Qed.

(** X11: [parse_template_lines] keeps the lines [process_template]
    works on, in order; the index that comes with a line is its position
    among all the lines of the trimmed text, so the indices increase. *)
Theorem parse_template_lines_indices :
  forall (template_content : string),
    let lines := split newline (strip template_content) in
    let parsed := Processor.parse_template_lines template_content in
    map fst parsed = filter Processor.nonblank lines /\
    StronglySorted lt (map snd parsed) /\
    forall line idx,
      In (line, idx) parsed ->
      nth_error lines idx = Some line /\ Processor.nonblank line = true.
Proof.
  intros template_content lines parsed.
  destruct (@filter_numbered _ Processor.nonblank lines 0) as [Hm [Hs [_ Hn]]].
  unfold parsed, Processor.parse_template_lines. fold lines.
  change (fun il : nat * string => truthy (strip (snd il)))
    with (fun il : nat * string => Processor.nonblank (snd il)).
  fold (enumerate lines) in Hm, Hs, Hn.
  rewrite !map_map. simpl.
  split; [exact Hm|]. split; [exact Hs|].
  intros line idx Hin. apply in_map_iff in Hin.
  destruct Hin as [[i l] [Heq Hin]]. simpl in Heq. inversion Heq; subst.
  pose proof Hin as Hin'. apply filter_In in Hin'. destruct Hin' as [_ Hp].
  rewrite Forall_forall in Hn. destruct (Hn _ Hin) as [Hnth _].
  simpl in *. rewrite Nat.sub_0_r in Hnth. split; assumption.
Qed.

(** ** The syslog form of a date *)

Lemma syslog_all_days : all_from 372 0 syslog_ok = true.
Proof. vm_compute. reflexivity. Qed.



(** ** More on the distributor *)

Lemma date_idx_step :
  forall i W n, 0 < n -> n <= W -> date_idx i W n + 1 <= date_idx (S i) W n.
Proof.
  intros i W n Hn HW. unfold date_idx.
  rewrite <- (Nat.div_add (i * W) 1 n) by lia.
  apply Nat.Div0.div_le_mono. lia.
Qed.

Lemma date_idx_strict :
  forall i j W n,
    0 < n -> n <= W -> i < j -> date_idx i W n < date_idx j W n.
Proof.
  intros i j W n Hn HW Hij.
  pose proof (@date_idx_step i W n Hn HW).
  pose proof (@date_idx_mono (S i) j W n ltac:(lia)). lia.
Qed.

(** X13: with no more items than dates, and dates that are all
    different, the distributor gives every item a date of its own. *)
(** With no more items than dates, the distributor gives every item a
    date of its own. *)
Theorem few_items_get_distinct_dates :
  forall (A : Type) (dates l : list A) (n : nat),
    NoDup dates ->
    n <= List.length dates ->
    Playbook.distribute_dates n dates = Ok l ->
    Processor.distribute_dates n dates = Ok l /\ NoDup l.
Proof.
  intros A dates l n Hnd Hn Hl.
  split; [rewrite both_distribute_dates_agree; exact Hl|].
  destruct (Nat.eq_dec n 0) as [->|Hn0].
  { inversion Hl. constructor. }
  destruct dates as [|d0 ds] eqn:E; [simpl in Hn; lia|]. rewrite <- E in *.
  rewrite (@distribute_dates_eq A dates d0 n) in Hl;
    [|rewrite E; discriminate|exact Hn0].
  inversion Hl; subst l. clear Hl.
  apply NoDup_map_inj_in; [|apply seq_NoDup].
  intros i j Hi Hj Heq. apply in_seq in Hi, Hj.
  assert (Hi' : date_idx i (List.length dates) n < List.length dates)
    by (apply date_idx_lt; lia).
  assert (Hj' : date_idx j (List.length dates) n < List.length dates)
    by (apply date_idx_lt; lia).
  rewrite NoDup_nth in Hnd. specialize (Hnd _ _ Hi' Hj' Heq).
  destruct (Nat.lt_trichotomy i j) as [H|[H|H]]; [|exact H|].
  - pose proof (@date_idx_strict i j (List.length dates) n ltac:(lia) Hn H). lia.
  - pose proof (@date_idx_strict j i (List.length dates) n ltac:(lia) Hn H). lia.
Qed.

Lemma few_items_get_distinct_dates_witness :
  (NoDup week_of_2025_01_10 /\
   3 <= List.length week_of_2025_01_10 /\
   Playbook.distribute_dates 3 week_of_2025_01_10
   = Ok ["2025-01-10"; "2025-01-08"; "2025-01-06"]) /\
  NoDup ["2025-01-10"; "2025-01-08"; "2025-01-06"].
Proof.
  assert (Hnd : NoDup week_of_2025_01_10)
    by exact (@window_NoDup (mkdate 2025 1 10) window_day_2025_01_10).
  assert (Hn : 3 <= List.length week_of_2025_01_10) by (simpl; lia).
  assert (Hd : Playbook.distribute_dates 3 week_of_2025_01_10
               = Ok ["2025-01-10"; "2025-01-08"; "2025-01-06"])
    by reflexivity.
  split; [split; [exact Hnd|split; [exact Hn|exact Hd]]|].
  exact (proj2 (@few_items_get_distinct_dates string week_of_2025_01_10 _ 3
                  Hnd Hn Hd)).
Defined.

Lemma count_in_interval :
  forall a b n,
    List.length (filter (fun i => (a <=? i) && (i <? b)) (seq 0 n))
    = Nat.min b n - Nat.min a n.
Proof.
  intros a b n; induction n as [|n IH]; [simpl; lia|].
  rewrite seq_S, filter_app, length_app, IH. simpl.
  destruct (Nat.leb_spec a n); destruct (Nat.ltb_spec n b); simpl; lia.
Qed.

Lemma ceil_le_iff :
  forall x W i, 0 < W -> ((x + W - 1) / W <= i <-> x <= i * W).
Proof.
  intros x W i HW.
  pose proof (Nat.div_mod (x + W - 1) W ltac:(lia)) as Hdm.
  pose proof (Nat.mod_upper_bound (x + W - 1) W ltac:(lia)) as Hmod.
  set (q := (x + W - 1) / W) in *. set (r := (x + W - 1) mod W) in *.
  split; intros H; nia.
Qed.

Lemma date_idx_eq_iff :
  forall i W n k,
    0 < n -> 0 < W ->
    (date_idx i W n = k <->
     (k * n + W - 1) / W <= i /\ i < (S k * n + W - 1) / W).
Proof.
  intros i W n k Hn HW.
  pose proof (@ceil_le_iff (k * n) W i HW) as H1.
  pose proof (@ceil_le_iff (S k * n) W i HW) as H2.
  unfold date_idx.
  pose proof (Nat.div_mod (i * W) n ltac:(lia)) as Hdm.
  pose proof (Nat.mod_upper_bound (i * W) n ltac:(lia)) as Hmod.
  set (q := i * W / n) in *. set (r := (i * W) mod n) in *.
  split.
  - intros <-. split; [apply H1; nia|].
    apply Nat.nle_gt. intros Hc. apply H2 in Hc. nia.
  - intros [Ha Hb]. apply H1 in Ha.
    assert (Hb' : ~ S k * n <= i * W) by (intros Hc; apply H2 in Hc; lia).
    nia.
Qed.

Lemma count_occ_map_seq :
  forall (f : nat -> nat) (l : list nat) (k : nat),
    count_occ Nat.eq_dec (map f l) k
    = List.length (filter (fun i => f i =? k) l).
Proof.
  intros f l k; induction l as [|x l IH]; simpl; [reflexivity|].
  destruct (Nat.eq_dec (f x) k) as [E|E].
  - rewrite (proj2 (Nat.eqb_eq _ _) E). simpl. f_equal. exact IH.
  - rewrite (proj2 (Nat.eqb_neq _ _) E). exact IH.
Qed.

Lemma ceil_step_bounds :
  forall x n W,
    0 < W ->
    n / W <= (x + n + W - 1) / W - (x + W - 1) / W <= (n + W - 1) / W.
Proof.
  intros x n W HW.
  pose proof (Nat.div_mod (x + n + W - 1) W ltac:(lia)) as H1.
  pose proof (Nat.mod_upper_bound (x + n + W - 1) W ltac:(lia)) as M1.
  pose proof (Nat.div_mod (x + W - 1) W ltac:(lia)) as H0.
  pose proof (Nat.mod_upper_bound (x + W - 1) W ltac:(lia)) as M0.
  pose proof (Nat.div_mod n W ltac:(lia)) as Hq.
  pose proof (Nat.mod_upper_bound n W ltac:(lia)) as Mq.
  pose proof (Nat.div_mod (n + W - 1) W ltac:(lia)) as Hc.
  pose proof (Nat.mod_upper_bound (n + W - 1) W ltac:(lia)) as Mc.
  set (a1 := (x + n + W - 1) / W) in *. set (r1 := (x + n + W - 1) mod W) in *.
  set (a0 := (x + W - 1) / W) in *. set (r0 := (x + W - 1) mod W) in *.
  set (q := n / W) in *. set (r := n mod W) in *.
  set (c := (n + W - 1) / W) in *. set (rc := (n + W - 1) mod W) in *.
  split; nia.
Qed.

(** X14: the distributor spreads the items evenly: every date of the
    window gets the quotient of the number of items by the number of
    dates, rounded down or up. *)
(** The distributor spreads the items evenly: every date of the window
    gets the quotient of the number of items by the number of dates,
    rounded down or up. *)
Theorem distribution_is_even :
  forall (W n k : nat),
    0 < n -> 0 < W -> k < W ->
    exists idxs,
      Playbook.distribute_dates n (seq 0 W) = Ok idxs /\
      Processor.distribute_dates n (seq 0 W) = Ok idxs /\
      n / W <= count_occ Nat.eq_dec idxs k <= (n + W - 1) / W.
Proof.
  intros W n k Hn HW Hk.
  exists (map (fun i => date_idx i W n) (seq 0 n)).
  assert (Hid : Playbook.distribute_dates n (seq 0 W)
                = Ok (map (fun i => date_idx i W n) (seq 0 n))).
  { rewrite (@distribute_dates_eq nat (seq 0 W) 0 n);
      [|destruct W; [lia|discriminate]|lia].
    f_equal. apply map_ext_in. intros i Hi. apply in_seq in Hi.
    rewrite length_seq, seq_nth; [reflexivity|].
    apply date_idx_lt; lia. }
  split; [exact Hid|].
  split; [rewrite both_distribute_dates_agree; exact Hid|].
  rewrite count_occ_map_seq.
  rewrite (@filter_ext_in _ (fun i => date_idx i W n =? k)
             (fun i => ((k * n + W - 1) / W <=? i)
                       && (i <? (S k * n + W - 1) / W))).
  - rewrite count_in_interval.
    assert (Hb : (S k * n + W - 1) / W <= n).
    { apply (@ceil_le_iff (S k * n) W n HW). nia. }
    assert (Ha : (k * n + W - 1) / W <= (S k * n + W - 1) / W).
    { apply Nat.Div0.div_le_mono. lia. }
    rewrite !Nat.min_l by lia.
    pose proof (@ceil_step_bounds (k * n) n W HW) as Hs.
    replace (S k * n + W - 1) with (k * n + n + W - 1) by lia.
    exact Hs.
  - intros i Hi.
    pose proof (@date_idx_eq_iff i W n k Hn HW) as Hiff.
    destruct (Nat.eqb_spec (date_idx i W n) k) as [E|E].
    + apply Hiff in E. destruct E as [E1 E2]. symmetry.
      apply andb_true_intro. split; [apply Nat.leb_le|apply Nat.ltb_lt]; lia.
    + symmetry. apply not_true_is_false. intros Hc.
      apply andb_prop in Hc. destruct Hc as [C1 C2].
      apply Nat.leb_le in C1. apply Nat.ltb_lt in C2.
      apply E, Hiff. split; assumption.
Qed.

Lemma distribution_is_even_witness :
  (0 < 10 /\ 0 < 7 /\ 3 < 7) /\
  exists idxs,
    Playbook.distribute_dates 10 (seq 0 7) = Ok idxs /\
    1 <= count_occ Nat.eq_dec idxs 3 <= 2.
Proof.
  split; [lia|].
  destruct (@distribution_is_even 7 10 3 ltac:(lia) ltac:(lia) ltac:(lia))
    as [idxs [H1 [_ H3]]].
  exists idxs. split; [exact H1|exact H3].
Defined.

(** ** The extension *)

Section ExtensionRuns.

Variable json_loads : string -> result json.
Variable env : environment.
Variable now : nat -> date.
Variable urlopen_text : string -> result string.
Variable open_text : string -> Processor.file_read.
Variable net : network.

(** X15: the extension refuses a template that [is_json_array] does not
    take for a JSON array, malformed JSON included: it raises
    [ValueError] and makes no request, where [main] posts the lines. *)
Theorem extension_rejects_line_templates :
  forall (url webhook_url content : string),
    window_day (now 0) ->
    Processor.fetch_template urlopen_text open_text url = Returns content ->
    Processor.is_json_array json_loads content = Ok false ->
    Extension._do_load_demo_data json_loads env now urlopen_text open_text net
      url webhook_url
    = (Raises (ValueError "Template must produce a list of events"), []).
Proof.
  intros url webhook_url content Hw Hfetch Hmode.
  unfold Extension._do_load_demo_data.
  rewrite Hfetch, (@line_mode_run json_loads env now content Hw Hmode).
  reflexivity.
Qed.

(** X16: on a JSON array the extension posts every rendered event, with
    a sleep after each, and returns a report whose counters add up to
    the number of events and whose status is ["success"] exactly when
    every call was delivered. *)
Theorem extension_delivers_arrays :
  forall (url webhook_url content : string) (events : list json),
    window_day (now 0) ->
    Processor.fetch_template urlopen_text open_text url = Returns content ->
    prefix "[" (strip content) = true ->
    json_loads (strip content) = Ok (JList events) ->
    let outs := map (fun ke =>
                       render_template_in_value env
                         (item_vars now (fst ke) (List.length events))
                         (snd ke))
                    (enumerate events) in
    exists report,
      Extension._do_load_demo_data json_loads env now urlopen_text
        open_text net url webhook_url
      = (Returns report,
         flat_map (fun e => Post webhook_url e :: sleep_if true 50) outs) /\
      Extension.template_url report = url /\
      Extension.events_total report = List.length events /\
      Extension.events_sent report + Extension.events_failed report
      = List.length events /\
      (Extension.status report = "success" <->
       forallb delivered (replies net webhook_url outs) = true).
Proof.
  intros url webhook_url content events Hw Ef Hp Hj outs.
  unfold Extension._do_load_demo_data. rewrite Ef.
  rewrite (@process_template_json_mode json_loads env now content events
             Hw Hp Hj).
  fold outs.
  pose proof (@json_events_trace net webhook_url 50 outs) as Ht.
  pose proof (@json_events_count net webhook_url 50 outs) as Hsum.
  destruct (send_json_event_loop net webhook_url 50 (enumerate outs)
              (Processor.mktally 0 0 [])) as [_ [_ Hf]].
  fold (Processor.send_json_events_to_webhook net webhook_url outs 50) in Hf.
  simpl in Hf. fold (replies net webhook_url outs) in Hf.
  eexists. split; [rewrite Ht; reflexivity|]. simpl.
  assert (Hlen : List.length outs = List.length events).
  { unfold outs. rewrite length_map. apply length_enumerate. }
  split; [reflexivity|]. split; [exact Hlen|]. split; [lia|].
  pose proof (no_failure_iff_all_delivered (replies net webhook_url outs)) as Hn.
  rewrite <- Hf in Hn.
  destruct (Processor.failed
              (Processor.send_json_events_to_webhook net webhook_url outs 50))
    as [|n]; simpl in *.
  - split; [intros _|reflexivity].
    destruct (forallb delivered (replies net webhook_url outs));
      [reflexivity|discriminate].
  - split; [discriminate|]. intros H. rewrite H in Hn. discriminate.
Qed.

(** X18: [fetch_template] never exits with another status than 1; for
    a source that is a URL it does not open a file and lets no exception
    of the download through, and for another source it downloads
    nothing.  When it exits, the extension exits with it, before any
    request. *)
Theorem fetch_failures_exit :
  forall (source webhook_url : string),
    (forall code,
       Processor.fetch_template urlopen_text open_text source = Exits code ->
       code = 1%Z /\
       Extension._do_load_demo_data json_loads env now urlopen_text open_text
         net source webhook_url = (Exits 1, [])) /\
    (Processor.is_url source = true ->
     (forall e,
        Processor.fetch_template urlopen_text open_text source <> Raises e) /\
     (forall e, urlopen_text source = Raise e ->
        Processor.fetch_template urlopen_text open_text source = Exits 1) /\
     forall other_open : string -> Processor.file_read,
       Processor.fetch_template urlopen_text other_open source
       = Processor.fetch_template urlopen_text open_text source) /\
    (Processor.is_url source = false ->
     forall other_urlopen : string -> result string,
       Processor.fetch_template other_urlopen open_text source
       = Processor.fetch_template urlopen_text open_text source).
Proof.
  intros source webhook_url. split; [|split].
  - intros code Hexit.
    assert (Hcode : code = 1%Z).
    { unfold Processor.fetch_template in Hexit.
      destruct (Processor.is_url source).
      - destruct (urlopen_text source); inversion Hexit; reflexivity.
      - destruct (open_text source); inversion Hexit; reflexivity. }
    split; [exact Hcode|].
    unfold Extension._do_load_demo_data. rewrite Hexit, Hcode. reflexivity.
  - intros Hurl. unfold Processor.fetch_template. rewrite Hurl.
    split; [|split].
    + intros e. destruct (urlopen_text source); discriminate.
    + intros e He. rewrite He. reflexivity.
    + reflexivity.
  - intros Hurl other_urlopen. unfold Processor.fetch_template.
    rewrite Hurl. reflexivity.
Qed.

End ExtensionRuns.

Lemma extension_rejects_line_templates_witness :
  (window_day (clock_2025_01_10 0) /\
   Processor.fetch_template (fun _ => Ok two_lines)
     (fun _ => Processor.FileNotFoundError) "https://templates.example/t.log"
   = Returns two_lines /\
   Processor.is_json_array Ref.loads two_lines = Ok false) /\
  Extension._do_load_demo_data Ref.loads Ref.env clock_2025_01_10
    (fun _ => Ok two_lines) (fun _ => Processor.FileNotFoundError) (always 200)
    "https://templates.example/t.log" "https://hook.example/in"
  = (Raises (ValueError "Template must produce a list of events"), []).
Proof.
  split.
  { split; [exact window_day_2025_01_10|].
    split; [reflexivity|exact two_lines_mode]. }
  exact (@extension_rejects_line_templates Ref.loads Ref.env clock_2025_01_10
           (fun _ => Ok two_lines) (fun _ => Processor.FileNotFoundError)
           (always 200) "https://templates.example/t.log"
           "https://hook.example/in" two_lines
           window_day_2025_01_10 eq_refl two_lines_mode).
Defined.

Lemma extension_delivers_arrays_witness :
  (window_day (clock_2025_01_10 0) /\
   Processor.fetch_template (fun _ => Ok template_3_items)
     (fun _ => Processor.FileNotFoundError) "https://templates.example/t.json"
   = Returns template_3_items /\
   prefix "[" (strip template_3_items) = true /\
   Ref.loads (strip template_3_items) = Ok (JList three_events)) /\
  exists report,
    fst (Extension._do_load_demo_data Ref.loads Ref.env clock_2025_01_10
           (fun _ => Ok template_3_items)
           (fun _ => Processor.FileNotFoundError) (always 200)
           "https://templates.example/t.json" "https://hook.example/in")
    = Returns report /\
    Extension.events_total report = 3.
Proof.
  split.
  { split; [exact window_day_2025_01_10|]. split; [reflexivity|].
    split; [reflexivity|exact loads_template_3_items]. }
  pose proof (@extension_delivers_arrays Ref.loads Ref.env clock_2025_01_10
                (fun _ => Ok template_3_items)
                (fun _ => Processor.FileNotFoundError) (always 200)
                "https://templates.example/t.json" "https://hook.example/in"
                template_3_items three_events
                window_day_2025_01_10 eq_refl eq_refl
                loads_template_3_items) as H.
  cbv zeta in H. destruct H as [report [Hrun [_ [Ht _]]]].
  exists report. split; [rewrite Hrun; reflexivity|exact Ht].
Defined.

(** ** Nothing to send *)

Section EmptyInputs.

Variable json_loads : string -> result json.
Variable env : environment.
Variable now : nat -> date.
Variable fetch_template : string -> result string.
Variable net : network.

(** X17: nothing to send.  An empty array gives the playbook a report of
    success with every counter at zero, and a text of white space only
    lets [main] return normally; in both cases no request is made. *)
Theorem empty_inputs :
  forall (content url webhook_url output_dest : string) (delay : Z),
    (fetch_template url = Ok content ->
     json_loads (strip content) = Ok (JList []) ->
     Playbook.playbook json_loads env now fetch_template net
       url webhook_url delay
     = (Playbook.PbData
          (Playbook.mkreport "success" url 0 0 0 None None) None, [])) /\
    (strip content = EmptyString ->
     Processor.process_template json_loads env now content
     = Returns (Processor.Text EmptyString) /\
     (Processor.is_url output_dest = true ->
      Processor.main json_loads env now net content output_dest
      = (Returns tt, []))).
Proof.
  intros content url webhook_url output_dest delay. split.
  - intros Hf Hj. unfold Playbook.playbook, Playbook.process_json_template.
    rewrite Hf. simpl. rewrite Hj. reflexivity.
  - intros Hs.
    assert (Hp : Processor.process_template json_loads env now content
                 = Returns (Processor.Text EmptyString)).
    { unfold Processor.process_template, Processor.is_json_array.
      rewrite Hs. reflexivity. }
    split; [exact Hp|].
    intros Hurl. unfold Processor.main. rewrite Hp, Hurl. reflexivity.
Qed.

End EmptyInputs.
